(** * alucard_hotplug: a shallow embedding of the CPU hotplug controller

    Source: arch/arm/mach-msm/alucard_hotplug.c (the non-EXYNOS4210
    configuration, NR_CPUS = 4).

    The controller is a periodic work item ([hotplug_work_fn]) that reads
    per-core busy/idle accounting, the clock frequency and a time-weighted
    run-queue average ([rq_work_fn] / [get_nr_run_avg]) and marks at most one
    core to be brought online and one to be taken offline; two further work
    items ([cpu_online_work_fn], [cpu_offline_work_fn]) carry the marks out.

    C integers are modelled as [Z] with the wrap-around of each conversion
    written out; the per-cpu array is a list indexed by the cpu number; a
    work item is a boolean "pending" flag. *)

From Stdlib Require Import ZArith Lia Bool List.
From stdpp Require Import base list.
Import ListNotations.
Local Open Scope Z_scope.

(** ** Machine integers *)

Module MachInt.

Definition to_u32 (z : Z) : Z := z mod 2 ^ 32.
Definition to_u64 (z : Z) : Z := z mod 2 ^ 64.
Definition to_s32 (z : Z) : Z := (z + 2 ^ 31) mod 2 ^ 32 - 2 ^ 31.
Definition to_s64 (z : Z) : Z := (z + 2 ^ 63) mod 2 ^ 64 - 2 ^ 63.

(** [do_div(n, base)]: [n] is taken as an unsigned 64-bit value, [base] as
    an unsigned 32-bit one; the quotient replaces [n].  A zero [base] is a
    division fault in C; here the quotient is 0. *)
Definition do_div (n base : Z) : Z := to_u64 n / to_u32 base.

(** C truth value of an int. *)
Definition truthy (z : Z) : bool := negb (z =? 0).
Definition of_bool (b : bool) : Z := if b then 1 else 0.

End MachInt.
Import MachInt.

(** ** Configuration constants *)

Definition NR_CPUS : nat := 4.
Definition MAX_HOTPLUG_RATE : Z := 40.
Definition DOWN_INDEX : nat := 0.
Definition UP_INDEX : nat := 1.
Definition RQ_AVG_TIMER_RATE : Z := 10.

(** ** The platform

    What the controller reads from the rest of the kernel.  These functions
    are not part of the driver; a [platform] value is one snapshot of them. *)

Record platform := {
  cpu_online : nat -> bool;
  get_cpu_idle_time_us : nat -> Z;
  (** [get_cpu_iowait_time_us(cpu, &wall)] returns the iowait time and
      stores the wall time through its second argument. *)
  get_cpu_iowait_time_us : nat -> Z;
  get_cpu_wall_time_us : nat -> Z;
  acpuclk_get_rate : nat -> Z;
  cpufreq_quick_get : nat -> Z;
  nr_running : Z;
  ktime_get_ns : Z
}.

Definition possible_cpus : list nat := seq 0 NR_CPUS.

Definition online_cpus (p : platform) : list nat :=
  filter (fun c => cpu_online p c = true) possible_cpus.

Definition num_online_cpus (p : platform) : nat := length (online_cpus p).

(** ** Data model *)

Record hotplug_cpuinfo := {
  prev_cpu_wall : Z;
  prev_cpu_idle : Z;
  online : Z;
  up_cpu : Z;
  up_by_cpu : Z
}.

Record hotplug_tuners := {
  hotplug_sampling_rate : Z;
  hotplug_enable : Z;
  cpu_up_rate : Z;
  cpu_down_rate : Z;
  maxcoreslimit : Z;
  accuratecpufreq : Z
}.

Record runqueue_data := {
  nr_run_avg : Z;
  update_rate : Z;
  last_time : Z;
  total_time : Z;
  (** the delayed work is queued *)
  work : bool;
  (** the work queue has been created (the pointer is not NULL) *)
  nr_run_wq : bool
}.

(** A threshold table [atomic_t t[4][2]]: one row per index, each row
    [DOWN; UP]. *)
Definition table := list (list Z).

Definition atomic_read2 (t : table) (i j : nat) : Z :=
  match t !! i with
  | Some row => default 0 (row !! j)
  | None => 0
  end.

Record hotplug_state := {
  hotplug_tuners_ins : hotplug_tuners;
  hotplug_freq : table;
  hotplug_load : table;
  hotplug_rq : table;
  od_hotplug_cpuinfo : list hotplug_cpuinfo;
  hotplugging_rate : Z;
  other_hotplugging : bool;
  rq_data : runqueue_data;
  (** pending flags of the three work items *)
  alucard_hotplug_work : bool;
  alucard_hotplug_offline_work : bool;
  alucard_hotplug_online_work : bool
}.

(** ** Run-queue sampler *)

Definition start_rq_work (rq : runqueue_data) : runqueue_data :=
  {| nr_run_avg := 0;
     update_rate := update_rate rq;
     last_time := 0;
     total_time := 0;
     work := true;
     nr_run_wq := true |}.

Definition stop_rq_work (rq : runqueue_data) : runqueue_data :=
  if nr_run_wq rq then
    {| nr_run_avg := nr_run_avg rq;
       update_rate := update_rate rq;
       last_time := last_time rq;
       total_time := total_time rq;
       work := false;
       nr_run_wq := nr_run_wq rq |}
  else rq.

Definition init_rq_avg : runqueue_data :=
  {| nr_run_avg := 0;
     update_rate := RQ_AVG_TIMER_RATE;
     last_time := 0;
     total_time := 0;
     work := false;
     nr_run_wq := false |}.

(** [rq_work_fn], at time [cur_time] (ns) with [running] runnable tasks. *)
Definition rq_work_fn (cur_time running : Z) (rq : runqueue_data)
  : runqueue_data :=
  let last_time1 := if last_time rq =? 0 then cur_time else last_time rq in
  let total_time1 := if nr_run_avg rq =? 0 then 0 else total_time rq in
  let nr_run := to_u32 (running * 100) in
  let time_diff := to_s64 (cur_time - last_time1) in
  let time_diff := to_s64 (do_div time_diff (1000 * 1000)) in
  let nr_run :=
    if negb (time_diff =? 0) && negb (total_time1 =? 0) then
      let nr_run :=
        to_s64 (nr_run * time_diff + nr_run_avg rq * total_time1) in
      to_s64 (do_div nr_run (total_time1 + time_diff))
    else nr_run in
  {| nr_run_avg := to_u32 nr_run;
     update_rate := update_rate rq;
     last_time := cur_time;
     total_time := to_s64 (total_time1 + time_diff);
     work := negb (update_rate rq =? 0);
     nr_run_wq := nr_run_wq rq |}.

(** [get_nr_run_avg]: the value read and the sampler after the reset. *)
Definition get_nr_run_avg (rq : runqueue_data) : Z * runqueue_data :=
  (nr_run_avg rq,
   {| nr_run_avg := 0;
      update_rate := update_rate rq;
      last_time := last_time rq;
      total_time := total_time rq;
      work := work rq;
      nr_run_wq := nr_run_wq rq |}).

(** ** Per-cpu records *)

Definition zero_cpuinfo : hotplug_cpuinfo :=
  {| prev_cpu_wall := 0; prev_cpu_idle := 0; online := 0; up_cpu := 0;
     up_by_cpu := 0 |}.

(** [per_cpu(od_hotplug_cpuinfo, cpu)] as an rvalue.  Every possible cpu has
    a record; outside the array the model reads zeroes and writes nothing. *)
Definition per_cpu (l : list hotplug_cpuinfo) (cpu : nat) : hotplug_cpuinfo :=
  default zero_cpuinfo (l !! cpu).

Definition set_prev (wall idle : Z) (i : hotplug_cpuinfo) : hotplug_cpuinfo :=
  {| prev_cpu_wall := wall; prev_cpu_idle := idle; online := online i;
     up_cpu := up_cpu i; up_by_cpu := up_by_cpu i |}.

Definition set_online (v : Z) (i : hotplug_cpuinfo) : hotplug_cpuinfo :=
  {| prev_cpu_wall := prev_cpu_wall i; prev_cpu_idle := prev_cpu_idle i;
     online := v; up_cpu := up_cpu i; up_by_cpu := up_by_cpu i |}.

Definition set_up_cpu (v : Z) (i : hotplug_cpuinfo) : hotplug_cpuinfo :=
  {| prev_cpu_wall := prev_cpu_wall i; prev_cpu_idle := prev_cpu_idle i;
     online := online i; up_cpu := v; up_by_cpu := up_by_cpu i |}.

Definition set_up_by_cpu (v : Z) (i : hotplug_cpuinfo) : hotplug_cpuinfo :=
  {| prev_cpu_wall := prev_cpu_wall i; prev_cpu_idle := prev_cpu_idle i;
     online := online i; up_cpu := up_cpu i; up_by_cpu := v |}.

(** ** The decision tick *)

(** What a tick decides, in the order it decides it.  Each event is logged
    at the statement group of [hotplug_work_fn] that performs it:
    [UpTrigger cpu] where [up_cpu_req = cpu] is assigned,
    [MarkOffline cpu] where the record of [cpu] is set offline and the
    offline work is scheduled, [MarkOnline cpu by] where the record of [cpu]
    is set online with [up_by_cpu = by] and the online work is scheduled. *)
Inductive event :=
| UpTrigger (cpu : nat)
| MarkOffline (cpu : nat)
| MarkOnline (cpu : nat) (by_cpu : Z).

Definition is_mark_online (e : event) : bool :=
  match e with MarkOnline _ _ => true | _ => false end.

Definition is_mark_offline (e : event) : bool :=
  match e with MarkOffline _ => true | _ => false end.

Definition is_up_trigger (e : event) : bool :=
  match e with UpTrigger _ => true | _ => false end.

Definition event_cpu (e : event) : nat :=
  match e with
  | UpTrigger c => c
  | MarkOffline c => c
  | MarkOnline c _ => c
  end.

(** The six thresholds the loop body reads for one iteration. *)
Record thresholds := {
  up_load : Z;
  down_load : Z;
  up_freq : Z;
  down_freq : Z;
  up_rq : Z;
  down_rq : Z
}.

(** The reads at the top of the loop body: every table is indexed by the
    loop variable [cpu].  The load thresholds are [int], the others
    [unsigned int]. *)
Definition read_thresholds (st : hotplug_state) (cpu : nat) : thresholds :=
  {| up_load := atomic_read2 (hotplug_load st) cpu UP_INDEX;
     down_load := atomic_read2 (hotplug_load st) cpu DOWN_INDEX;
     up_freq := to_u32 (atomic_read2 (hotplug_freq st) cpu UP_INDEX);
     down_freq := to_u32 (atomic_read2 (hotplug_freq st) cpu DOWN_INDEX);
     up_rq := to_u32 (atomic_read2 (hotplug_rq st) cpu UP_INDEX);
     down_rq := to_u32 (atomic_read2 (hotplug_rq st) cpu DOWN_INDEX) |}.

(** The variables that live across iterations of the per-cpu loop. *)
Record tick_frame := {
  f_cpuinfo : list hotplug_cpuinfo;
  f_other_hotplugging : bool;
  schedule_down_cpu : Z;
  schedule_up_cpu : Z;
  up_cpu_req : Z;
  f_offline_work : bool;
  f_online_work : bool;
  f_trace : list event
}.

Definition with_cpuinfo (l : list hotplug_cpuinfo) (f : tick_frame)
  : tick_frame :=
  {| f_cpuinfo := l;
     f_other_hotplugging := f_other_hotplugging f;
     schedule_down_cpu := schedule_down_cpu f;
     schedule_up_cpu := schedule_up_cpu f;
     up_cpu_req := up_cpu_req f;
     f_offline_work := f_offline_work f;
     f_online_work := f_online_work f;
     f_trace := f_trace f |}.

(** Interval load, in percent: [100 * (wall_time - idle_time)] is unsigned
    32-bit arithmetic, the quotient is stored in an [int]. *)
Definition interval_load (wall_time idle_time : Z) : Z :=
  if wall_time >? idle_time
  then to_s32 (to_u32 (100 * (wall_time - idle_time)) / wall_time)
  else 0.

(** The accounting reads of one iteration: the new cumulative counters and
    the two interval deltas. *)
Definition cur_idle_time (p : platform) (cpu : nat) : Z :=
  to_u64 (to_u64 (get_cpu_idle_time_us p cpu) + get_cpu_iowait_time_us p cpu).

Definition cur_wall_time (p : platform) (cpu : nat) : Z :=
  to_u64 (get_cpu_wall_time_us p cpu).

(** The recorded flag against the hardware status, and the housekeeping of a
    core that is offline and recorded offline. *)
Definition detect_drift (p : platform) (cpu : nat) (f : tick_frame)
  : tick_frame :=
  let online_now := of_bool (cpu_online p cpu) in
  if negb (online (per_cpu (f_cpuinfo f) cpu) =? online_now) then
    {| f_cpuinfo := f_cpuinfo f;
       f_other_hotplugging := true;
       schedule_down_cpu := schedule_down_cpu f;
       schedule_up_cpu := schedule_up_cpu f;
       up_cpu_req := up_cpu_req f;
       f_offline_work := f_offline_work f;
       f_online_work := f_online_work f;
       f_trace := f_trace f |}
  else if negb (truthy online_now) then
    let l := alter (set_up_cpu 1) cpu (f_cpuinfo f) in
    let up_by := up_by_cpu (per_cpu l cpu) in
    if up_by >=? 0 then
      let l := alter (set_up_cpu 1) (Z.to_nat up_by) l in
      with_cpuinfo (alter (set_up_by_cpu (-1)) cpu l) f
    else with_cpuinfo l f
  else f.

(** The qualification tests, as written in the two inner [if]s. *)
Definition up_qualifies (th : thresholds) (cur_load cur_freq rq_avg : Z)
  : bool :=
  (cur_load >=? up_load th) && (cur_freq >=? up_freq th)
  && (rq_avg >? up_rq th).

Definition down_qualifies (th : thresholds) (online_now cur_load cur_freq
  rq_avg : Z) : bool :=
  ((online_now >=? 2) && (cur_load <? down_load th))
  || ((cur_freq <=? down_freq th) && (rq_avg <=? down_rq th)).

Definition downmaxcoreslimit (upmaxcoreslimit : Z) : Z :=
  if upmaxcoreslimit =? Z.of_nat NR_CPUS then 0 else upmaxcoreslimit - 1.

(** The up evaluation of one core. *)
Definition eval_up (st : hotplug_state) (th : thresholds) (check_up : bool)
  (rq_avg : Z) (online_now cur_load cur_freq : Z) (cpu : nat) (f : tick_frame)
  : tick_frame :=
  let upmaxcoreslimit := maxcoreslimit (hotplug_tuners_ins st) in
  if check_up
     && (Z.of_nat cpu <? to_u32 (upmaxcoreslimit - 1))
     && (up_cpu (per_cpu (f_cpuinfo f) cpu) >? 0)
     && (schedule_up_cpu f >? 0)
     && truthy online_now
     && up_qualifies th cur_load cur_freq rq_avg
  then
    {| f_cpuinfo := alter (set_up_cpu 0) cpu (f_cpuinfo f);
       f_other_hotplugging := f_other_hotplugging f;
       schedule_down_cpu := schedule_down_cpu f;
       schedule_up_cpu := schedule_up_cpu f - 1;
       up_cpu_req := Z.of_nat cpu;
       f_offline_work := f_offline_work f;
       f_online_work := f_online_work f;
       f_trace := f_trace f ++ [UpTrigger cpu] |}
  else f.

(** The down evaluation of one core. *)
Definition eval_down (st : hotplug_state) (th : thresholds)
  (check_down : bool) (rq_avg : Z) (online_now cur_load cur_freq : Z)
  (cpu : nat) (f : tick_frame)
  : tick_frame :=
  let upmaxcoreslimit := maxcoreslimit (hotplug_tuners_ins st) in
  if check_down
     && (Z.of_nat cpu >? to_u32 (downmaxcoreslimit upmaxcoreslimit))
     && truthy online_now
     && (schedule_down_cpu f >? 0)
     && (cur_load >=? 0)
     && down_qualifies th online_now cur_load cur_freq rq_avg
  then
    {| f_cpuinfo := alter (set_online 0) cpu (f_cpuinfo f);
       f_other_hotplugging := f_other_hotplugging f;
       schedule_down_cpu := schedule_down_cpu f - 1;
       schedule_up_cpu := schedule_up_cpu f;
       up_cpu_req := up_cpu_req f;
       f_offline_work := true;
       f_online_work := f_online_work f;
       f_trace := f_trace f ++ [MarkOffline cpu] |}
  else f.

(** The core that is brought up for a recorded trigger. *)
Definition mark_up (online_now : Z) (cpu : nat) (f : tick_frame)
  : tick_frame :=
  if (schedule_up_cpu f =? 0) && negb (truthy online_now) then
    {| f_cpuinfo :=
         alter (set_up_by_cpu (up_cpu_req f))
           cpu (alter (set_online 1) cpu (f_cpuinfo f));
       f_other_hotplugging := f_other_hotplugging f;
       schedule_down_cpu := schedule_down_cpu f;
       schedule_up_cpu := schedule_up_cpu f - 1;
       up_cpu_req := up_cpu_req f;
       f_offline_work := f_offline_work f;
       f_online_work := true;
       f_trace := f_trace f ++ [MarkOnline cpu (up_cpu_req f)] |}
  else f.

(** The load and frequency a core is judged on. *)
Definition cur_load_freq (p : platform) (st : hotplug_state)
  (wall_time idle_time online_now : Z) (cpu : nat) : Z * Z :=
  if (wall_time >=? idle_time) && truthy online_now then
    (interval_load wall_time idle_time,
     to_u32 (if accuratecpufreq (hotplug_tuners_ins st) >? 0
             then acpuclk_get_rate p cpu
             else cpufreq_quick_get p cpu))
  else (-1, 0).

(** The body of [for_each_possible_cpu] in [hotplug_work_fn], after the six
    threshold reads have produced [th]. *)
Definition tick_cpu_with (th : thresholds) (p : platform)
  (st : hotplug_state) (check_up check_down : bool) (rq_avg : Z)
  (f : tick_frame) (cpu : nat) : tick_frame :=
  let info := per_cpu (f_cpuinfo f) cpu in
  let wall_time := to_u32 (cur_wall_time p cpu - prev_cpu_wall info) in
  let idle_time := to_u32 (cur_idle_time p cpu - prev_cpu_idle info) in
  let f :=
    with_cpuinfo
      (alter (set_prev (cur_wall_time p cpu) (cur_idle_time p cpu)) cpu
         (f_cpuinfo f)) f in
  let online_now := of_bool (cpu_online p cpu) in
  let f := detect_drift p cpu f in
  if f_other_hotplugging f then f
  else
    let '(cur_load, cur_freq) :=
      cur_load_freq p st wall_time idle_time online_now cpu in
    let f :=
      eval_up st th check_up rq_avg online_now cur_load cur_freq cpu f in
    let f :=
      eval_down st th check_down rq_avg online_now cur_load cur_freq cpu f in
    mark_up online_now cpu f.

(** One iteration of [for_each_possible_cpu] in [hotplug_work_fn]. *)
Definition tick_cpu (p : platform) (st : hotplug_state)
  (check_up check_down : bool) (rq_avg : Z) (f : tick_frame) (cpu : nat)
  : tick_frame :=
  tick_cpu_with (read_thresholds st cpu) p st check_up check_down rq_avg f cpu.

(** The reading of the threshold matrix by "number of cores currently
    online": the row of index [num_online_cpus() - 1].  This is the
    specification's access pattern, stated for comparison with
    [read_thresholds]; the driver does not use it. *)
Definition spec_thresholds_by_online_count (p : platform)
  (st : hotplug_state) : thresholds :=
  read_thresholds st (num_online_cpus p - 1)%nat.

Definition tick_loop (p : platform) (st : hotplug_state)
  (check_up check_down : bool) (rq_avg : Z) (cpus : list nat)
  (f : tick_frame) : tick_frame :=
  fold_left (tick_cpu p st check_up check_down rq_avg) cpus f.

(** The resynchronisation loop that follows a tick with
    [other_hotplugging] set. *)
Definition resync_cpu (p : platform) (l : list hotplug_cpuinfo) (cpu : nat)
  : list hotplug_cpuinfo :=
  alter (fun i => set_up_by_cpu (-1)
                    (set_up_cpu 1 (set_online (of_bool (cpu_online p cpu)) i)))
    cpu l.

Definition resync (p : platform) (l : list hotplug_cpuinfo)
  : list hotplug_cpuinfo :=
  fold_left (resync_cpu p) possible_cpus l.

(** The tick counter and the two rate gates.  [hotplugging_rate] is
    [unsigned]; the [int] rates are converted to it in [%] and [>=].  The
    setters keep both rates within 1..40, so the modulus is never 0. *)
Definition next_rate (st : hotplug_state) : Z :=
  to_u32 (hotplugging_rate st + 1).

Definition tick_check_up (st : hotplug_state) : bool :=
  next_rate st mod to_u32 (cpu_up_rate (hotplug_tuners_ins st)) =? 0.

Definition tick_check_down (st : hotplug_state) : bool :=
  next_rate st mod to_u32 (cpu_down_rate (hotplug_tuners_ins st)) =? 0.

Definition wrap_rate (st : hotplug_state) : Z :=
  if next_rate st >=?
     to_u32 (Z.max (cpu_up_rate (hotplug_tuners_ins st))
               (cpu_down_rate (hotplug_tuners_ins st)))
  then 0 else next_rate st.

Definition initial_frame (st : hotplug_state) : tick_frame :=
  {| f_cpuinfo := od_hotplug_cpuinfo st;
     f_other_hotplugging := false;
     schedule_down_cpu := 1;
     schedule_up_cpu := 1;
     up_cpu_req := -1;
     f_offline_work := alucard_hotplug_offline_work st;
     f_online_work := alucard_hotplug_online_work st;
     f_trace := [] |}.

(** The frame after the per-cpu loop of a tick. *)
Definition tick_frame_of (p : platform) (st : hotplug_state) : tick_frame :=
  tick_loop p st (tick_check_up st) (tick_check_down st)
    (fst (get_nr_run_avg (rq_data st))) possible_cpus (initial_frame st).

(** [hotplug_work_fn]: the state after the handler and what it decided.
    The handler runs with its own work item already dequeued. *)
Definition hotplug_work_fn (p : platform) (st : hotplug_state)
  : hotplug_state * list event :=
  if hotplug_enable (hotplug_tuners_ins st) >? 0 then
    let f := tick_frame_of p st in
    let l := if f_other_hotplugging f then resync p (f_cpuinfo f)
             else f_cpuinfo f in
    let l := if (num_online_cpus p =? 1)%nat then alter (set_up_cpu 1) 0%nat l
             else l in
    ({| hotplug_tuners_ins := hotplug_tuners_ins st;
        hotplug_freq := hotplug_freq st;
        hotplug_load := hotplug_load st;
        hotplug_rq := hotplug_rq st;
        od_hotplug_cpuinfo := l;
        hotplugging_rate := wrap_rate st;
        other_hotplugging := false;
        rq_data := snd (get_nr_run_avg (rq_data st));
        alucard_hotplug_work := true;
        alucard_hotplug_offline_work := f_offline_work f;
        alucard_hotplug_online_work := f_online_work f |},
     f_trace f)
  else (st, []).

(** ** Hardware transitions *)

Definition with_cpu_online (m : nat -> bool) (p : platform) : platform :=
  {| cpu_online := m;
     get_cpu_idle_time_us := get_cpu_idle_time_us p;
     get_cpu_iowait_time_us := get_cpu_iowait_time_us p;
     get_cpu_wall_time_us := get_cpu_wall_time_us p;
     acpuclk_get_rate := acpuclk_get_rate p;
     cpufreq_quick_get := cpufreq_quick_get p;
     nr_running := nr_running p;
     ktime_get_ns := ktime_get_ns p |}.

(** Modelled from the spec: the platform's [cpu_up], which is not part of
    the driver ("set_core_online(core, bool): requests a hardware
    transition; may fail").  Bringing up a possible cpu succeeds. *)
Definition cpu_up (cpu : nat) (p : platform) : platform :=
  if (cpu <? NR_CPUS)%nat
  then with_cpu_online
         (fun c => if (c =? cpu)%nat then true else cpu_online p c) p
  else p.

(** Modelled from the spec: the platform's [cpu_down], which is not part of
    the driver ("may fail (e.g., platform refuses to offline the last
    core)").  Taking down the only online cpu fails and changes nothing. *)
Definition cpu_down (cpu : nat) (p : platform) : platform :=
  if (num_online_cpus p =? 1)%nat then p
  else with_cpu_online
         (fun c => if (c =? cpu)%nat then false else cpu_online p c) p.

(** ** Transition executors

    Each returns the platform after its calls and the list of cpus it called
    [cpu_up] (resp. [cpu_down]) on. *)

Definition cpu_online_work_step (st : hotplug_state)
  (acc : platform * list nat) (cpu : nat) : platform * list nat :=
  if negb (cpu_online (fst acc) cpu)
     && (online (per_cpu (od_hotplug_cpuinfo st) cpu) =? of_bool true)
  then (cpu_up cpu (fst acc), snd acc ++ [cpu])
  else acc.

Definition cpu_online_work_fn (st : hotplug_state) (p : platform)
  : platform * list nat :=
  fold_left (cpu_online_work_step st) possible_cpus (p, []).

Definition cpu_offline_work_step (st : hotplug_state)
  (acc : platform * list nat) (cpu : nat) : platform * list nat :=
  if cpu_online (fst acc) cpu
     && (online (per_cpu (od_hotplug_cpuinfo st) cpu) =? of_bool false)
  then (cpu_down cpu (fst acc), snd acc ++ [cpu])
  else acc.

Definition cpu_offline_work_fn (st : hotplug_state) (p : platform)
  : hotplug_state * platform * list nat :=
  let '(p', calls) :=
    fold_left (cpu_offline_work_step st) possible_cpus (p, []) in
  let l := if (num_online_cpus p' =? 1)%nat
           then alter (set_up_cpu 1) 0%nat (od_hotplug_cpuinfo st)
           else od_hotplug_cpuinfo st in
  ({| hotplug_tuners_ins := hotplug_tuners_ins st;
      hotplug_freq := hotplug_freq st;
      hotplug_load := hotplug_load st;
      hotplug_rq := hotplug_rq st;
      od_hotplug_cpuinfo := l;
      hotplugging_rate := hotplugging_rate st;
      other_hotplugging := other_hotplugging st;
      rq_data := rq_data st;
      alucard_hotplug_work := alucard_hotplug_work st;
      alucard_hotplug_offline_work := alucard_hotplug_offline_work st;
      alucard_hotplug_online_work := alucard_hotplug_online_work st |},
   p', calls).

(** ** Enabling and disabling *)

Definition seed_cpu (p : platform) (l : list hotplug_cpuinfo) (cpu : nat)
  : list hotplug_cpuinfo :=
  alter (fun _ =>
           {| prev_cpu_wall := cur_wall_time p cpu;
              prev_cpu_idle := cur_idle_time p cpu;
              online := of_bool (cpu_online p cpu);
              up_cpu := 1;
              up_by_cpu := -1 |})
    cpu l.

(** The body of the loop of [cpus_hotplugging(false)]: an online cpu other
    than cpu 0 is taken down. *)
Definition offline_secondary_cpu (p : platform) (cpu : nat) : platform :=
  if cpu_online p cpu
  then (if (cpu =? 0)%nat then p else cpu_down cpu p)
  else p.

(** [cpus_hotplugging(state)] on the controller and the platform. *)
Definition cpus_hotplugging (state : bool) (w : hotplug_state * platform)
  : hotplug_state * platform :=
  let '(st, p) := w in
  if state then
    ({| hotplug_tuners_ins := hotplug_tuners_ins st;
        hotplug_freq := hotplug_freq st;
        hotplug_load := hotplug_load st;
        hotplug_rq := hotplug_rq st;
        od_hotplug_cpuinfo :=
          fold_left (seed_cpu p) possible_cpus (od_hotplug_cpuinfo st);
        hotplugging_rate := 0;
        other_hotplugging := other_hotplugging st;
        rq_data := start_rq_work (rq_data st);
        alucard_hotplug_work := true;
        alucard_hotplug_offline_work := alucard_hotplug_offline_work st;
        alucard_hotplug_online_work := alucard_hotplug_online_work st |},
     p)
  else
    ({| hotplug_tuners_ins := hotplug_tuners_ins st;
        hotplug_freq := hotplug_freq st;
        hotplug_load := hotplug_load st;
        hotplug_rq := hotplug_rq st;
        od_hotplug_cpuinfo := od_hotplug_cpuinfo st;
        hotplugging_rate := hotplugging_rate st;
        other_hotplugging := other_hotplugging st;
        rq_data := stop_rq_work (rq_data st);
        alucard_hotplug_work := alucard_hotplug_work st;
        alucard_hotplug_offline_work := alucard_hotplug_offline_work st;
        alucard_hotplug_online_work := alucard_hotplug_online_work st |},
     fold_left offline_secondary_cpu possible_cpus p).

Definition set_hotplug_enable (v : Z) (st : hotplug_state) : hotplug_state :=
  {| hotplug_tuners_ins :=
       {| hotplug_sampling_rate :=
            hotplug_sampling_rate (hotplug_tuners_ins st);
          hotplug_enable := v;
          cpu_up_rate := cpu_up_rate (hotplug_tuners_ins st);
          cpu_down_rate := cpu_down_rate (hotplug_tuners_ins st);
          maxcoreslimit := maxcoreslimit (hotplug_tuners_ins st);
          accuratecpufreq := accuratecpufreq (hotplug_tuners_ins st) |};
     hotplug_freq := hotplug_freq st;
     hotplug_load := hotplug_load st;
     hotplug_rq := hotplug_rq st;
     od_hotplug_cpuinfo := od_hotplug_cpuinfo st;
     hotplugging_rate := hotplugging_rate st;
     other_hotplugging := other_hotplugging st;
     rq_data := rq_data st;
     alucard_hotplug_work := alucard_hotplug_work st;
     alucard_hotplug_offline_work := alucard_hotplug_offline_work st;
     alucard_hotplug_online_work := alucard_hotplug_online_work st |}.

(** [store_hotplug_enable]: [input] is what [sscanf] parsed, [None] when it
    parsed nothing (the call then returns -EINVAL and changes nothing). *)
Definition store_hotplug_enable (input : option Z)
  (w : hotplug_state * platform) : hotplug_state * platform :=
  match input with
  | None => w
  | Some input =>
      let input := of_bool (input >? 0) in
      if hotplug_enable (hotplug_tuners_ins (fst w)) =? input then w
      else
        let '(st, p) := cpus_hotplugging (input >? 0) w in
        (set_hotplug_enable input st, p)
  end.

(** The controller is disabled by writing 0 to [hotplug_enable]. *)
Definition disable (w : hotplug_state * platform)
  : hotplug_state * platform :=
  store_hotplug_enable (Some 0) w.

(** The workqueue running the tick: the work item is dequeued, then the
    handler runs. *)
Definition clear_hotplug_work (st : hotplug_state) : hotplug_state :=
  {| hotplug_tuners_ins := hotplug_tuners_ins st;
     hotplug_freq := hotplug_freq st;
     hotplug_load := hotplug_load st;
     hotplug_rq := hotplug_rq st;
     od_hotplug_cpuinfo := od_hotplug_cpuinfo st;
     hotplugging_rate := hotplugging_rate st;
     other_hotplugging := other_hotplugging st;
     rq_data := rq_data st;
     alucard_hotplug_work := false;
     alucard_hotplug_offline_work := alucard_hotplug_offline_work st;
     alucard_hotplug_online_work := alucard_hotplug_online_work st |}.

Definition run_hotplug_work (p : platform) (st : hotplug_state)
  : hotplug_state * list event :=
  if alucard_hotplug_work st then hotplug_work_fn p (clear_hotplug_work st)
  else (st, []).

(** ** Initial values and sample configurations *)

(** The initialisers of the three tables (non-EXYNOS4210). *)
Definition hotplug_freq_init : table :=
  [[0; 702000]; [486000; 702000]; [486000; 702000]; [486000; 0]].

Definition hotplug_load_init : table :=
  [[0; 65]; [30; 65]; [30; 65]; [30; 0]].

Definition hotplug_rq_init : table :=
  [[0; 200]; [200; 200]; [200; 300]; [300; 0]].

Definition hotplug_tuners_init : hotplug_tuners :=
  {| hotplug_sampling_rate := 60000;
     hotplug_enable := 0;
     cpu_up_rate := 10;
     cpu_down_rate := 20;
     maxcoreslimit := Z.of_nat NR_CPUS;
     accuratecpufreq := 0 |}.

(** A platform snapshot given by four per-cpu rows
    [(online, wall, idle, freq)]; iowait is 0. *)
Definition platform_of (rows : list (bool * Z * Z * Z)) (running now : Z)
  : platform :=
  let row c := default (false, 0, 0, 0) (rows !! c) in
  {| cpu_online := fun c => (row c).1.1.1;
     get_cpu_idle_time_us := fun c => (row c).1.2;
     get_cpu_iowait_time_us := fun _ => 0;
     get_cpu_wall_time_us := fun c => (row c).1.1.2;
     acpuclk_get_rate := fun c => (row c).2;
     cpufreq_quick_get := fun c => (row c).2;
     nr_running := running;
     ktime_get_ns := now |}.

(** A consistent record for a core: baselines 0, eligible, brought up by
    nobody. *)
Definition fresh_cpuinfo (on : bool) : hotplug_cpuinfo :=
  {| prev_cpu_wall := 0; prev_cpu_idle := 0; online := of_bool on;
     up_cpu := 1; up_by_cpu := -1 |}.

(** An enabled controller with the initial tables, the given rates, cap,
    tick counter, records and accumulated run-queue average. *)
Definition running_state (up_rate down_rate cap rate avg : Z)
  (l : list hotplug_cpuinfo) : hotplug_state :=
  {| hotplug_tuners_ins :=
       {| hotplug_sampling_rate := 60000;
          hotplug_enable := 1;
          cpu_up_rate := up_rate;
          cpu_down_rate := down_rate;
          maxcoreslimit := cap;
          accuratecpufreq := 0 |};
     hotplug_freq := hotplug_freq_init;
     hotplug_load := hotplug_load_init;
     hotplug_rq := hotplug_rq_init;
     od_hotplug_cpuinfo := l;
     hotplugging_rate := rate;
     other_hotplugging := false;
     rq_data :=
       {| nr_run_avg := avg; update_rate := RQ_AVG_TIMER_RATE;
          last_time := 1; total_time := 0; work := true;
          nr_run_wq := true |};
     alucard_hotplug_work := false;
     alucard_hotplug_offline_work := false;
     alucard_hotplug_online_work := false |}.

(** ** Sample ticks *)

(** The decision loop run with the specification's thresholds (one triple
    per tick, by online count) in place of the per-core reads; for
    comparison only. *)
Definition spec_tick_trace (p : platform) (st : hotplug_state)
  : list event :=
  f_trace
    (fold_left
       (tick_cpu_with (spec_thresholds_by_online_count p st) p st
          (tick_check_up st) (tick_check_down st)
          (fst (get_nr_run_avg (rq_data st))))
       possible_cpus (initial_frame st)).

Definition with_pending (tick offline_w online_w : bool)
  (st : hotplug_state) : hotplug_state :=
  {| hotplug_tuners_ins := hotplug_tuners_ins st;
     hotplug_freq := hotplug_freq st;
     hotplug_load := hotplug_load st;
     hotplug_rq := hotplug_rq st;
     od_hotplug_cpuinfo := od_hotplug_cpuinfo st;
     hotplugging_rate := hotplugging_rate st;
     other_hotplugging := other_hotplugging st;
     rq_data := rq_data st;
     alucard_hotplug_work := tick;
     alucard_hotplug_offline_work := offline_w;
     alucard_hotplug_online_work := online_w |}.

Module Samples.

(** Three cores online; core 1 at 90% load and 1 GHz, the others at 10%
    load; run-queue average 250; the up gate open on every tick. *)
Definition p_three_online : platform :=
  platform_of
    [(true, 1000, 900, 300000); (true, 1000, 100, 1000000);
     (true, 1000, 900, 300000); (false, 0, 0, 0)] 3 100.

Definition s_three_online : hotplug_state :=
  running_state 1 20 4 0 250
    [fresh_cpuinfo true; fresh_cpuinfo true; fresh_cpuinfo true;
     fresh_cpuinfo false].

(** The same controller with another row 2 in the run-queue table. *)
Definition s_three_online_row2 : hotplug_state :=
  {| hotplug_tuners_ins := hotplug_tuners_ins s_three_online;
     hotplug_freq := hotplug_freq s_three_online;
     hotplug_load := hotplug_load s_three_online;
     hotplug_rq := [[0; 200]; [200; 200]; [0; 0]; [300; 0]];
     od_hotplug_cpuinfo := od_hotplug_cpuinfo s_three_online;
     hotplugging_rate := hotplugging_rate s_three_online;
     other_hotplugging := other_hotplugging s_three_online;
     rq_data := rq_data s_three_online;
     alucard_hotplug_work := alucard_hotplug_work s_three_online;
     alucard_hotplug_offline_work :=
       alucard_hotplug_offline_work s_three_online;
     alucard_hotplug_online_work :=
       alucard_hotplug_online_work s_three_online |}.

(** Cores 0 and 1 online and recorded so; core 1 at 10% load and 300 MHz;
    core 2 online but recorded offline; the down gate open. *)
Definition p_drift_at_2 : platform :=
  platform_of
    [(true, 1000, 500, 1000000); (true, 1000, 900, 300000);
     (true, 0, 0, 0); (false, 0, 0, 0)] 5 100.

Definition s_drift_at_2 : hotplug_state :=
  running_state 10 1 4 0 100
    [fresh_cpuinfo true; fresh_cpuinfo true; fresh_cpuinfo false;
     fresh_cpuinfo false].

(** Cores 0 and 1 online; core 1 at 10% load but 1 GHz; run-queue average
    400; the down gate open. *)
Definition p_two_online : platform :=
  platform_of
    [(true, 1000, 500, 1000000); (true, 1000, 900, 1000000);
     (false, 0, 0, 0); (false, 0, 0, 0)] 5 100.

Definition s_two_online : hotplug_state :=
  running_state 10 1 4 0 400
    [fresh_cpuinfo true; fresh_cpuinfo true; fresh_cpuinfo false;
     fresh_cpuinfo false].

(** Cores 0 and 2 online, 1 and 3 offline; core 0 at 10% load, core 2 at
    90% load and 1 GHz; run-queue average 400; the up gate open. *)
Definition p_gap : platform :=
  platform_of
    [(true, 1000, 900, 300000); (false, 0, 0, 0);
     (true, 1000, 100, 1000000); (false, 0, 0, 0)] 5 100.

Definition s_gap : hotplug_state :=
  running_state 1 20 4 0 400
    [fresh_cpuinfo true; fresh_cpuinfo false; fresh_cpuinfo true;
     fresh_cpuinfo false].

(** Cap of 2 cores with three online; core 2 at 10% load and 300 MHz;
    run-queue average 100; the down gate open. *)
Definition p_over_cap : platform :=
  platform_of
    [(true, 1000, 500, 1000000); (true, 1000, 500, 1000000);
     (true, 1000, 900, 300000); (false, 0, 0, 0)] 1 100.

Definition s_over_cap : hotplug_state :=
  running_state 10 1 2 0 100
    [fresh_cpuinfo true; fresh_cpuinfo true; fresh_cpuinfo true;
     fresh_cpuinfo false].

(** A running controller whose last tick marked core 1 online (for
    trigger core 0): the tick and the online work are both pending and
    core 1 is still offline. *)
Definition p_pending : platform :=
  platform_of
    [(true, 1000, 100, 1000000); (false, 0, 0, 0); (false, 0, 0, 0);
     (false, 0, 0, 0)] 5 100.

Definition s_pending : hotplug_state :=
  with_pending true false true
    (running_state 10 20 4 0 0
       [set_up_cpu 0 (fresh_cpuinfo true);
        set_up_by_cpu 0 (fresh_cpuinfo true);
        fresh_cpuinfo false; fresh_cpuinfo false]).

(** A disabled controller with a tick still queued. *)
Definition s_disabled : hotplug_state :=
  set_hotplug_enable 0 s_pending.

End Samples.

(** ** Vocabulary for the properties of a tick *)

(** The recorded online flag of a core disagrees with the hardware. *)
Definition drifted (p : platform) (l : list hotplug_cpuinfo) (cpu : nat)
  : bool :=
  negb (online (per_cpu l cpu) =? of_bool (cpu_online p cpu)).

(** The events of one iteration, given which of the three decisions it
    took. *)
Definition iteration_events (cpu : nat) (req : Z) (trig down mark : bool)
  : list event :=
  (if trig then [UpTrigger cpu] else [])
  ++ (if down then [MarkOffline cpu] else [])
  ++ (if mark then [MarkOnline cpu req] else []).

(** How one iteration of the per-core loop relates the frame before it to
    the frame after it, in terms of the decisions [trig] (the core became
    the up-trigger), [down] (it was marked offline) and [mark] (it was
    marked online). *)
Definition iteration_spec (p : platform) (st : hotplug_state)
  (f : tick_frame) (cpu : nat) (f' : tick_frame) (trig down mark : bool)
  : Prop :=
  f_trace f' = f_trace f ++ iteration_events cpu (up_cpu_req f) trig down mark
  /\ schedule_up_cpu f' = schedule_up_cpu f - of_bool trig - of_bool mark
  /\ schedule_down_cpu f' = schedule_down_cpu f - of_bool down
  /\ up_cpu_req f' = (if trig then Z.of_nat cpu else up_cpu_req f)
  /\ f_other_hotplugging f'
     = f_other_hotplugging f || drifted p (f_cpuinfo f) cpu
  /\ f_offline_work f' = f_offline_work f || down
  /\ f_online_work f' = f_online_work f || mark
  /\ length (f_cpuinfo f') = length (f_cpuinfo f)
  /\ (trig = true ->
      schedule_up_cpu f > 0 /\ cpu_online p cpu = true
      /\ f_other_hotplugging f' = false)
  /\ (down = true ->
      schedule_down_cpu f > 0 /\ cpu_online p cpu = true
      /\ f_other_hotplugging f' = false
      /\ Z.of_nat cpu
         > to_u32 (downmaxcoreslimit (maxcoreslimit (hotplug_tuners_ins st))))
  /\ (mark = true ->
      schedule_up_cpu f = 0 /\ cpu_online p cpu = false
      /\ f_other_hotplugging f' = false
      /\ ((cpu < length (f_cpuinfo f))%nat ->
          online (per_cpu (f_cpuinfo f') cpu) = 1
          /\ up_by_cpu (per_cpu (f_cpuinfo f') cpu) = up_cpu_req f))
  /\ (f_other_hotplugging f' = false -> schedule_up_cpu f = 0 ->
      cpu_online p cpu = false -> mark = true)
  /\ (forall k : nat, k <> cpu ->
        online (per_cpu (f_cpuinfo f') k) = online (per_cpu (f_cpuinfo f) k)
        /\ up_by_cpu (per_cpu (f_cpuinfo f') k)
           = up_by_cpu (per_cpu (f_cpuinfo f) k))
  /\ (down = false -> mark = false ->
      online (per_cpu (f_cpuinfo f') cpu) = online (per_cpu (f_cpuinfo f) cpu)).

(** ** Invariants of the per-core loop *)

(** The frame after the first [n] iterations of the loop of one tick. *)
Definition frame_after (p : platform) (st : hotplug_state) (n : nat)
  : tick_frame :=
  tick_loop p st (tick_check_up st) (tick_check_down st)
    (fst (get_nr_run_avg (rq_data st))) (seq 0 n) (initial_frame st).

(** Progress of the up decision after [n] iterations: nothing yet; a
    trigger [t] waiting for an offline core, none having shown up after it
    (unless the tick went blind); or the trigger [t] served by core [c]. *)
Definition up_progress (p : platform) (n : nat) (f : tick_frame) : Prop :=
  (schedule_up_cpu f = 1
   /\ List.filter is_up_trigger (f_trace f) = []
   /\ List.filter is_mark_online (f_trace f) = [])
  \/ (schedule_up_cpu f = 0
      /\ exists t : nat,
          (t < n)%nat
          /\ up_cpu_req f = Z.of_nat t
          /\ cpu_online p t = true
          /\ List.filter is_up_trigger (f_trace f) = [UpTrigger t]
          /\ List.filter is_mark_online (f_trace f) = []
          /\ (f_other_hotplugging f = false ->
              forall k : nat, (t < k < n)%nat -> cpu_online p k = true))
  \/ (schedule_up_cpu f = -1
      /\ exists t c : nat,
          (t < c < n)%nat
          /\ cpu_online p t = true
          /\ cpu_online p c = false
          /\ (forall k : nat, (t < k < c)%nat -> cpu_online p k = true)
          /\ List.filter is_up_trigger (f_trace f) = [UpTrigger t]
          /\ List.filter is_mark_online (f_trace f)
             = [MarkOnline c (Z.of_nat t)]
          /\ ((c < length (f_cpuinfo f))%nat ->
              online (per_cpu (f_cpuinfo f) c) = 1
              /\ up_by_cpu (per_cpu (f_cpuinfo f) c) = Z.of_nat t)).

(** Progress of the down decision after [n] iterations. *)
Definition down_progress (p : platform) (st : hotplug_state) (n : nat)
  (f : tick_frame) : Prop :=
  (schedule_down_cpu f = 1
   /\ List.filter is_mark_offline (f_trace f) = [])
  \/ (schedule_down_cpu f = 0
      /\ exists c : nat,
          (c < n)%nat
          /\ cpu_online p c = true
          /\ Z.of_nat c
             > to_u32
                 (downmaxcoreslimit (maxcoreslimit (hotplug_tuners_ins st)))
          /\ List.filter is_mark_offline (f_trace f) = [MarkOffline c]).

(** What [n] iterations have seen of the recorded flags [l0] the tick
    started from. *)
Definition drift_progress (p : platform) (l0 : list hotplug_cpuinfo)
  (n : nat) (f : tick_frame) : Prop :=
  length (f_cpuinfo f) = length l0
  /\ f_other_hotplugging f = existsb (drifted p l0) (seq 0 n)
  /\ (forall e : event,
        In e (f_trace f) ->
        (event_cpu e < n)%nat
        /\ forall d : nat, (d <= event_cpu e)%nat -> drifted p l0 d = false)
  /\ (forall k : nat,
        (forall e : event,
           In e (f_trace f) -> is_up_trigger e = false -> event_cpu e <> k) ->
        online (per_cpu (f_cpuinfo f) k) = online (per_cpu l0 k)).

(** ** The tunables' store functions

    Each [store_*] takes what [sscanf] parsed ([None] when it parsed
    nothing) and the byte count of the write, and returns the new state with
    the value the function returns: the count, or [-EINVAL]. *)

Definition EINVAL : Z := 22.
Definition ENOMEM : Z := 12.

Definition with_tuners (t : hotplug_tuners) (st : hotplug_state)
  : hotplug_state :=
  {| hotplug_tuners_ins := t;
     hotplug_freq := hotplug_freq st;
     hotplug_load := hotplug_load st;
     hotplug_rq := hotplug_rq st;
     od_hotplug_cpuinfo := od_hotplug_cpuinfo st;
     hotplugging_rate := hotplugging_rate st;
     other_hotplugging := other_hotplugging st;
     rq_data := rq_data st;
     alucard_hotplug_work := alucard_hotplug_work st;
     alucard_hotplug_offline_work := alucard_hotplug_offline_work st;
     alucard_hotplug_online_work := alucard_hotplug_online_work st |}.

Definition set_cpu_up_rate (v : Z) (t : hotplug_tuners) : hotplug_tuners :=
  {| hotplug_sampling_rate := hotplug_sampling_rate t;
     hotplug_enable := hotplug_enable t;
     cpu_up_rate := v;
     cpu_down_rate := cpu_down_rate t;
     maxcoreslimit := maxcoreslimit t;
     accuratecpufreq := accuratecpufreq t |}.

Definition set_cpu_down_rate (v : Z) (t : hotplug_tuners) : hotplug_tuners :=
  {| hotplug_sampling_rate := hotplug_sampling_rate t;
     hotplug_enable := hotplug_enable t;
     cpu_up_rate := cpu_up_rate t;
     cpu_down_rate := v;
     maxcoreslimit := maxcoreslimit t;
     accuratecpufreq := accuratecpufreq t |}.

Definition set_maxcoreslimit (v : Z) (t : hotplug_tuners) : hotplug_tuners :=
  {| hotplug_sampling_rate := hotplug_sampling_rate t;
     hotplug_enable := hotplug_enable t;
     cpu_up_rate := cpu_up_rate t;
     cpu_down_rate := cpu_down_rate t;
     maxcoreslimit := v;
     accuratecpufreq := accuratecpufreq t |}.

Definition set_accuratecpufreq (v : Z) (t : hotplug_tuners)
  : hotplug_tuners :=
  {| hotplug_sampling_rate := hotplug_sampling_rate t;
     hotplug_enable := hotplug_enable t;
     cpu_up_rate := cpu_up_rate t;
     cpu_down_rate := cpu_down_rate t;
     maxcoreslimit := maxcoreslimit t;
     accuratecpufreq := v |}.

Definition set_hotplug_sampling_rate (v : Z) (t : hotplug_tuners)
  : hotplug_tuners :=
  {| hotplug_sampling_rate := v;
     hotplug_enable := hotplug_enable t;
     cpu_up_rate := cpu_up_rate t;
     cpu_down_rate := cpu_down_rate t;
     maxcoreslimit := maxcoreslimit t;
     accuratecpufreq := accuratecpufreq t |}.

Definition store_cpu_up_rate (input : option Z) (count : Z)
  (st : hotplug_state) : hotplug_state * Z :=
  match input with
  | None => (st, - EINVAL)
  | Some input =>
      let input := Z.max (Z.min input MAX_HOTPLUG_RATE) 1 in
      if input =? cpu_up_rate (hotplug_tuners_ins st) then (st, count)
      else (with_tuners (set_cpu_up_rate input (hotplug_tuners_ins st)) st,
            count)
  end.

Definition store_cpu_down_rate (input : option Z) (count : Z)
  (st : hotplug_state) : hotplug_state * Z :=
  match input with
  | None => (st, - EINVAL)
  | Some input =>
      let input := Z.max (Z.min input MAX_HOTPLUG_RATE) 1 in
      if input =? cpu_down_rate (hotplug_tuners_ins st) then (st, count)
      else (with_tuners (set_cpu_down_rate input (hotplug_tuners_ins st)) st,
            count)
  end.

Definition store_maxcoreslimit (input : option Z) (count : Z)
  (st : hotplug_state) : hotplug_state * Z :=
  match input with
  | None => (st, - EINVAL)
  | Some input =>
      let input :=
        Z.max (if input >? Z.of_nat NR_CPUS then Z.of_nat NR_CPUS else input)
          1 in
      if maxcoreslimit (hotplug_tuners_ins st) =? input then (st, count)
      else (with_tuners (set_maxcoreslimit input (hotplug_tuners_ins st)) st,
            count)
  end.

Definition store_accuratecpufreq (input : option Z) (count : Z)
  (st : hotplug_state) : hotplug_state * Z :=
  match input with
  | None => (st, - EINVAL)
  | Some input =>
      let input := of_bool (input >? 0) in
      if accuratecpufreq (hotplug_tuners_ins st) =? input then (st, count)
      else (with_tuners (set_accuratecpufreq input (hotplug_tuners_ins st))
              st,
            count)
  end.

(** *** The sampling period and the pending tick *)

(** The kernel's time base: the current [jiffies] and the conversion
    [usecs_to_jiffies], neither part of the driver. *)
Record clock := {
  jiffies : Z;
  usecs_to_jiffies : Z -> Z
}.

(** [time_before(a, b)]: [(long)(a) - (long)(b) < 0] on 32-bit longs. *)
Definition time_before (a b : Z) : bool := to_s32 (a - b) <? 0.

(** [update_sampling_rate] on the controller and the expiry time of the
    tick's timer ([alucard_hotplug_work.timer.expires]). *)
Definition update_sampling_rate (ck : clock) (new_rate : Z)
  (w : hotplug_state * Z) : hotplug_state * Z :=
  let st :=
    with_tuners
      (set_hotplug_sampling_rate (to_s32 new_rate)
         (hotplug_tuners_ins (fst w))) (fst w) in
  if negb (alucard_hotplug_work st) then (st, snd w)
  else
    let next_sampling := to_u32 (jiffies ck + usecs_to_jiffies ck new_rate) in
    let appointed_at := snd w in
    if time_before next_sampling appointed_at
    then (st, to_u32 (jiffies ck + usecs_to_jiffies ck new_rate))
    else (st, snd w).

Definition store_hotplug_sampling_rate (ck : clock) (input : option Z)
  (count : Z) (w : hotplug_state * Z) : hotplug_state * Z * Z :=
  match input with
  | None => (w, - EINVAL)
  | Some input =>
      let input := Z.max input 10000 in
      if input =? hotplug_sampling_rate (hotplug_tuners_ins (fst w))
      then (w, count)
      else (update_sampling_rate ck (to_u32 input) w, count)
  end.

(** *** The threshold tables *)

Inductive tunable_table := Hotplug_freq | Hotplug_load | Hotplug_rq.

#[global] Instance tunable_table_eq_dec : EqDecision tunable_table.
Proof. solve_decision. Defined.

Definition table_of (tb : tunable_table) (st : hotplug_state) : table :=
  match tb with
  | Hotplug_freq => hotplug_freq st
  | Hotplug_load => hotplug_load st
  | Hotplug_rq => hotplug_rq st
  end.

Definition with_table (tb : tunable_table) (t : table) (st : hotplug_state)
  : hotplug_state :=
  {| hotplug_tuners_ins := hotplug_tuners_ins st;
     hotplug_freq :=
       match tb with Hotplug_freq => t | _ => hotplug_freq st end;
     hotplug_load :=
       match tb with Hotplug_load => t | _ => hotplug_load st end;
     hotplug_rq := match tb with Hotplug_rq => t | _ => hotplug_rq st end;
     od_hotplug_cpuinfo := od_hotplug_cpuinfo st;
     hotplugging_rate := hotplugging_rate st;
     other_hotplugging := other_hotplugging st;
     rq_data := rq_data st;
     alucard_hotplug_work := alucard_hotplug_work st;
     alucard_hotplug_offline_work := alucard_hotplug_offline_work st;
     alucard_hotplug_online_work := alucard_hotplug_online_work st |}.

Definition atomic_set2 (t : table) (i j : nat) (v : Z) : table :=
  alter (fun row => <[j := v]> row) i t.

(** [show_hotplug_param(file_name, num_core, up_down)]: the number
    printed. *)
Definition show_hotplug_param (tb : tunable_table) (num_core up_down : nat)
  (st : hotplug_state) : Z :=
  atomic_read2 (table_of tb st) (num_core - 1) up_down.

(** [store_hotplug_param(file_name, num_core, up_down)]: the value is
    scanned with [%d] into an [unsigned int], compared as unsigned and
    stored as [int]. *)
Definition store_hotplug_param (tb : tunable_table) (num_core up_down : nat)
  (input : option Z) (count : Z) (st : hotplug_state) : hotplug_state * Z :=
  match input with
  | None => (st, - EINVAL)
  | Some input =>
      if to_u32 input
         =? to_u32 (atomic_read2 (table_of tb st) (num_core - 1) up_down)
      then (st, count)
      else
        (with_table tb
           (atomic_set2 (table_of tb st) (num_core - 1) up_down
              (to_s32 input)) st,
         count)
  end.

(** The [(num_core, up_down)] pairs for which the file instantiates the
    two macros (NR_CPUS >= 4). *)
Definition hotplug_param_attrs : list (nat * nat) :=
  [(1, 1); (2, 0); (2, 1); (3, 0); (3, 1); (4, 0)]%nat.

(** ** Module initialisation and exit *)

Definition seed_cpuinfo (p : platform) (l : list hotplug_cpuinfo)
  : list hotplug_cpuinfo :=
  fold_left (seed_cpu p) possible_cpus l.

(** [alucard_hotplug_init]: [sysfs_ret] is what [sysfs_create_group]
    returned and [alloc_ok] whether [kzalloc] succeeded in [init_rq_avg]. *)
Definition alucard_hotplug_init (sysfs_ret : Z) (alloc_ok : bool)
  (p : platform) (st : hotplug_state) : hotplug_state * Z :=
  if negb (sysfs_ret =? 0) then (st, sysfs_ret)
  else if negb alloc_ok then (st, - ENOMEM)
  else
    let rq :=
      if hotplug_enable (hotplug_tuners_ins st) >? 0
      then start_rq_work init_rq_avg else init_rq_avg in
    ({| hotplug_tuners_ins := hotplug_tuners_ins st;
        hotplug_freq := hotplug_freq st;
        hotplug_load := hotplug_load st;
        hotplug_rq := hotplug_rq st;
        od_hotplug_cpuinfo := seed_cpuinfo p (od_hotplug_cpuinfo st);
        hotplugging_rate := 0;
        other_hotplugging := other_hotplugging st;
        rq_data := rq;
        alucard_hotplug_work := true;
        alucard_hotplug_offline_work := false;
        alucard_hotplug_online_work := false |},
     0).

(** [alucard_hotplug_exit]: the three work items are cancelled. *)
Definition alucard_hotplug_exit (st : hotplug_state) : hotplug_state :=
  {| hotplug_tuners_ins := hotplug_tuners_ins st;
     hotplug_freq := hotplug_freq st;
     hotplug_load := hotplug_load st;
     hotplug_rq := hotplug_rq st;
     od_hotplug_cpuinfo := od_hotplug_cpuinfo st;
     hotplugging_rate := hotplugging_rate st;
     other_hotplugging := other_hotplugging st;
     rq_data := rq_data st;
     alucard_hotplug_work := false;
     alucard_hotplug_offline_work := false;
     alucard_hotplug_online_work := false |}.

(** The state the module is loaded with: the static initialisers, the
    per-cpu records zeroed. *)
Definition boot_state : hotplug_state :=
  {| hotplug_tuners_ins := hotplug_tuners_init;
     hotplug_freq := hotplug_freq_init;
     hotplug_load := hotplug_load_init;
     hotplug_rq := hotplug_rq_init;
     od_hotplug_cpuinfo := repeat zero_cpuinfo NR_CPUS;
     hotplugging_rate := 0;
     other_hotplugging := false;
     rq_data := init_rq_avg;
     alucard_hotplug_work := false;
     alucard_hotplug_offline_work := false;
     alucard_hotplug_online_work := false |}.

(** The controller is enabled by writing a positive number to
    [hotplug_enable]. *)
Definition enable (w : hotplug_state * platform) : hotplug_state * platform :=
  store_hotplug_enable (Some 1) w.

(** The frequency a core is judged on, before the conversion to
    [unsigned int]. *)
Definition freq_source (p : platform) (st : hotplug_state) (cpu : nat) : Z :=
  if accuratecpufreq (hotplug_tuners_ins st) >? 0
  then acpuclk_get_rate p cpu
  else cpufreq_quick_get p cpu.

(** ** Well-formed configurations *)

(** A threshold table has one row per possible cpu, each [DOWN; UP]. *)
Definition table_shape (t : table) : Prop :=
  length t = NR_CPUS /\ Forall (fun row => length row = 2%nat) t.

(** The ranges the store functions keep the tunables in. *)
Definition valid_tuners (t : hotplug_tuners) : Prop :=
  10000 <= hotplug_sampling_rate t
  /\ (hotplug_enable t = 0 \/ hotplug_enable t = 1)
  /\ 1 <= cpu_up_rate t <= MAX_HOTPLUG_RATE
  /\ 1 <= cpu_down_rate t <= MAX_HOTPLUG_RATE
  /\ 1 <= maxcoreslimit t <= Z.of_nat NR_CPUS
  /\ (accuratecpufreq t = 0 \/ accuratecpufreq t = 1).

Definition wf_state (st : hotplug_state) : Prop :=
  valid_tuners (hotplug_tuners_ins st)
  /\ length (od_hotplug_cpuinfo st) = NR_CPUS
  /\ table_shape (hotplug_freq st)
  /\ table_shape (hotplug_load st)
  /\ table_shape (hotplug_rq st).

(** ** The controller as a state machine *)

Definition with_rq_data (rq : runqueue_data) (st : hotplug_state)
  : hotplug_state :=
  {| hotplug_tuners_ins := hotplug_tuners_ins st;
     hotplug_freq := hotplug_freq st;
     hotplug_load := hotplug_load st;
     hotplug_rq := hotplug_rq st;
     od_hotplug_cpuinfo := od_hotplug_cpuinfo st;
     hotplugging_rate := hotplugging_rate st;
     other_hotplugging := other_hotplugging st;
     rq_data := rq;
     alucard_hotplug_work := alucard_hotplug_work st;
     alucard_hotplug_offline_work := alucard_hotplug_offline_work st;
     alucard_hotplug_online_work := alucard_hotplug_online_work st |}.

(** The work queue running a pending executor or sampler: the item is
    dequeued, then its handler runs. *)
Definition run_online_work (w : hotplug_state * platform)
  : hotplug_state * platform :=
  if alucard_hotplug_online_work (fst w)
  then (with_pending (alucard_hotplug_work (fst w))
          (alucard_hotplug_offline_work (fst w)) false (fst w),
        fst (cpu_online_work_fn (fst w) (snd w)))
  else w.

Definition run_offline_work (w : hotplug_state * platform)
  : hotplug_state * platform :=
  if alucard_hotplug_offline_work (fst w)
  then
    let r :=
      cpu_offline_work_fn
        (with_pending (alucard_hotplug_work (fst w)) false
           (alucard_hotplug_online_work (fst w)) (fst w))
        (snd w) in
    (fst (fst r), snd (fst r))
  else w.

Definition run_rq_work (w : hotplug_state * platform)
  : hotplug_state * platform :=
  if work (rq_data (fst w))
  then (with_rq_data
          (rq_work_fn (ktime_get_ns (snd w)) (nr_running (snd w))
             (rq_data (fst w))) (fst w),
        snd w)
  else w.

(** The [int] that [sscanf] stores for a scanned number. *)
Definition scanned (input : option Z) : option Z := option_map to_s32 input.

(** What can happen to a loaded controller: a write to one of its
    attributes, one of its work items running, or the rest of the system
    changing what the platform shows. *)
Inductive command :=
| Write_hotplug_sampling_rate (ck : clock) (expires : Z) (input : option Z)
| Write_hotplug_enable (input : option Z)
| Write_cpu_up_rate (input : option Z)
| Write_cpu_down_rate (input : option Z)
| Write_maxcoreslimit (input : option Z)
| Write_accuratecpufreq (input : option Z)
| Write_hotplug_param (tb : tunable_table) (attr : nat * nat)
    (input : option Z)
| Run_tick
| Run_online_work
| Run_offline_work
| Run_rq_work
| Platform_change (p : platform).

Definition exec (c : command) (w : hotplug_state * platform)
  : hotplug_state * platform :=
  match c with
  | Write_hotplug_sampling_rate ck expires input =>
      (fst (fst (store_hotplug_sampling_rate ck (scanned input) 0 (fst w, expires))),
       snd w)
  | Write_hotplug_enable input => store_hotplug_enable (scanned input) w
  | Write_cpu_up_rate input => (fst (store_cpu_up_rate (scanned input) 0 (fst w)), snd w)
  | Write_cpu_down_rate input =>
      (fst (store_cpu_down_rate (scanned input) 0 (fst w)), snd w)
  | Write_maxcoreslimit input =>
      (fst (store_maxcoreslimit (scanned input) 0 (fst w)), snd w)
  | Write_accuratecpufreq input =>
      (fst (store_accuratecpufreq (scanned input) 0 (fst w)), snd w)
  | Write_hotplug_param tb attr input =>
      if existsb
           (fun a => (fst a =? fst attr)%nat && (snd a =? snd attr)%nat)
           hotplug_param_attrs
      then (fst (store_hotplug_param tb (fst attr) (snd attr) (scanned input) 0
                 (fst w)),
            snd w)
      else w
  | Run_tick => (fst (run_hotplug_work (snd w) (fst w)), snd w)
  | Run_online_work => run_online_work w
  | Run_offline_work => run_offline_work w
  | Run_rq_work => run_rq_work w
  | Platform_change p => (fst w, p)
  end.

Definition run (cs : list command) (w : hotplug_state * platform)
  : hotplug_state * platform :=
  fold_left (fun w c => exec c w) cs w.

(** The controller right after a successful module initialisation. *)
Definition loaded (p : platform) : hotplug_state * platform :=
  (fst (alucard_hotplug_init 0 true p boot_state), p).

(** ** Sequences of ticks *)

(** The run-queue sampler's work item running on each of the snapshots
    [qs] in turn. *)
Definition rq_works (qs : list platform) (st : hotplug_state)
  : hotplug_state :=
  fold_left (fun s q => fst (run_rq_work (s, q))) qs st.

(** One sampling period of a running controller: the snapshots on which the
    sampler's work runs, then the snapshot on which the tick handler runs. *)
Definition period : Type := list platform * platform.

(** The state the tick handler of a period finds. *)
Definition tick_entry (x : period) (st : hotplug_state) : hotplug_state :=
  rq_works (fst x) st.

(** The handler of the period's tick: the state it leaves and what it
    decides. *)
Definition run_period (st : hotplug_state) (x : period)
  : hotplug_state * list event :=
  hotplug_work_fn (snd x) (tick_entry x st).

(** The controller after consecutive periods. *)
Definition ticks_state (xs : list period) (st : hotplug_state)
  : hotplug_state :=
  fold_left (fun s x => fst (run_period s x)) xs st.

(** The two rate gates a tick evaluates; a tick that finds the controller
    disabled evaluates neither. *)
Definition tick_gates (st : hotplug_state) : bool * bool :=
  if hotplug_enable (hotplug_tuners_ins st) >? 0
  then (tick_check_up st, tick_check_down st)
  else (false, false).

(** The gates of the ticks of consecutive periods. *)
Fixpoint run_ticks (xs : list period) (st : hotplug_state)
  : list (bool * bool) :=
  match xs with
  | [] => []
  | x :: xs =>
      tick_gates (tick_entry x st) :: run_ticks xs (fst (run_period st x))
  end.

(** What the ticks of consecutive periods decide. *)
Fixpoint ticks_trace (xs : list period) (st : hotplug_state)
  : list (list event) :=
  match xs with
  | [] => []
  | x :: xs => snd (run_period st x) :: ticks_trace xs (fst (run_period st x))
  end.

(** The 1-indexed positions at which a list of gates is open. *)
Fixpoint open_from (k : nat) (l : list bool) : list nat :=
  match l with
  | [] => []
  | b :: l => (if b then [k] else []) ++ open_from (S k) l
  end.

Definition open_ticks (l : list bool) : list nat := open_from 1 l.

(** The gates as a function of the counter alone. *)
Fixpoint gates_from (n : nat) (up_rate down_rate rate : Z)
  : list (bool * bool) :=
  match n with
  | O => []
  | S n =>
      let r := to_u32 (rate + 1) in
      (r mod to_u32 up_rate =? 0, r mod to_u32 down_rate =? 0)
      :: gates_from n up_rate down_rate
           (if r >=? to_u32 (Z.max up_rate down_rate) then 0 else r)
  end.

(** *** Twenty sample periods

    The controller is enabled right after the module was loaded on a system
    with cores 0 and 1 online.  In period [k] core 0 has run at 90% load and
    1 GHz and core 1 at 10% load and 300 MHz; core 2 is online from period
    11 on, at 50% load.  The sampler's work runs once per period and finds
    3 runnable tasks, 1 in period 20. *)
Module Periods.

Definition snapshot (k : Z) : platform :=
  platform_of
    [(true, 1000 * k, 100 * k, 1000000);
     (true, 1000 * k, 900 * k, 300000);
     (10 <? k, 1000 * Z.max 0 (k - 10), 500 * Z.max 0 (k - 10), 1000000);
     (false, 0, 0, 0)]
    (if k =? 20 then 1 else 3) (60000000 * k).

Definition enabled : hotplug_state := fst (enable (loaded (snapshot 0))).

Definition periods : list period :=
  map (fun k : nat => ([snapshot (Z.of_nat k)], snapshot (Z.of_nat k)))
    (seq 1 20).

End Periods.

(** * Properties *)

(** ** Machine integers *)

Lemma to_u32_nonneg z : 0 <= to_u32 z.
Proof. unfold to_u32. apply Z.mod_pos_bound. lia. Qed.

Lemma to_u32_small z : 0 <= z < 2 ^ 32 -> to_u32 z = z.
Proof. intros H. unfold to_u32. apply Z.mod_small. exact H. Qed.

Lemma to_s64_small z : - 2 ^ 63 <= z < 2 ^ 63 -> to_s64 z = z.
Proof. intros H. unfold to_s64. rewrite Z.mod_small; lia. Qed.

Lemma to_u64_small z : 0 <= z < 2 ^ 64 -> to_u64 z = z.
Proof. intros H. unfold to_u64. apply Z.mod_small. exact H. Qed.

Lemma of_bool_truthy b : truthy (of_bool b) = b.
Proof. destruct b; reflexivity. Qed.

Lemma of_bool_lt_2 b : (of_bool b >=? 2) = false.
Proof. destruct b; reflexivity. Qed.

(** ** Run-queue sampler *)

Module Sampler.



End Sampler.



(** ** The tick handler when disabled, and the tick counter *)

Lemma hotplug_work_fn_disabled (p : platform) (st : hotplug_state) :
  hotplug_enable (hotplug_tuners_ins st) <= 0 ->
  hotplug_work_fn p st = (st, []).
Proof.
  intros H. unfold hotplug_work_fn.
  destruct (Z.gtb_spec (hotplug_enable (hotplug_tuners_ins st)) 0) as [G|G].
  - lia.
  - reflexivity.
Qed.

Lemma hotplug_work_fn_tuners (p : platform) (st : hotplug_state) :
  hotplug_tuners_ins (fst (hotplug_work_fn p st)) = hotplug_tuners_ins st.
Proof.
  unfold hotplug_work_fn.
  destruct (hotplug_enable (hotplug_tuners_ins st) >? 0); reflexivity.
Qed.

Lemma hotplug_work_fn_rate (p : platform) (st : hotplug_state) :
  hotplug_enable (hotplug_tuners_ins st) > 0 ->
  hotplugging_rate (fst (hotplug_work_fn p st)) = wrap_rate st.
Proof.
  intros H. unfold hotplug_work_fn.
  destruct (Z.gtb_spec (hotplug_enable (hotplug_tuners_ins st)) 0) as [G|G].
  - reflexivity.
  - lia.
Qed.

(** C10.  A tick handler that finds the enable flag clear returns the state
    it was given (records, tick counter, sampler and work items alike) and
    decides nothing; run from the work queue, which had dequeued it, it
    leaves its own work item not pending. *)
Theorem C10_disabled_tick_changes_nothing (p : platform)
  (st : hotplug_state) :
  hotplug_enable (hotplug_tuners_ins st) <= 0 ->
  hotplug_work_fn p st = (st, [])
  /\ (alucard_hotplug_work st = true ->
      run_hotplug_work p st = (clear_hotplug_work st, [])
      /\ alucard_hotplug_work (fst (run_hotplug_work p st)) = false).
Proof.
  intros H. split.
  - apply hotplug_work_fn_disabled. exact H.
  - intros Hp. unfold run_hotplug_work. rewrite Hp.
    rewrite hotplug_work_fn_disabled by exact H.
    split; reflexivity.
Qed.

Lemma C10_disabled_tick_witness :
  hotplug_work_fn Samples.p_pending Samples.s_disabled
  = (Samples.s_disabled, [])
  /\ (alucard_hotplug_work Samples.s_disabled = true ->
      run_hotplug_work Samples.p_pending Samples.s_disabled
      = (clear_hotplug_work Samples.s_disabled, [])
      /\ alucard_hotplug_work
           (fst (run_hotplug_work Samples.p_pending Samples.s_disabled))
         = false).
Proof.
  apply (C10_disabled_tick_changes_nothing Samples.p_pending
           Samples.s_disabled).
  simpl. lia.
Defined.

(** ** Threshold lookup *)

Lemma read_thresholds_row (st1 st2 : hotplug_state) (cpu : nat) :
  hotplug_load st1 !! cpu = hotplug_load st2 !! cpu ->
  hotplug_freq st1 !! cpu = hotplug_freq st2 !! cpu ->
  hotplug_rq st1 !! cpu = hotplug_rq st2 !! cpu ->
  read_thresholds st1 cpu = read_thresholds st2 cpu.
Proof.
  intros Hl Hf Hr. unfold read_thresholds, atomic_read2.
  rewrite Hl, Hf, Hr. reflexivity.
Qed.

(** C1, as stated, fails.  With three cores online the row for the online
    count is row 2 (run-queue UP threshold 300), but core 1 is compared
    against row 1 (threshold 200): at a run-queue average of 250 the tick
    makes core 1 an up-trigger and marks core 3 online, where the same loop
    run on the online-count row decides nothing. *)
Lemma C1_not_indexed_by_online_count :
  num_online_cpus Samples.p_three_online = 3%nat
  /\ read_thresholds Samples.s_three_online 1
     <> spec_thresholds_by_online_count Samples.p_three_online
          Samples.s_three_online
  /\ snd (hotplug_work_fn Samples.p_three_online Samples.s_three_online)
     = [UpTrigger 1; MarkOnline 3 1]
  /\ spec_tick_trace Samples.p_three_online Samples.s_three_online = [].
Proof.
  split; [reflexivity|]. split; [|split; vm_compute; reflexivity].
  intros H. apply (f_equal up_rq) in H. vm_compute in H. discriminate H.
Qed.

(** ** The down test *)

(** The flag [online] of an iteration holds [cpu_online(cpu)], 0 or 1, so
    the disjunct [online >= 2 && cur_load < down_load] is never true: the
    down test reduces to its frequency and run-queue part. *)
Lemma down_qualifies_of_flag (th : thresholds) (b : bool)
  (cur_load cur_freq rq_avg : Z) :
  down_qualifies th (of_bool b) cur_load cur_freq rq_avg
  = (cur_freq <=? down_freq th) && (rq_avg <=? down_rq th).
Proof.
  unfold down_qualifies. rewrite of_bool_lt_2. reflexivity.
Qed.

(** C3 at the failing input.  Cores 0 and 1 are online and recorded so, the
    down gate is open, core 1 is above the floor, its load is 10 (below the
    down load threshold 30 of its row) and no core was selected before it;
    its frequency (1 GHz) is above the down frequency threshold.  More than
    one core is online and the load is below the threshold, yet the tick
    selects no core for offlining. *)
Theorem C3_low_load_core_not_selected :
  tick_check_down Samples.s_two_online = true
  /\ num_online_cpus Samples.p_two_online = 2%nat
  /\ cpu_online Samples.p_two_online 1 = true
  /\ 1 > to_u32 (downmaxcoreslimit
                   (maxcoreslimit (hotplug_tuners_ins Samples.s_two_online)))
  /\ interval_load 1000 900 = 10
  /\ down_load (read_thresholds Samples.s_two_online 1) = 30
  /\ snd (hotplug_work_fn Samples.p_two_online Samples.s_two_online) = [].
Proof.
  repeat split; vm_compute; reflexivity.
Qed.

(** ** Counterexamples on sample ticks *)

(** C7, as stated, fails.  With max_cores_online = 2 and three cores online,
    the tick selects core 2, whose index is at max_cores_online, to go
    offline. *)
Lemma C7_core_at_cap_selected_offline :
  maxcoreslimit (hotplug_tuners_ins Samples.s_over_cap) = 2
  /\ snd (hotplug_work_fn Samples.p_over_cap Samples.s_over_cap)
     = [MarkOffline 2]
  /\ ~ (forall c : nat,
          In (MarkOffline c)
            (snd (hotplug_work_fn Samples.p_over_cap Samples.s_over_cap)) ->
          ~ (maxcoreslimit (hotplug_tuners_ins Samples.s_over_cap)
             <= Z.of_nat c)).
Proof.
  split; [reflexivity|]. split; [vm_compute; reflexivity|].
  intros H. apply (H 2%nat).
  - vm_compute. left. reflexivity.
  - vm_compute. discriminate.
Qed.

(** C2, as stated, fails.  Core 2 is online but recorded offline; cores 0
    and 1 come before it in the loop and are evaluated as usual, so core 1
    (10% load, 300 MHz, run-queue average 100) is selected for offlining and
    the offline work is scheduled before the disagreement is seen. *)
Lemma C2_selection_before_drift_is_seen :
  online (per_cpu (od_hotplug_cpuinfo Samples.s_drift_at_2) 2)
  <> of_bool (cpu_online Samples.p_drift_at_2 2)
  /\ snd (hotplug_work_fn Samples.p_drift_at_2 Samples.s_drift_at_2)
     = [MarkOffline 1]
  /\ alucard_hotplug_offline_work
       (fst (hotplug_work_fn Samples.p_drift_at_2 Samples.s_drift_at_2))
     = true.
Proof.
  split; [vm_compute; discriminate|].
  split; vm_compute; reflexivity.
Qed.

(** C4, as stated, fails.  Cores 0 and 2 are online, 1 and 3 offline; core 2
    is the up-trigger.  The lowest-indexed offline core is core 1, below the
    trigger; the tick marks core 3 online and leaves core 1 as it was. *)
Lemma C4_offline_core_below_trigger_skipped :
  cpu_online Samples.p_gap 1 = false
  /\ snd (hotplug_work_fn Samples.p_gap Samples.s_gap)
     = [UpTrigger 2; MarkOnline 3 2]
  /\ online
       (per_cpu
          (od_hotplug_cpuinfo (fst (hotplug_work_fn Samples.p_gap Samples.s_gap)))
          1) = 0
  /\ online
       (per_cpu
          (od_hotplug_cpuinfo (fst (hotplug_work_fn Samples.p_gap Samples.s_gap)))
          3) = 1.
Proof.
  repeat split; vm_compute; reflexivity.
Qed.

(** C8, as stated, fails.  A tick and the online work are pending when the
    controller is disabled; after [disable] returns both are still pending,
    and the online work, when it runs, brings core 1 online. *)
Lemma C8_work_still_pending_after_disable :
  let w := disable (Samples.s_pending, Samples.p_pending) in
  hotplug_enable (hotplug_tuners_ins (fst w)) = 0
  /\ alucard_hotplug_work (fst w) = true
  /\ alucard_hotplug_online_work (fst w) = true
  /\ cpu_online (snd w) 1 = false
  /\ snd (cpu_online_work_fn (fst w) (snd w)) = [1%nat]
  /\ cpu_online (fst (cpu_online_work_fn (fst w) (snd w))) 1 = true.
Proof.
  repeat split; vm_compute; reflexivity.
Qed.

Ltac split_all := repeat match goal with |- _ /\ _ => split end.

(** ** Per-cpu records under updates *)

Section PerCpu.

Context {A : Type} (proj : hotplug_cpuinfo -> A).

Lemma per_cpu_alter_ne (g : hotplug_cpuinfo -> hotplug_cpuinfo)
  (i j : nat) (l : list hotplug_cpuinfo) :
  i <> j -> per_cpu (alter g i l) j = per_cpu l j.
Proof.
  intros H. unfold per_cpu. rewrite list_lookup_alter_ne by exact H.
  reflexivity.
Qed.

Lemma per_cpu_alter_eq (g : hotplug_cpuinfo -> hotplug_cpuinfo)
  (i : nat) (l : list hotplug_cpuinfo) :
  (i < length l)%nat -> per_cpu (alter g i l) i = g (per_cpu l i).
Proof.
  intros H. unfold per_cpu. rewrite list_lookup_alter_eq.
  destruct (lookup_lt_is_Some_2 l i H) as [x Hx]. rewrite Hx. reflexivity.
Qed.

Lemma proj_per_cpu_alter (g : hotplug_cpuinfo -> hotplug_cpuinfo)
  (i j : nat) (l : list hotplug_cpuinfo) :
  (forall x, proj (g x) = proj x) ->
  proj (per_cpu (alter g i l) j) = proj (per_cpu l j).
Proof.
  intros Hg. destruct (decide (i = j)) as [->|Hne].
  - unfold per_cpu. rewrite list_lookup_alter_eq.
    destruct (l !! j); simpl; [apply Hg | reflexivity].
  - rewrite per_cpu_alter_ne by exact Hne. reflexivity.
Qed.

End PerCpu.

Lemma detect_drift_facts (p : platform) (cpu : nat) (f : tick_frame) :
  f_trace (detect_drift p cpu f) = f_trace f
  /\ schedule_up_cpu (detect_drift p cpu f) = schedule_up_cpu f
  /\ schedule_down_cpu (detect_drift p cpu f) = schedule_down_cpu f
  /\ up_cpu_req (detect_drift p cpu f) = up_cpu_req f
  /\ f_offline_work (detect_drift p cpu f) = f_offline_work f
  /\ f_online_work (detect_drift p cpu f) = f_online_work f
  /\ f_other_hotplugging (detect_drift p cpu f)
     = f_other_hotplugging f || drifted p (f_cpuinfo f) cpu
  /\ length (f_cpuinfo (detect_drift p cpu f)) = length (f_cpuinfo f)
  /\ (forall k : nat,
        online (per_cpu (f_cpuinfo (detect_drift p cpu f)) k)
        = online (per_cpu (f_cpuinfo f) k))
  /\ (forall k : nat, k <> cpu ->
        up_by_cpu (per_cpu (f_cpuinfo (detect_drift p cpu f)) k)
        = up_by_cpu (per_cpu (f_cpuinfo f) k)).
Proof.
  unfold detect_drift, drifted.
  destruct (online (per_cpu (f_cpuinfo f) cpu) =? of_bool (cpu_online p cpu));
    cbn [negb].
  2:{ cbn. rewrite orb_true_r. repeat split; reflexivity. }
  rewrite orb_false_r, of_bool_truthy.
  destruct (cpu_online p cpu); cbn [negb].
  { repeat split; reflexivity. }
  destruct (up_by_cpu (per_cpu (alter (set_up_cpu 1) cpu (f_cpuinfo f)) cpu) >=? 0);
    cbn; rewrite ?length_alter; repeat split; try reflexivity; intros k.
  - rewrite !(proj_per_cpu_alter online) by reflexivity. reflexivity.
  - intros Hk. rewrite per_cpu_alter_ne by congruence.
    rewrite !(proj_per_cpu_alter up_by_cpu) by reflexivity. reflexivity.
  - rewrite !(proj_per_cpu_alter online) by reflexivity. reflexivity.
  - intros Hk. rewrite !(proj_per_cpu_alter up_by_cpu) by reflexivity. reflexivity.
Qed.

(** ** The three decisions of an iteration *)

Lemma eval_up_facts (st : hotplug_state) (th : thresholds) (cu : bool)
  (rq on cl cf : Z) (cpu : nat) (f : tick_frame) :
  exists trig : bool,
    f_trace (eval_up st th cu rq on cl cf cpu f)
    = f_trace f ++ (if trig then [UpTrigger cpu] else [])
    /\ schedule_up_cpu (eval_up st th cu rq on cl cf cpu f)
       = schedule_up_cpu f - of_bool trig
    /\ schedule_down_cpu (eval_up st th cu rq on cl cf cpu f)
       = schedule_down_cpu f
    /\ up_cpu_req (eval_up st th cu rq on cl cf cpu f)
       = (if trig then Z.of_nat cpu else up_cpu_req f)
    /\ f_other_hotplugging (eval_up st th cu rq on cl cf cpu f)
       = f_other_hotplugging f
    /\ f_offline_work (eval_up st th cu rq on cl cf cpu f) = f_offline_work f
    /\ f_online_work (eval_up st th cu rq on cl cf cpu f) = f_online_work f
    /\ length (f_cpuinfo (eval_up st th cu rq on cl cf cpu f))
       = length (f_cpuinfo f)
    /\ (forall k : nat,
          online (per_cpu (f_cpuinfo (eval_up st th cu rq on cl cf cpu f)) k)
          = online (per_cpu (f_cpuinfo f) k)
          /\ up_by_cpu
               (per_cpu (f_cpuinfo (eval_up st th cu rq on cl cf cpu f)) k)
             = up_by_cpu (per_cpu (f_cpuinfo f) k))
    /\ (trig = true -> schedule_up_cpu f > 0 /\ truthy on = true).
Proof.
  unfold eval_up.
  match goal with |- context [if ?c then _ else _] => destruct c eqn:Hc end.
  - exists true. cbn. rewrite length_alter.
    repeat split; try reflexivity.
    + apply (proj_per_cpu_alter online). reflexivity.
    + apply (proj_per_cpu_alter up_by_cpu). reflexivity.
    + apply andb_prop in Hc as [Hc _]. apply andb_prop in Hc as [Hc _].
      apply andb_prop in Hc as [_ Hc]. lia.
    + apply andb_prop in Hc as [Hc _]. apply andb_prop in Hc as [_ Hc].
      exact Hc.
  - exists false. cbn. rewrite app_nil_r, Z.sub_0_r.
    repeat split; try reflexivity. all: discriminate.
Qed.

Lemma eval_down_facts (st : hotplug_state) (th : thresholds) (cd : bool)
  (rq on cl cf : Z) (cpu : nat) (f : tick_frame) :
  exists down : bool,
    f_trace (eval_down st th cd rq on cl cf cpu f)
    = f_trace f ++ (if down then [MarkOffline cpu] else [])
    /\ schedule_up_cpu (eval_down st th cd rq on cl cf cpu f)
       = schedule_up_cpu f
    /\ schedule_down_cpu (eval_down st th cd rq on cl cf cpu f)
       = schedule_down_cpu f - of_bool down
    /\ up_cpu_req (eval_down st th cd rq on cl cf cpu f) = up_cpu_req f
    /\ f_other_hotplugging (eval_down st th cd rq on cl cf cpu f)
       = f_other_hotplugging f
    /\ f_offline_work (eval_down st th cd rq on cl cf cpu f)
       = f_offline_work f || down
    /\ f_online_work (eval_down st th cd rq on cl cf cpu f)
       = f_online_work f
    /\ length (f_cpuinfo (eval_down st th cd rq on cl cf cpu f))
       = length (f_cpuinfo f)
    /\ (forall k : nat,
          (k <> cpu \/ down = false ->
           online
             (per_cpu (f_cpuinfo (eval_down st th cd rq on cl cf cpu f)) k)
           = online (per_cpu (f_cpuinfo f) k))
          /\ up_by_cpu
               (per_cpu (f_cpuinfo (eval_down st th cd rq on cl cf cpu f)) k)
             = up_by_cpu (per_cpu (f_cpuinfo f) k))
    /\ (down = true ->
        schedule_down_cpu f > 0 /\ truthy on = true
        /\ Z.of_nat cpu
           > to_u32
               (downmaxcoreslimit (maxcoreslimit (hotplug_tuners_ins st)))).
Proof.
  unfold eval_down.
  match goal with |- context [if ?c then _ else _] => destruct c eqn:Hc end.
  - exists true. cbn. rewrite length_alter.
    apply andb_prop in Hc as [Hc _]. apply andb_prop in Hc as [Hc _].
    apply andb_prop in Hc as [Hc Hs]. apply andb_prop in Hc as [Hc Ht].
    apply andb_prop in Hc as [_ Hfl].
    repeat split; try reflexivity; try lia; try assumption.
    all: try (symmetry; apply orb_true_r).
    + intros [Hk|Hk]; [|discriminate Hk].
      rewrite per_cpu_alter_ne by congruence. reflexivity.
    + apply (proj_per_cpu_alter up_by_cpu). reflexivity.
  - exists false. cbn. rewrite app_nil_r, Z.sub_0_r, orb_false_r.
    repeat split; try reflexivity. all: discriminate.
Qed.

Lemma mark_up_facts (on : Z) (cpu : nat) (f : tick_frame) :
  exists mark : bool,
    f_trace (mark_up on cpu f)
    = f_trace f ++ (if mark then [MarkOnline cpu (up_cpu_req f)] else [])
    /\ schedule_up_cpu (mark_up on cpu f) = schedule_up_cpu f - of_bool mark
    /\ schedule_down_cpu (mark_up on cpu f) = schedule_down_cpu f
    /\ up_cpu_req (mark_up on cpu f) = up_cpu_req f
    /\ f_other_hotplugging (mark_up on cpu f) = f_other_hotplugging f
    /\ f_offline_work (mark_up on cpu f) = f_offline_work f
    /\ f_online_work (mark_up on cpu f) = f_online_work f || mark
    /\ length (f_cpuinfo (mark_up on cpu f)) = length (f_cpuinfo f)
    /\ (forall k : nat,
          k <> cpu \/ mark = false ->
          online (per_cpu (f_cpuinfo (mark_up on cpu f)) k)
          = online (per_cpu (f_cpuinfo f) k)
          /\ up_by_cpu (per_cpu (f_cpuinfo (mark_up on cpu f)) k)
             = up_by_cpu (per_cpu (f_cpuinfo f) k))
    /\ (mark = true ->
        (cpu < length (f_cpuinfo f))%nat ->
        online (per_cpu (f_cpuinfo (mark_up on cpu f)) cpu) = 1
        /\ up_by_cpu (per_cpu (f_cpuinfo (mark_up on cpu f)) cpu)
           = up_cpu_req f)
    /\ mark = (schedule_up_cpu f =? 0) && negb (truthy on).
Proof.
  unfold mark_up.
  destruct ((schedule_up_cpu f =? 0) && negb (truthy on)) eqn:Hc.
  - exists true. cbn. rewrite !length_alter.
    repeat split; try reflexivity.
    all: try (symmetry; apply orb_true_r).
    + destruct H as [Hk|Hk]; [|discriminate Hk].
      rewrite !per_cpu_alter_ne by congruence. reflexivity.
    + destruct H as [Hk|Hk]; [|discriminate Hk].
      rewrite !per_cpu_alter_ne by congruence. reflexivity.
    + rewrite (proj_per_cpu_alter online) by reflexivity.
      rewrite per_cpu_alter_eq by assumption. reflexivity.
    + rewrite per_cpu_alter_eq by (rewrite length_alter; assumption).
      reflexivity.
  - exists false. cbn. rewrite app_nil_r, Z.sub_0_r, orb_false_r.
    repeat split; try reflexivity. all: discriminate.
Qed.

Lemma tick_cpu_iteration (p : platform) (st : hotplug_state)
  (cu cd : bool) (rq : Z) (f : tick_frame) (cpu : nat) :
  exists trig down mark : bool,
    iteration_spec p st f cpu (tick_cpu p st cu cd rq f cpu) trig down mark.
Proof.
  unfold tick_cpu, tick_cpu_with.
  set (f1 := with_cpuinfo _ f).
  assert (Hon1 : forall k, online (per_cpu (f_cpuinfo f1) k)
                           = online (per_cpu (f_cpuinfo f) k)).
  { intros k. apply (proj_per_cpu_alter online). reflexivity. }
  assert (Hby1 : forall k, up_by_cpu (per_cpu (f_cpuinfo f1) k)
                           = up_by_cpu (per_cpu (f_cpuinfo f) k)).
  { intros k. apply (proj_per_cpu_alter up_by_cpu). reflexivity. }
  assert (Hl1 : length (f_cpuinfo f1) = length (f_cpuinfo f)).
  { apply length_alter. }
  assert (Hd1 : drifted p (f_cpuinfo f1) cpu = drifted p (f_cpuinfo f) cpu).
  { unfold drifted. rewrite Hon1. reflexivity. }
  destruct (detect_drift_facts p cpu f1)
    as (Dt & Du & Dd & Dr & Dfo & Dfn & Do & Dl & Don & Dby).
  rewrite Hd1 in Do. rewrite Hl1 in Dl.
  change (f_trace f1) with (f_trace f) in Dt.
  change (schedule_up_cpu f1) with (schedule_up_cpu f) in Du.
  change (schedule_down_cpu f1) with (schedule_down_cpu f) in Dd.
  change (up_cpu_req f1) with (up_cpu_req f) in Dr.
  change (f_offline_work f1) with (f_offline_work f) in Dfo.
  change (f_online_work f1) with (f_online_work f) in Dfn.
  change (f_other_hotplugging f1) with (f_other_hotplugging f) in Do.
  set (f2 := detect_drift p cpu f1) in *.
  destruct (f_other_hotplugging f2) eqn:Ho.
  - exists false, false, false. unfold iteration_spec, iteration_events.
    cbn [of_bool app]. rewrite app_nil_r, !Z.sub_0_r, !orb_false_r, Ho.
    split_all; try assumption; try discriminate.
    + intros k Hk. split.
      * rewrite Don. apply Hon1.
      * rewrite Dby by assumption. apply Hby1.
    + intros _ _. rewrite Don. apply Hon1.
  - destruct (cur_load_freq p st _ _ _ cpu) as [cl cf].
    destruct (eval_up_facts st (read_thresholds st cpu) cu rq
                (of_bool (cpu_online p cpu)) cl cf cpu f2)
      as (trig & Ut & Uu & Ud & Ur & Uo & Ufo & Ufn & Ul & Uk & Uc).
    set (f3 := eval_up _ _ _ _ _ _ _ _ f2) in *.
    destruct (eval_down_facts st (read_thresholds st cpu) cd rq
                (of_bool (cpu_online p cpu)) cl cf cpu f3)
      as (down & Et & Eu & Ed & Er & Eo & Efo & Efn & El & Ek & Ec).
    set (f4 := eval_down _ _ _ _ _ _ _ _ f3) in *.
    destruct (mark_up_facts (of_bool (cpu_online p cpu)) cpu f4)
      as (mark & Mt & Mu & Md & Mr & Mo & Mfo & Mfn & Ml & Mk & Mc & Mm).
    set (f5 := mark_up _ _ f4) in *.
    rewrite of_bool_truthy in Uc, Ec, Mm.
    assert (Htm : trig = true -> mark = true -> False).
    { intros Ht Hm. destruct (Uc Ht) as [_ Hc]. rewrite Hc in Mm.
      rewrite andb_false_r in Mm. congruence. }
    assert (Hreq : mark = true -> up_cpu_req f4 = up_cpu_req f).
    { intros Hm. rewrite Er, Ur, Dr.
      destruct trig; [exfalso; apply Htm; auto | reflexivity]. }
    exists trig, down, mark. unfold iteration_spec.
    assert (Hof : f_other_hotplugging f5 = false) by congruence.
    split_all.
    + rewrite Mt, Et, Ut, Dt. unfold iteration_events.
      rewrite <- !app_assoc. do 3 f_equal.
      destruct mark; [rewrite Hreq by reflexivity|]; reflexivity.
    + lia.
    + lia.
    + rewrite Mr, Er, Ur, Dr. reflexivity.
    + rewrite Hof. exact Do.
    + rewrite Mfo, Efo, Ufo, Dfo. reflexivity.
    + rewrite Mfn, Efn, Ufn, Dfn. reflexivity.
    + congruence.
    + intros Ht. destruct (Uc Ht). split_all; [lia | assumption | exact Hof].
    + intros Hd. destruct (Ec Hd) as (Hs & Hc & Hfl).
      split_all; [| exact Hc | exact Hof | exact Hfl].
      destruct trig; cbn [of_bool] in *; [|lia].
      destruct (Uc eq_refl). lia.
    + intros Hm. pose proof Mm as Mm'. rewrite Hm in Mm'. symmetry in Mm'.
      apply andb_prop in Mm' as [Hz Hoff].
      split_all.
      * destruct trig; [exfalso; apply Htm; auto|].
        cbn [of_bool] in *. lia.
      * destruct (cpu_online p cpu); easy.
      * exact Hof.
      * intros Hlt. destruct (Mc Hm) as [Hc1 Hc2]; [lia|].
        split; [exact Hc1|]. rewrite Hc2. apply Hreq. exact Hm.
    + intros _ Hs Hoff. rewrite Mm, Hoff. cbn [negb]. rewrite andb_true_r.
      assert (Ht : trig = false).
      { destruct trig; [|reflexivity]. destruct (Uc eq_refl). congruence. }
      rewrite Ht in Uu. cbn [of_bool] in Uu. apply Z.eqb_eq. lia.
    + intros k H. split.
      * destruct (Mk k (or_introl H)) as [-> _].
        destruct (Ek k) as [Hx _]. rewrite Hx by (left; exact H).
        destruct (Uk k) as [-> _]. rewrite Don. apply Hon1.
      * destruct (Mk k (or_introl H)) as [_ ->].
        destruct (Ek k) as [_ ->].
        destruct (Uk k) as [_ ->]. rewrite Dby by exact H. apply Hby1.
    + intros Hd Hm.
      destruct (Mk cpu (or_intror Hm)) as [-> _].
      destruct (Ek cpu) as [Hx _]. rewrite Hx by (right; exact Hd).
      destruct (Uk cpu) as [-> _]. rewrite Don. apply Hon1.
Qed.

(** ** The thresholds an iteration compares against *)

(** What one iteration of the per-core loop decides, in terms of the frame
    it starts from: nothing when the tick is blind (a disagreement was seen
    before or is seen at this core), else the three decisions as the code
    tests them. *)
Lemma tick_cpu_trace (p : platform) (st : hotplug_state)
  (check_up check_down : bool) (rq_avg : Z) (f : tick_frame) (cpu : nat) :
  f_trace (tick_cpu p st check_up check_down rq_avg f cpu)
  = f_trace f
    ++ (if f_other_hotplugging f || drifted p (f_cpuinfo f) cpu then []
        else
          let info := per_cpu (f_cpuinfo f) cpu in
          let on := cpu_online p cpu in
          let cur :=
            cur_load_freq p st
              (to_u32 (cur_wall_time p cpu - prev_cpu_wall info))
              (to_u32 (cur_idle_time p cpu - prev_cpu_idle info))
              (of_bool on) cpu in
          iteration_events cpu (up_cpu_req f)
            (check_up
             && (Z.of_nat cpu
                 <? to_u32 (maxcoreslimit (hotplug_tuners_ins st) - 1))
             && (up_cpu info >? 0)
             && (schedule_up_cpu f >? 0)
             && on
             && up_qualifies (read_thresholds st cpu) (fst cur) (snd cur)
                  rq_avg)
            (check_down
             && (Z.of_nat cpu
                 >? to_u32
                      (downmaxcoreslimit
                         (maxcoreslimit (hotplug_tuners_ins st))))
             && on
             && (schedule_down_cpu f >? 0)
             && (fst cur >=? 0)
             && down_qualifies (read_thresholds st cpu) (of_bool on)
                  (fst cur) (snd cur) rq_avg)
            ((schedule_up_cpu f =? 0) && negb on)).
Proof.
  unfold tick_cpu, tick_cpu_with. cbv zeta.
  set (f1 := with_cpuinfo _ f).
  assert (Hon1 : online (per_cpu (f_cpuinfo f1) cpu)
                 = online (per_cpu (f_cpuinfo f) cpu)).
  { apply (proj_per_cpu_alter online). reflexivity. }
  assert (Hup1 : up_cpu (per_cpu (f_cpuinfo f1) cpu)
                 = up_cpu (per_cpu (f_cpuinfo f) cpu)).
  { apply (proj_per_cpu_alter up_cpu). reflexivity. }
  unfold detect_drift, drifted. rewrite Hon1.
  destruct (online (per_cpu (f_cpuinfo f) cpu) =? of_bool (cpu_online p cpu));
    cbn [negb].
  2:{ cbn [f_other_hotplugging f_trace]. rewrite orb_true_r, app_nil_r.
      reflexivity. }
  rewrite orb_false_r, of_bool_truthy.
  destruct (cpu_online p cpu) eqn:Eon; cbn [negb].
  - change (f_other_hotplugging f1) with (f_other_hotplugging f).
    destruct (f_other_hotplugging f); [rewrite app_nil_r; reflexivity|].
    destruct (cur_load_freq p st _ _ _ cpu) as [cl cf]. cbn [fst snd].
    unfold mark_up, eval_down, eval_up.
    rewrite Hup1.
    change (schedule_up_cpu f1) with (schedule_up_cpu f).
    change (schedule_down_cpu f1) with (schedule_down_cpu f).
    change (f_trace f1) with (f_trace f).
    change (truthy (of_bool true)) with true.
    cbn [negb]. rewrite !andb_false_r.
    match goal with
    | |- context [if ?c then _ else f1] => set (tu := c)
    end.
    destruct tu; subst f1;
      cbn [with_cpuinfo schedule_down_cpu schedule_up_cpu f_trace];
      match goal with
      | |- context [if ?c then _ else _] => set (td := c)
      end;
      destruct td; cbn [with_cpuinfo f_trace]; unfold iteration_events;
      cbn [app]; rewrite <- ?app_assoc, ?app_nil_r; reflexivity.
  - match goal with
    | |- context [f_other_hotplugging (if ?c then ?a else ?b)] =>
        set (f2 := if c then a else b)
    end.
    assert (H2 : f_other_hotplugging f2 = f_other_hotplugging f
                 /\ schedule_up_cpu f2 = schedule_up_cpu f
                 /\ up_cpu_req f2 = up_cpu_req f
                 /\ f_trace f2 = f_trace f).
    { subst f2.
      destruct (up_by_cpu
                  (per_cpu (alter (set_up_cpu 1) cpu (f_cpuinfo f1)) cpu)
                >=? 0);
        split_all; reflexivity. }
    destruct H2 as (Ho & Hu & Hq & Ht). rewrite Ho.
    destruct (f_other_hotplugging f); [rewrite app_nil_r; exact Ht|].
    destruct (cur_load_freq p st _ _ _ cpu) as [cl cf]. cbn [fst snd].
    assert (Eu : eval_up st (read_thresholds st cpu) check_up rq_avg
                   (of_bool false) cl cf cpu f2 = f2).
    { unfold eval_up. change (truthy (of_bool false)) with false.
      rewrite andb_false_r. reflexivity. }
    assert (Ed : eval_down st (read_thresholds st cpu) check_down rq_avg
                   (of_bool false) cl cf cpu f2 = f2).
    { unfold eval_down. change (truthy (of_bool false)) with false.
      rewrite andb_false_r. reflexivity. }
    rewrite Eu, Ed. unfold mark_up.
    change (truthy (of_bool false)) with false. cbn [negb].
    rewrite !andb_false_r, Hu, Hq, Ht. cbn [andb].
    unfold iteration_events. cbn [app].
    destruct ((schedule_up_cpu f =? 0) && true);
      cbn [f_trace]; rewrite ?Ht, ?app_nil_r; reflexivity.
Qed.

(** C1, as the code has it.  The thresholds one iteration of the per-core
    loop compares against are the table entries of the row whose index is
    the core's own number: the core becomes the up-trigger exactly if the up
    gates pass and its load, frequency and the run-queue average pass the
    UP column of that row; it is marked offline exactly if the down gates
    pass and the down test passes on the DOWN column of that row.  The
    iteration is the same under any two configurations that agree on that
    row (and on the tunables), whatever the other rows hold and however
    many cores are online. *)
Theorem C1_thresholds_indexed_by_core (p : platform)
  (st1 st2 : hotplug_state) (check_up check_down : bool) (rq_avg : Z)
  (f : tick_frame) (cpu : nat) :
  hotplug_tuners_ins st1 = hotplug_tuners_ins st2 ->
  hotplug_load st1 !! cpu = hotplug_load st2 !! cpu ->
  hotplug_freq st1 !! cpu = hotplug_freq st2 !! cpu ->
  hotplug_rq st1 !! cpu = hotplug_rq st2 !! cpu ->
  let info := per_cpu (f_cpuinfo f) cpu in
  let on := cpu_online p cpu in
  let wall_time := to_u32 (cur_wall_time p cpu - prev_cpu_wall info) in
  let idle_time := to_u32 (cur_idle_time p cpu - prev_cpu_idle info) in
  let cur := cur_load_freq p st1 wall_time idle_time (of_bool on) cpu in
  let blind := f_other_hotplugging f || drifted p (f_cpuinfo f) cpu in
  let trig :=
    check_up
    && (Z.of_nat cpu <? to_u32 (maxcoreslimit (hotplug_tuners_ins st1) - 1))
    && (up_cpu info >? 0)
    && (schedule_up_cpu f >? 0)
    && on
    && ((fst cur >=? atomic_read2 (hotplug_load st1) cpu UP_INDEX)
        && (snd cur >=? to_u32 (atomic_read2 (hotplug_freq st1) cpu UP_INDEX))
        && (rq_avg >? to_u32 (atomic_read2 (hotplug_rq st1) cpu UP_INDEX))) in
  let down :=
    check_down
    && (Z.of_nat cpu
        >? to_u32 (downmaxcoreslimit (maxcoreslimit (hotplug_tuners_ins st1))))
    && on
    && (schedule_down_cpu f >? 0)
    && (fst cur >=? 0)
    && (((of_bool on >=? 2)
         && (fst cur <? atomic_read2 (hotplug_load st1) cpu DOWN_INDEX))
        || ((snd cur
             <=? to_u32 (atomic_read2 (hotplug_freq st1) cpu DOWN_INDEX))
            && (rq_avg
                <=? to_u32 (atomic_read2 (hotplug_rq st1) cpu DOWN_INDEX)))) in
  let mark := (schedule_up_cpu f =? 0) && negb on in
  up_load (read_thresholds st1 cpu)
  = atomic_read2 (hotplug_load st1) cpu UP_INDEX
  /\ down_load (read_thresholds st1 cpu)
     = atomic_read2 (hotplug_load st1) cpu DOWN_INDEX
  /\ up_freq (read_thresholds st1 cpu)
     = to_u32 (atomic_read2 (hotplug_freq st1) cpu UP_INDEX)
  /\ down_freq (read_thresholds st1 cpu)
     = to_u32 (atomic_read2 (hotplug_freq st1) cpu DOWN_INDEX)
  /\ up_rq (read_thresholds st1 cpu)
     = to_u32 (atomic_read2 (hotplug_rq st1) cpu UP_INDEX)
  /\ down_rq (read_thresholds st1 cpu)
     = to_u32 (atomic_read2 (hotplug_rq st1) cpu DOWN_INDEX)
  /\ f_trace (tick_cpu p st1 check_up check_down rq_avg f cpu)
     = f_trace f
       ++ (if blind then []
           else iteration_events cpu (up_cpu_req f) trig down mark)
  /\ tick_cpu p st1 check_up check_down rq_avg f cpu
     = tick_cpu p st2 check_up check_down rq_avg f cpu.
Proof.
  intros Ht Hl Hf Hr info on wall_time idle_time cur blind trig down mark.
  repeat (split; [reflexivity|]).
  split.
  - subst info on wall_time idle_time cur blind trig down mark.
    rewrite tick_cpu_trace. cbv zeta.
    unfold up_qualifies, down_qualifies.
    cbn [read_thresholds up_load up_freq up_rq down_load down_freq down_rq].
    reflexivity.
  - unfold tick_cpu.
    rewrite (read_thresholds_row st1 st2 cpu Hl Hf Hr).
    unfold tick_cpu_with, cur_load_freq, eval_up, eval_down.
    rewrite Ht. reflexivity.
Qed.

Lemma C1_thresholds_indexed_by_core_witness :
  let p := Samples.p_three_online in
  let st1 := Samples.s_three_online in
  let st2 := Samples.s_three_online_row2 in
  let f := initial_frame Samples.s_three_online in
  let cpu := 1%nat in
  let cur := cur_load_freq p st1 1000 100 1 cpu in
  up_load (read_thresholds st1 cpu) = 65
  /\ down_load (read_thresholds st1 cpu) = 30
  /\ up_freq (read_thresholds st1 cpu) = 702000
  /\ down_freq (read_thresholds st1 cpu) = 486000
  /\ up_rq (read_thresholds st1 cpu) = 200
  /\ down_rq (read_thresholds st1 cpu) = 200
  /\ f_trace (tick_cpu p st1 true false 250 f cpu)
     = f_trace f
       ++ iteration_events cpu (up_cpu_req f)
            ((fst cur >=? 65) && (snd cur >=? 702000) && (250 >? 200))
            false false
  /\ f_trace (tick_cpu p st1 true false 250 f cpu) = [UpTrigger 1]
  /\ tick_cpu p st1 true false 250 f cpu = tick_cpu p st2 true false 250 f cpu.
Proof.
  pose proof (C1_thresholds_indexed_by_core Samples.p_three_online
                Samples.s_three_online Samples.s_three_online_row2 true false
                250 (initial_frame Samples.s_three_online) 1
                eq_refl eq_refl eq_refl eq_refl)
    as (H1 & H2 & H3 & H4 & H5 & H6 & H7 & H8).
  intros p st1 st2 f cpu cur.
  split; [exact H1|]. split; [exact H2|]. split; [exact H3|].
  split; [exact H4|]. split; [exact H5|]. split; [exact H6|].
  split; [exact H7|]. split; [|exact H8].
  vm_compute. reflexivity.
Defined.

(** ** Induction over the per-core loop *)

Lemma frame_after_S (p : platform) (st : hotplug_state) (n : nat) :
  frame_after p st (S n)
  = tick_cpu p st (tick_check_up st) (tick_check_down st)
      (fst (get_nr_run_avg (rq_data st))) (frame_after p st n) n.
Proof.
  unfold frame_after, tick_loop. rewrite seq_S, fold_left_app. reflexivity.
Qed.

Lemma frame_after_ind (p : platform) (st : hotplug_state)
  (P : nat -> tick_frame -> Prop) :
  P O (initial_frame st) ->
  (forall (n : nat) (f : tick_frame) (trig down mark : bool),
      P n f ->
      iteration_spec p st f n
        (tick_cpu p st (tick_check_up st) (tick_check_down st)
           (fst (get_nr_run_avg (rq_data st))) f n) trig down mark ->
      P (S n)
        (tick_cpu p st (tick_check_up st) (tick_check_down st)
           (fst (get_nr_run_avg (rq_data st))) f n)) ->
  forall n : nat, P n (frame_after p st n).
Proof.
  intros H0 HS n. induction n as [|n IH]; [exact H0|].
  rewrite frame_after_S.
  destruct (tick_cpu_iteration p st (tick_check_up st) (tick_check_down st)
              (fst (get_nr_run_avg (rq_data st))) (frame_after p st n) n)
    as (trig & down & mark & Hs).
  apply (HS n _ trig down mark IH Hs).
Qed.

Lemma tick_frame_of_after (p : platform) (st : hotplug_state) :
  tick_frame_of p st = frame_after p st NR_CPUS.
Proof. unfold tick_frame_of, frame_after, possible_cpus. reflexivity. Qed.

Lemma filter_iteration_events_trigger (cpu : nat) (req : Z)
  (trig down mark : bool) :
  List.filter is_up_trigger (iteration_events cpu req trig down mark)
  = if trig then [UpTrigger cpu] else [].
Proof. destruct trig, down, mark; reflexivity. Qed.

Lemma filter_iteration_events_online (cpu : nat) (req : Z)
  (trig down mark : bool) :
  List.filter is_mark_online (iteration_events cpu req trig down mark)
  = if mark then [MarkOnline cpu req] else [].
Proof. destruct trig, down, mark; reflexivity. Qed.

Lemma filter_iteration_events_offline (cpu : nat) (req : Z)
  (trig down mark : bool) :
  List.filter is_mark_offline (iteration_events cpu req trig down mark)
  = if down then [MarkOffline cpu] else [].
Proof. destruct trig, down, mark; reflexivity. Qed.

Lemma in_iteration_events (cpu : nat) (req : Z) (trig down mark : bool)
  (e : event) :
  In e (iteration_events cpu req trig down mark) ->
  event_cpu e = cpu
  /\ (trig = true \/ down = true \/ mark = true)
  /\ (is_up_trigger e = false -> down = true \/ mark = true).
Proof.
  destruct trig, down, mark; cbn; intros H;
    repeat (destruct H as [H|H]; [subst e; cbn; split_all; auto|]);
    try contradiction.
  all: intros; discriminate.
Qed.

Lemma down_progress_holds (p : platform) (st : hotplug_state) (n : nat) :
  down_progress p st n (frame_after p st n).
Proof.
  apply (frame_after_ind p st (down_progress p st)); clear n.
  - left. split; reflexivity.
  - intros n f trig down mark IH
      (Ht & _ & Hd & _ & _ & _ & _ & _ & _ & Hdown & _).
    unfold down_progress. rewrite Ht, List.filter_app,
      filter_iteration_events_offline, Hd.
    destruct down; cbn [of_bool].
    + destruct (Hdown eq_refl) as (Hs & Hon & _ & Hfl).
      destruct IH as [[Hs1 Hf]|[Hs0 _]]; [|lia].
      right. split; [lia|]. exists n. rewrite Hf.
      split_all; first [lia | assumption | reflexivity].
    + rewrite app_nil_r, Z.sub_0_r.
      destruct IH as [[Hs1 Hf]|[Hs0 (c & Hc & Hon & Hfl & Hf)]].
      * left. split; assumption.
      * right. split; [assumption|]. exists c.
        split_all; first [lia | assumption | reflexivity].
Qed.

Lemma up_progress_holds (p : platform) (st : hotplug_state) (n : nat) :
  up_progress p n (frame_after p st n).
Proof.
  apply (frame_after_ind p st (up_progress p)); clear n.
  - left. split_all; reflexivity.
  - intros n f trig down mark IH
      (Ht & Hu & _ & Hr & Ho & _ & _ & Hl & Htrig & _ & Hmark & Hcomp
       & Hk & _).
    unfold up_progress.
    rewrite Ht, !List.filter_app, filter_iteration_events_trigger,
      filter_iteration_events_online, Hu, Hr, Hl.
    destruct IH as [(Hs & Hft & Hfo)
                   |[(Hs & t & Hlt & Hreq & Hont & Hft & Hfo & Hbetween)
                    |(Hs & t & c & Hlt & Hont & Hoffc & Hbetween & Hft & Hfo
                      & Hrec)]].
    + (* nothing decided before this iteration *)
      assert (Hm : mark = false).
      { destruct mark; [|reflexivity]. destruct (Hmark eq_refl). lia. }
      subst mark. rewrite Hft, Hfo. cbn [of_bool app].
      destruct trig; cbn [of_bool].
      * destruct (Htrig eq_refl) as (_ & Hon & Hof).
        right. left. split; [lia|]. exists n.
        split_all; try reflexivity; [lia | exact Hon |].
        intros _ k Hk'. lia.
      * left. split_all; [lia | reflexivity | reflexivity].
    + (* a trigger is waiting *)
      assert (Htr : trig = false).
      { destruct trig; [|reflexivity]. destruct (Htrig eq_refl). lia. }
      subst trig. rewrite Hft, Hfo, Hreq. cbn [of_bool app].
      destruct mark; cbn [of_bool].
      * destruct (Hmark eq_refl) as (_ & Hoff & Hof & Hrec).
        assert (Hof0 : f_other_hotplugging f = false).
        { rewrite Hof in Ho. symmetry in Ho.
          apply orb_false_elim in Ho as [Ho _]. exact Ho. }
        right. right. split; [lia|]. exists t, n.
        split_all; try reflexivity; try assumption; [lia | |].
        -- intros k Hk'. apply Hbetween; [exact Hof0 | lia].
        -- intros Hlen. rewrite <- Hreq. apply Hrec. exact Hlen.
      * right. left. split; [lia|]. exists t.
        split_all; try reflexivity; try assumption; [lia|].
        intros Hof k Hk'.
        assert (Hof0 : f_other_hotplugging f = false).
        { rewrite Hof in Ho. symmetry in Ho.
          apply orb_false_elim in Ho as [Ho _]. exact Ho. }
        destruct (decide (k = n)) as [->|Hne].
        -- destruct (cpu_online p n) eqn:Hn; [reflexivity|].
           specialize (Hcomp Hof Hs eq_refl). discriminate Hcomp.
        -- apply Hbetween; [exact Hof0 | lia].
    + (* the trigger has been served *)
      assert (Htr : trig = false).
      { destruct trig; [|reflexivity]. destruct (Htrig eq_refl). lia. }
      assert (Hm : mark = false).
      { destruct mark; [|reflexivity]. destruct (Hmark eq_refl). lia. }
      subst trig mark. rewrite Hft, Hfo. cbn [of_bool app].
      right. right. split; [lia|]. exists t, c.
      split_all; try reflexivity; try assumption; try lia.
      intros Hlen. destruct (Hk c) as [Hk1 Hk2]; [lia|].
      rewrite Hk1, Hk2. apply Hrec. exact Hlen.
Qed.

Lemma existsb_seq_false (g : nat -> bool) (m d : nat) :
  existsb g (seq 0 m) = false -> (d < m)%nat -> g d = false.
Proof.
  intros He Hd. destruct (g d) eqn:Hg; [|reflexivity].
  assert (Ht : existsb g (seq 0 m) = true).
  { apply existsb_exists. exists d. split; [|exact Hg].
    apply in_seq. lia. }
  congruence.
Qed.

Lemma existsb_seq_true (g : nat -> bool) (m d : nat) :
  (d < m)%nat -> g d = true -> existsb g (seq 0 m) = true.
Proof.
  intros Hd Hg. apply existsb_exists. exists d. split; [|exact Hg].
  apply in_seq. lia.
Qed.

Lemma iteration_events_down (cpu : nat) (req : Z) (trig mark : bool) :
  In (MarkOffline cpu) (iteration_events cpu req trig true mark).
Proof. destruct trig, mark; cbn; auto. Qed.

Lemma iteration_events_mark (cpu : nat) (req : Z) (trig down : bool) :
  In (MarkOnline cpu req) (iteration_events cpu req trig down true).
Proof. destruct trig, down; cbn; auto. Qed.

Lemma drift_progress_holds (p : platform) (st : hotplug_state) (n : nat) :
  drift_progress p (od_hotplug_cpuinfo st) n (frame_after p st n).
Proof.
  apply (frame_after_ind p st (drift_progress p (od_hotplug_cpuinfo st)));
    clear n.
  - unfold drift_progress. split_all; try reflexivity.
    intros e He. cbn in He. contradiction.
  - intros n f trig down mark (Hlen & Hother & Hev & Hrec)
      (Ht & _ & _ & _ & Ho & _ & _ & Hl & Htrig & Hdown & Hmark & _
       & Hk & Hsame).
    assert (Hn : online (per_cpu (f_cpuinfo f) n)
                 = online (per_cpu (od_hotplug_cpuinfo st) n)).
    { apply Hrec. intros e He _. destruct (Hev e He) as [Hlt _]. lia. }
    assert (Hdr : drifted p (f_cpuinfo f) n
                  = drifted p (od_hotplug_cpuinfo st) n).
    { unfold drifted. rewrite Hn. reflexivity. }
    assert (Hother' :
              f_other_hotplugging
                (tick_cpu p st (tick_check_up st) (tick_check_down st)
                   (fst (get_nr_run_avg (rq_data st))) f n)
              = existsb (drifted p (od_hotplug_cpuinfo st)) (seq 0 (S n))).
    { rewrite seq_S, existsb_app, Ho, Hother, Hdr. cbn [existsb Nat.add].
      rewrite orb_false_r. reflexivity. }
    unfold drift_progress. split_all.
    + congruence.
    + exact Hother'.
    + intros e He. rewrite Ht in He. apply in_app_or in He as [He|He].
      * destruct (Hev e He) as [Hlt Hd]. split; [lia | exact Hd].
      * apply in_iteration_events in He as (Hc & Hany & _).
        rewrite Hc. split; [lia|].
        assert (Hof : f_other_hotplugging
                        (tick_cpu p st (tick_check_up st) (tick_check_down st)
                           (fst (get_nr_run_avg (rq_data st))) f n) = false).
        { destruct Hany as [H|[H|H]].
          - destruct (Htrig H) as (_ & _ & Hx). exact Hx.
          - destruct (Hdown H) as (_ & _ & Hx & _). exact Hx.
          - destruct (Hmark H) as (_ & _ & Hx & _). exact Hx. }
        rewrite Hother' in Hof. intros d Hd.
        apply (existsb_seq_false _ (S n) d Hof). lia.
    + intros k Hnone.
      assert (Hold : forall e, In e (f_trace f) -> is_up_trigger e = false ->
                               event_cpu e <> k).
      { intros e He. apply Hnone. rewrite Ht. apply in_or_app. left.
        exact He. }
      destruct (decide (k = n)) as [->|Hne].
      * rewrite Hsame; [exact Hn | |].
        -- destruct down; [|reflexivity]. exfalso.
           apply (Hnone (MarkOffline n)); [|reflexivity|reflexivity].
           rewrite Ht. apply in_or_app. right. apply iteration_events_down.
        -- destruct mark; [|reflexivity]. exfalso.
           apply (Hnone (MarkOnline n (up_cpu_req f)));
             [|reflexivity|reflexivity].
           rewrite Ht. apply in_or_app. right. apply iteration_events_mark.
      * destruct (Hk k Hne) as [Hx _]. rewrite Hx. apply Hrec. exact Hold.
Qed.

(** ** The records after a resynchronisation *)

Lemma resync_records (p : platform) (l : list hotplug_cpuinfo) (k : nat) :
  length l = NR_CPUS -> (k < NR_CPUS)%nat ->
  online (per_cpu (resync p l) k) = of_bool (cpu_online p k)
  /\ up_cpu (per_cpu (resync p l) k) = 1
  /\ up_by_cpu (per_cpu (resync p l) k) = -1.
Proof.
  intros Hl Hk.
  destruct l as [|a [|b [|c [|d [|e l]]]]]; try discriminate Hl.
  unfold NR_CPUS in Hk.
  destruct k as [|[|[|[|k]]]]; [| | | |lia]; cbn; split_all; reflexivity.
Qed.

Lemma length_resync (p : platform) (l : list hotplug_cpuinfo) :
  length (resync p l) = length l.
Proof.
  unfold resync. generalize possible_cpus. intros cpus. revert l.
  induction cpus as [|c cpus IH]; intros l; [reflexivity|].
  cbn [fold_left]. rewrite IH. unfold resync_cpu. apply length_alter.
Qed.

(** ** The whole tick *)

Lemma hotplug_work_fn_trace (p : platform) (st : hotplug_state) :
  snd (hotplug_work_fn p st)
  = if hotplug_enable (hotplug_tuners_ins st) >? 0
    then f_trace (frame_after p st NR_CPUS) else [].
Proof.
  unfold hotplug_work_fn. rewrite tick_frame_of_after.
  destruct (hotplug_enable (hotplug_tuners_ins st) >? 0); reflexivity.
Qed.

Lemma hotplug_work_fn_trace_in (p : platform) (st : hotplug_state)
  (e : event) :
  In e (snd (hotplug_work_fn p st)) ->
  In e (f_trace (frame_after p st NR_CPUS)).
Proof.
  rewrite hotplug_work_fn_trace.
  destruct (hotplug_enable (hotplug_tuners_ins st) >? 0); intros H;
    [exact H | destruct H].
Qed.

Lemma hotplug_work_fn_records (p : platform) (st : hotplug_state) :
  hotplug_enable (hotplug_tuners_ins st) > 0 ->
  od_hotplug_cpuinfo (fst (hotplug_work_fn p st))
  = (let f := frame_after p st NR_CPUS in
     let l := if f_other_hotplugging f then resync p (f_cpuinfo f)
              else f_cpuinfo f in
     if (num_online_cpus p =? 1)%nat then alter (set_up_cpu 1) 0%nat l
     else l).
Proof.
  intros He. unfold hotplug_work_fn. rewrite tick_frame_of_after.
  destruct (Z.gtb_spec (hotplug_enable (hotplug_tuners_ins st)) 0); [|lia].
  reflexivity.
Qed.

Lemma in_filter_singleton (g : event -> bool) (l : list event) (x e : event) :
  List.filter g l = [x] -> In e l -> g e = true -> e = x.
Proof.
  intros Hf Hin Hg.
  assert (H : In e (List.filter g l)) by (apply filter_In; auto).
  rewrite Hf in H. destruct H as [H|[]]. congruence.
Qed.

Lemma in_filter_nil (g : event -> bool) (l : list event) (e : event) :
  List.filter g l = [] -> In e l -> g e = false.
Proof.
  intros Hf Hin. destruct (g e) eqn:Hg; [|reflexivity].
  assert (H : In e (List.filter g l)) by (apply filter_In; auto).
  rewrite Hf in H. destruct H.
Qed.

Lemma filter_singleton_in (g : event -> bool) (l : list event) (x : event) :
  List.filter g l = [x] -> In x l.
Proof.
  intros Hf. assert (H : In x (List.filter g l)) by (rewrite Hf; left; auto).
  apply filter_In in H. tauto.
Qed.

Lemma existsb_seq_all_false (g : nat -> bool) (m : nat) :
  (forall d : nat, (d < m)%nat -> g d = false) ->
  existsb g (seq 0 m) = false.
Proof.
  intros H. destruct (existsb g (seq 0 m)) eqn:He; [|reflexivity].
  apply existsb_exists in He as (d & Hin & Hg). apply in_seq in Hin.
  rewrite H in Hg by lia. discriminate Hg.
Qed.

Lemma hotplug_work_fn_rescheduled (p : platform) (st : hotplug_state) :
  hotplug_enable (hotplug_tuners_ins st) > 0 ->
  alucard_hotplug_work (fst (hotplug_work_fn p st)) = true.
Proof.
  intros He. unfold hotplug_work_fn.
  destruct (Z.gtb_spec (hotplug_enable (hotplug_tuners_ins st)) 0); [|lia].
  reflexivity.
Qed.

Lemma up_cpu_alter_set (i k : nat) (l : list hotplug_cpuinfo) :
  up_cpu (per_cpu l k) = 1 ->
  up_cpu (per_cpu (alter (set_up_cpu 1) i l) k) = 1.
Proof.
  intros H. destruct (decide (i = k)) as [->|Hne].
  - unfold per_cpu in *. rewrite list_lookup_alter_eq.
    destruct (l !! k); [reflexivity | exact H].
  - rewrite per_cpu_alter_ne by exact Hne. exact H.
Qed.

(** C6.  Whatever the loads, frequencies, run-queue average, tables and
    records, one tick marks at most one core online and at most one core
    offline (and records at most one up-trigger). *)
Theorem C6_at_most_one_up_and_one_down (p : platform) (st : hotplug_state) :
  (length (List.filter is_mark_online (snd (hotplug_work_fn p st))) <= 1)%nat
  /\ (length (List.filter is_mark_offline (snd (hotplug_work_fn p st)))
      <= 1)%nat
  /\ (length (List.filter is_up_trigger (snd (hotplug_work_fn p st)))
      <= 1)%nat.
Proof.
  rewrite hotplug_work_fn_trace.
  destruct (hotplug_enable (hotplug_tuners_ins st) >? 0).
  - destruct (up_progress_holds p st NR_CPUS)
      as [(_ & Ht & Ho)|[(_ & t & _ & _ & _ & Ht & Ho & _)
                        |(_ & t & c & _ & _ & _ & _ & Ht & Ho & _)]];
      destruct (down_progress_holds p st NR_CPUS)
        as [(_ & Hd)|(_ & c' & _ & _ & _ & Hd)];
      rewrite Ht, Ho, Hd; cbn [length]; lia.
  - cbn [List.filter length]. lia.
Qed.

(** C4, as the code has it.  The core a tick marks online is chosen inside
    the per-core loop: it is the first offline core met after the trigger
    core, so its index is above the trigger's and every core between the two
    is online; its brought_up_by is the trigger's index; no other core is
    marked online in the tick.  In a tick that sees no disagreement between
    records and hardware the marked core's record ends the tick online with
    that back-reference. *)
Theorem C4_marked_core_is_first_offline_above_trigger (p : platform)
  (st : hotplug_state) (c : nat) (by_cpu : Z) :
  In (MarkOnline c by_cpu) (snd (hotplug_work_fn p st)) ->
  exists t : nat,
    by_cpu = Z.of_nat t
    /\ In (UpTrigger t) (snd (hotplug_work_fn p st))
    /\ (t < c < NR_CPUS)%nat
    /\ cpu_online p t = true
    /\ cpu_online p c = false
    /\ (forall k : nat, (t < k < c)%nat -> cpu_online p k = true)
    /\ (forall (c' : nat) (by' : Z),
          In (MarkOnline c' by') (snd (hotplug_work_fn p st)) ->
          c' = c /\ by' = by_cpu)
    /\ (length (od_hotplug_cpuinfo st) = NR_CPUS ->
        (forall d : nat,
           (d < NR_CPUS)%nat -> drifted p (od_hotplug_cpuinfo st) d = false) ->
        online (per_cpu (od_hotplug_cpuinfo (fst (hotplug_work_fn p st))) c)
        = 1
        /\ up_by_cpu
             (per_cpu (od_hotplug_cpuinfo (fst (hotplug_work_fn p st))) c)
           = by_cpu).
Proof.
  intros Hin.
  assert (He : hotplug_enable (hotplug_tuners_ins st) > 0).
  { rewrite hotplug_work_fn_trace in Hin.
    destruct (Z.gtb_spec (hotplug_enable (hotplug_tuners_ins st)) 0);
      [lia | destruct Hin]. }
  pose proof (hotplug_work_fn_trace p st) as Htr.
  destruct (Z.gtb_spec (hotplug_enable (hotplug_tuners_ins st)) 0); [|lia].
  rewrite Htr in *. clear Htr.
  destruct (up_progress_holds p st NR_CPUS)
    as [(_ & _ & Ho)|[(_ & t & _ & _ & _ & _ & Ho & _)
                     |(_ & t & c0 & Hlt & Hont & Hoff & Hbtw & Ht & Ho
                       & Hrec)]].
  - pose proof (in_filter_nil _ _ _ Ho Hin) as Hx. discriminate Hx.
  - pose proof (in_filter_nil _ _ _ Ho Hin) as Hx. discriminate Hx.
  - pose proof (in_filter_singleton _ _ _ _ Ho Hin eq_refl) as Heq.
    injection Heq as -> ->.
    exists t. split_all; try assumption; try reflexivity; try lia.
    + apply (filter_singleton_in _ _ _ Ht).
    + intros c' by' Hin'.
      pose proof (in_filter_singleton _ _ _ _ Ho Hin' eq_refl) as Heq.
      injection Heq as -> ->. split; reflexivity.
    + intros Hlen Hnd.
      destruct (drift_progress_holds p st NR_CPUS) as (Hl & Hother & _ & _).
      rewrite (existsb_seq_all_false _ _ Hnd) in Hother.
      rewrite hotplug_work_fn_records by exact He. cbv zeta.
      rewrite Hother.
      destruct Hrec as [Hr1 Hr2]; [lia|].
      destruct (num_online_cpus p =? 1)%nat.
      * rewrite (proj_per_cpu_alter online), (proj_per_cpu_alter up_by_cpu)
          by reflexivity.
        split; assumption.
      * split; assumption.
Qed.

Lemma C4_marked_core_witness :
  exists t : nat,
    2 = Z.of_nat t
    /\ In (UpTrigger t) (snd (hotplug_work_fn Samples.p_gap Samples.s_gap))
    /\ (t < 3 < NR_CPUS)%nat
    /\ cpu_online Samples.p_gap t = true
    /\ cpu_online Samples.p_gap 3 = false
    /\ (forall k : nat, (t < k < 3)%nat -> cpu_online Samples.p_gap k = true)
    /\ (forall (c' : nat) (by' : Z),
          In (MarkOnline c' by')
            (snd (hotplug_work_fn Samples.p_gap Samples.s_gap)) ->
          c' = 3%nat /\ by' = 2)
    /\ (length (od_hotplug_cpuinfo Samples.s_gap) = NR_CPUS ->
        (forall d : nat,
           (d < NR_CPUS)%nat ->
           drifted Samples.p_gap (od_hotplug_cpuinfo Samples.s_gap) d
           = false) ->
        online
          (per_cpu
             (od_hotplug_cpuinfo
                (fst (hotplug_work_fn Samples.p_gap Samples.s_gap))) 3) = 1
        /\ up_by_cpu
             (per_cpu
                (od_hotplug_cpuinfo
                   (fst (hotplug_work_fn Samples.p_gap Samples.s_gap))) 3)
           = 2).
Proof.
  apply (C4_marked_core_is_first_offline_above_trigger Samples.p_gap
           Samples.s_gap 3 2).
  vm_compute. right. left. reflexivity.
Defined.

(** C2, as the code has it.  In a tick of an enabled controller in which
    the recorded online flag of some core [d] disagrees with the hardware,
    whichever core that is: every record ends the tick with its online flag
    equal to the hardware status, eligible_for_up true and brought_up_by
    none; the tick is rescheduled and the counter advanced; and nothing is
    decided for core [d] or any core after it (every decision of the tick
    concerns a core of lower index than [d]). *)
Theorem C2_drift_tick_resynchronizes (p : platform) (st : hotplug_state)
  (d : nat) :
  hotplug_enable (hotplug_tuners_ins st) > 0 ->
  length (od_hotplug_cpuinfo st) = NR_CPUS ->
  (d < NR_CPUS)%nat ->
  drifted p (od_hotplug_cpuinfo st) d = true ->
  (forall k : nat,
     (k < NR_CPUS)%nat ->
     online (per_cpu (od_hotplug_cpuinfo (fst (hotplug_work_fn p st))) k)
     = of_bool (cpu_online p k)
     /\ up_cpu (per_cpu (od_hotplug_cpuinfo (fst (hotplug_work_fn p st))) k)
        = 1
     /\ up_by_cpu
          (per_cpu (od_hotplug_cpuinfo (fst (hotplug_work_fn p st))) k)
        = -1)
  /\ alucard_hotplug_work (fst (hotplug_work_fn p st)) = true
  /\ hotplugging_rate (fst (hotplug_work_fn p st)) = wrap_rate st
  /\ (forall e : event,
        In e (snd (hotplug_work_fn p st)) -> (event_cpu e < d)%nat).
Proof.
  intros He Hlen Hd Hdr.
  destruct (drift_progress_holds p st NR_CPUS) as (Hl & Hother & Hev & _).
  rewrite (existsb_seq_true _ _ d Hd Hdr) in Hother.
  split_all.
  - intros k Hk. rewrite hotplug_work_fn_records by exact He. cbv zeta.
    rewrite Hother.
    destruct (resync_records p (f_cpuinfo (frame_after p st NR_CPUS)) k)
      as (R1 & R2 & R3); [congruence | exact Hk |].
    destruct (num_online_cpus p =? 1)%nat.
    + rewrite (proj_per_cpu_alter online), (proj_per_cpu_alter up_by_cpu)
        by reflexivity.
      split_all; [exact R1 | apply up_cpu_alter_set; exact R2 | exact R3].
    + split_all; assumption.
  - apply hotplug_work_fn_rescheduled. exact He.
  - apply hotplug_work_fn_rate. exact He.
  - intros e Hin. apply hotplug_work_fn_trace_in in Hin.
    destruct (Hev e Hin) as [_ Hnd].
    destruct (Nat.lt_ge_cases (event_cpu e) d) as [Hlt|Hge]; [exact Hlt|].
    rewrite (Hnd d Hge) in Hdr. discriminate Hdr.
Qed.

Lemma C2_drift_tick_witness :
  (forall k : nat,
     (k < NR_CPUS)%nat ->
     online
       (per_cpu
          (od_hotplug_cpuinfo
             (fst (hotplug_work_fn Samples.p_drift_at_2
                     Samples.s_drift_at_2))) k)
     = of_bool (cpu_online Samples.p_drift_at_2 k)
     /\ up_cpu
          (per_cpu
             (od_hotplug_cpuinfo
                (fst (hotplug_work_fn Samples.p_drift_at_2
                        Samples.s_drift_at_2))) k) = 1
     /\ up_by_cpu
          (per_cpu
             (od_hotplug_cpuinfo
                (fst (hotplug_work_fn Samples.p_drift_at_2
                        Samples.s_drift_at_2))) k) = -1)
  /\ alucard_hotplug_work
       (fst (hotplug_work_fn Samples.p_drift_at_2 Samples.s_drift_at_2))
     = true
  /\ hotplugging_rate
       (fst (hotplug_work_fn Samples.p_drift_at_2 Samples.s_drift_at_2))
     = wrap_rate Samples.s_drift_at_2
  /\ (forall e : event,
        In e (snd (hotplug_work_fn Samples.p_drift_at_2 Samples.s_drift_at_2))
        -> (event_cpu e < 2)%nat).
Proof.
  apply (C2_drift_tick_resynchronizes Samples.p_drift_at_2
           Samples.s_drift_at_2 2).
  - simpl. lia.
  - reflexivity.
  - unfold NR_CPUS. lia.
  - vm_compute. reflexivity.
Defined.

(** ** The offline executor *)

Lemma cpu_down_online (k c : nat) (p : platform) :
  cpu_online (cpu_down k p) c = true -> cpu_online p c = true.
Proof.
  unfold cpu_down. destruct (num_online_cpus p =? 1)%nat; [auto|].
  cbn. destruct (c =? k)%nat; [discriminate | auto].
Qed.

Lemma cpu_offline_scan (st : hotplug_state) (cpus : list nat) :
  forall (acc : platform * list nat) (c : nat),
    In c (snd (fold_left (cpu_offline_work_step st) cpus acc)) ->
    In c (snd acc)
    \/ (online (per_cpu (od_hotplug_cpuinfo st) c) = 0
        /\ cpu_online (fst acc) c = true).
Proof.
  induction cpus as [|cpu cpus IH]; intros acc c Hin; [left; exact Hin|].
  cbn [fold_left] in Hin. apply IH in Hin. unfold cpu_offline_work_step in Hin.
  destruct (cpu_online (fst acc) cpu
            && (online (per_cpu (od_hotplug_cpuinfo st) cpu) =? of_bool false))
    eqn:Hc.
  - apply andb_prop in Hc as [Hon Hrec]. apply Z.eqb_eq in Hrec.
    cbn [fst snd] in Hin. destruct Hin as [Hin|[Hr Ho]].
    + apply in_app_or in Hin as [Hin|[<-|[]]]; [left; exact Hin|].
      right. split; assumption.
    + right. split; [exact Hr|]. apply (cpu_down_online cpu). exact Ho.
  - exact Hin.
Qed.

Lemma cpu_offline_work_fn_calls (st : hotplug_state) (p : platform) :
  snd (cpu_offline_work_fn st p)
  = snd (fold_left (cpu_offline_work_step st) possible_cpus (p, [])).
Proof.
  unfold cpu_offline_work_fn.
  destruct (fold_left (cpu_offline_work_step st) possible_cpus (p, []))
    as [p' calls].
  reflexivity.
Qed.

(** The offline executor calls [cpu_down] only on cores that are online and
    recorded offline. *)
Lemma cpu_offline_work_fn_only_marked (st : hotplug_state) (p : platform)
  (c : nat) :
  In c (snd (cpu_offline_work_fn st p)) ->
  online (per_cpu (od_hotplug_cpuinfo st) c) = 0 /\ cpu_online p c = true.
Proof.
  rewrite cpu_offline_work_fn_calls. intros Hin.
  apply cpu_offline_scan in Hin as [[]|H]. exact H.
Qed.

Lemma drifted_false (p : platform) (l : list hotplug_cpuinfo) (k : nat) :
  drifted p l k = false -> online (per_cpu l k) = of_bool (cpu_online p k).
Proof.
  unfold drifted. intros H. apply negb_false_iff in H.
  apply Z.eqb_eq in H. exact H.
Qed.

Lemma mark_offline_above_floor (p : platform) (st : hotplug_state) (c : nat) :
  In (MarkOffline c) (f_trace (frame_after p st NR_CPUS)) ->
  cpu_online p c = true
  /\ Z.of_nat c
     > to_u32 (downmaxcoreslimit (maxcoreslimit (hotplug_tuners_ins st))).
Proof.
  intros Hin.
  destruct (down_progress_holds p st NR_CPUS)
    as [(_ & Hd)|(_ & c' & _ & Hon & Hfl & Hd)].
  - pose proof (in_filter_nil _ _ _ Hd Hin) as Hx. discriminate Hx.
  - pose proof (in_filter_singleton _ _ _ _ Hd Hin eq_refl) as Heq.
    injection Heq as ->. split; assumption.
Qed.

Lemma mark_online_is_offline (p : platform) (st : hotplug_state) (c : nat)
  (by_cpu : Z) :
  In (MarkOnline c by_cpu) (f_trace (frame_after p st NR_CPUS)) ->
  cpu_online p c = false.
Proof.
  intros Hin.
  destruct (up_progress_holds p st NR_CPUS)
    as [(_ & _ & Ho)|[(_ & t & _ & _ & _ & _ & Ho & _)
                     |(_ & t & c0 & _ & _ & Hoff & _ & _ & Ho & _)]].
  - pose proof (in_filter_nil _ _ _ Ho Hin) as Hx. discriminate Hx.
  - pose proof (in_filter_nil _ _ _ Ho Hin) as Hx. discriminate Hx.
  - pose proof (in_filter_singleton _ _ _ _ Ho Hin eq_refl) as Heq.
    injection Heq as -> _. exact Hoff.
Qed.

(** After a tick of an enabled controller, a core 0 that is online is
    recorded online. *)
Lemma tick_records_cpu0_online (p : platform) (st : hotplug_state) :
  hotplug_enable (hotplug_tuners_ins st) > 0 ->
  length (od_hotplug_cpuinfo st) = NR_CPUS ->
  cpu_online p 0 = true ->
  online (per_cpu (od_hotplug_cpuinfo (fst (hotplug_work_fn p st))) 0) = 1.
Proof.
  intros He Hlen Hon.
  rewrite hotplug_work_fn_records by exact He. cbv zeta.
  assert (Hgoal :
    online
      (per_cpu
         (if f_other_hotplugging (frame_after p st NR_CPUS)
          then resync p (f_cpuinfo (frame_after p st NR_CPUS))
          else f_cpuinfo (frame_after p st NR_CPUS)) 0) = 1).
  { destruct (drift_progress_holds p st NR_CPUS) as (Hl & Hother & _ & Hrec).
    destruct (f_other_hotplugging (frame_after p st NR_CPUS)).
    - destruct (resync_records p (f_cpuinfo (frame_after p st NR_CPUS)) 0)
        as (R1 & _); [congruence | unfold NR_CPUS; lia |].
      rewrite R1, Hon. reflexivity.
    - symmetry in Hother.
      pose proof (existsb_seq_false _ NR_CPUS 0%nat Hother) as Hd.
      rewrite Hrec.
      + rewrite (drifted_false p _ 0%nat) by (apply Hd; unfold NR_CPUS; lia).
        rewrite Hon. reflexivity.
      + intros e Hin Hnt Hc. destruct e as [c|c|c b]; cbn in Hc; subst c.
        * discriminate Hnt.
        * destruct (mark_offline_above_floor p st 0 Hin) as [_ Hfl].
          pose proof (to_u32_nonneg
                        (downmaxcoreslimit
                           (maxcoreslimit (hotplug_tuners_ins st)))).
          lia.
        * rewrite (mark_online_is_offline p st 0 b Hin) in Hon.
          discriminate Hon. }
  destruct (num_online_cpus p =? 1)%nat; [|exact Hgoal].
  rewrite (proj_per_cpu_alter online) by reflexivity. exact Hgoal.
Qed.

Lemma cpu_down_other (k c : nat) (p : platform) :
  c <> k -> cpu_online (cpu_down k p) c = cpu_online p c.
Proof.
  intros Hne. unfold cpu_down.
  destruct (num_online_cpus p =? 1)%nat; [reflexivity|].
  cbn. destruct (Nat.eqb_spec c k); [contradiction | reflexivity].
Qed.

Lemma cpu_offline_scan_keeps (st : hotplug_state) (cpus : list nat) :
  forall (acc : platform * list nat) (c : nat),
    In c (snd acc) ->
    In c (snd (fold_left (cpu_offline_work_step st) cpus acc)).
Proof.
  induction cpus as [|cpu cpus IH]; intros acc c Hin; [exact Hin|].
  cbn [fold_left]. apply IH. unfold cpu_offline_work_step.
  destruct (cpu_online (fst acc) cpu
            && (online (per_cpu (od_hotplug_cpuinfo st) cpu) =? of_bool false));
    [|exact Hin].
  cbn [snd]. apply in_or_app. left. exact Hin.
Qed.

Lemma cpu_offline_scan_calls (st : hotplug_state) (cpus : list nat) :
  forall (acc : platform * list nat) (c : nat),
    List.NoDup cpus -> In c cpus ->
    cpu_online (fst acc) c = true ->
    online (per_cpu (od_hotplug_cpuinfo st) c) = 0 ->
    In c (snd (fold_left (cpu_offline_work_step st) cpus acc)).
Proof.
  induction cpus as [|cpu cpus IH]; intros acc c Hnd Hin Hon Hrec;
    [destruct Hin|].
  apply NoDup_cons_iff in Hnd as [Hnot Hnd].
  cbn [fold_left]. destruct Hin as [->|Hin].
  - apply cpu_offline_scan_keeps. unfold cpu_offline_work_step.
    rewrite Hon, Hrec. cbn. apply in_or_app. right. left. reflexivity.
  - apply IH; try assumption.
    unfold cpu_offline_work_step.
    destruct (cpu_online (fst acc) cpu
              && (online (per_cpu (od_hotplug_cpuinfo st) cpu)
                  =? of_bool false));
      [|exact Hon].
    cbn [fst]. rewrite cpu_down_other; [exact Hon|].
    intros ->. contradiction.
Qed.

Lemma cpu_offline_scan_in (st : hotplug_state) (cpus : list nat) :
  forall (acc : platform * list nat) (c : nat),
    In c (snd (fold_left (cpu_offline_work_step st) cpus acc)) ->
    In c (snd acc) \/ In c cpus.
Proof.
  induction cpus as [|cpu cpus IH]; intros acc c Hin; [left; exact Hin|].
  cbn [fold_left] in Hin. apply IH in Hin as [Hin|Hin];
    [|right; right; exact Hin].
  unfold cpu_offline_work_step in Hin.
  destruct (cpu_online (fst acc) cpu
            && (online (per_cpu (od_hotplug_cpuinfo st) cpu) =? of_bool false));
    [|left; exact Hin].
  cbn [snd] in Hin. apply in_app_or in Hin as [Hin|[<-|[]]];
    [left; exact Hin | right; left; reflexivity].
Qed.

(** The cores the offline executor calls [cpu_down] on: the possible cores
    that are online when it runs and recorded offline. *)
Lemma cpu_offline_work_fn_called (st : hotplug_state) (p : platform)
  (c : nat) :
  In c (snd (cpu_offline_work_fn st p))
  <-> (c < NR_CPUS)%nat
      /\ cpu_online p c = true
      /\ online (per_cpu (od_hotplug_cpuinfo st) c) = 0.
Proof.
  rewrite cpu_offline_work_fn_calls. split.
  - intros Hin. pose proof Hin as Hin'.
    apply cpu_offline_scan in Hin as [[]|[Hrec Hon]].
    apply cpu_offline_scan_in in Hin' as [[]|Hc].
    unfold possible_cpus in Hc. apply in_seq in Hc.
    split_all; [lia | exact Hon | exact Hrec].
  - intros (Hlt & Hon & Hrec).
    apply cpu_offline_scan_calls; try assumption.
    + apply seq_NoDup.
    + unfold possible_cpus. apply in_seq. lia.
Qed.

(** After a tick of an enabled controller, a core 0 that is offline is
    recorded offline. *)
Lemma tick_records_cpu0_offline (p : platform) (st : hotplug_state) :
  hotplug_enable (hotplug_tuners_ins st) > 0 ->
  length (od_hotplug_cpuinfo st) = NR_CPUS ->
  cpu_online p 0 = false ->
  online (per_cpu (od_hotplug_cpuinfo (fst (hotplug_work_fn p st))) 0) = 0.
Proof.
  intros He Hlen Hoff.
  rewrite hotplug_work_fn_records by exact He. cbv zeta.
  assert (Hgoal :
    online
      (per_cpu
         (if f_other_hotplugging (frame_after p st NR_CPUS)
          then resync p (f_cpuinfo (frame_after p st NR_CPUS))
          else f_cpuinfo (frame_after p st NR_CPUS)) 0) = 0).
  { destruct (drift_progress_holds p st NR_CPUS) as (Hl & Hother & _ & Hrec).
    destruct (f_other_hotplugging (frame_after p st NR_CPUS)).
    - destruct (resync_records p (f_cpuinfo (frame_after p st NR_CPUS)) 0)
        as (R1 & _); [congruence | unfold NR_CPUS; lia |].
      rewrite R1, Hoff. reflexivity.
    - symmetry in Hother.
      pose proof (existsb_seq_false _ NR_CPUS 0%nat Hother) as Hd.
      rewrite Hrec.
      + rewrite (drifted_false p _ 0%nat) by (apply Hd; unfold NR_CPUS; lia).
        rewrite Hoff. reflexivity.
      + intros e Hin Hnt Hc. destruct e as [c|c|c b]; cbn in Hc; subst c.
        * discriminate Hnt.
        * destruct (mark_offline_above_floor p st 0 Hin) as [Hon _].
          rewrite Hoff in Hon. discriminate Hon.
        * destruct (up_progress_holds p st NR_CPUS)
            as [(_ & _ & Ho)|[(_ & t & _ & _ & _ & _ & Ho & _)
                             |(_ & t & c0 & Htc & _ & _ & _ & _ & Ho & _)]].
          -- pose proof (in_filter_nil _ _ _ Ho Hin) as Hx. discriminate Hx.
          -- pose proof (in_filter_nil _ _ _ Ho Hin) as Hx. discriminate Hx.
          -- pose proof (in_filter_singleton _ _ _ _ Ho Hin eq_refl) as Heq.
             injection Heq as <- _. lia. }
  destruct (num_online_cpus p =? 1)%nat; [|exact Hgoal].
  rewrite (proj_per_cpu_alter online) by reflexivity. exact Hgoal.
Qed.

(** C7, as the code has it.  A tick marks a core offline only if the core
    is online and its index is above the down floor (0 when max_cores_online
    is the core count, max_cores_online - 1 otherwise): never core 0, and,
    under a cap below the core count, only cores at or above
    max_cores_online.  The offline executor has no guard of its own for
    core 0: it calls [cpu_down] on exactly the cores that are online when
    it runs and recorded offline.  On the records left by a tick of the
    enabled controller that saw core 0 online, it does not call [cpu_down]
    on core 0, whatever the platform shows when it runs; on the records
    left by a tick that saw core 0 offline, it calls [cpu_down] on core 0
    whenever core 0 is online when it runs. *)
Theorem C7_offline_only_above_floor (p : platform) (st : hotplug_state) :
  (forall c : nat,
     In (MarkOffline c) (snd (hotplug_work_fn p st)) ->
     c <> 0%nat
     /\ cpu_online p c = true
     /\ Z.of_nat c
        > to_u32 (downmaxcoreslimit (maxcoreslimit (hotplug_tuners_ins st)))
     /\ (1 <= maxcoreslimit (hotplug_tuners_ins st) < Z.of_nat NR_CPUS ->
         maxcoreslimit (hotplug_tuners_ins st) <= Z.of_nat c))
  /\ (forall (st' : hotplug_state) (p' : platform) (c : nat),
        In c (snd (cpu_offline_work_fn st' p'))
        <-> (c < NR_CPUS)%nat
            /\ cpu_online p' c = true
            /\ online (per_cpu (od_hotplug_cpuinfo st') c) = 0)
  /\ (hotplug_enable (hotplug_tuners_ins st) > 0 ->
      length (od_hotplug_cpuinfo st) = NR_CPUS ->
      cpu_online p 0 = true ->
      online (per_cpu (od_hotplug_cpuinfo (fst (hotplug_work_fn p st))) 0) = 1
      /\ forall p' : platform,
           ~ In 0%nat
               (snd (cpu_offline_work_fn (fst (hotplug_work_fn p st)) p')))
  /\ (hotplug_enable (hotplug_tuners_ins st) > 0 ->
      length (od_hotplug_cpuinfo st) = NR_CPUS ->
      cpu_online p 0 = false ->
      online (per_cpu (od_hotplug_cpuinfo (fst (hotplug_work_fn p st))) 0) = 0
      /\ forall p' : platform,
           In 0%nat
             (snd (cpu_offline_work_fn (fst (hotplug_work_fn p st)) p'))
           <-> cpu_online p' 0 = true).
Proof.
  split_all.
  - intros c Hin. apply hotplug_work_fn_trace_in in Hin.
    destruct (mark_offline_above_floor p st c Hin) as [Hon Hfl].
    pose proof (to_u32_nonneg
                  (downmaxcoreslimit (maxcoreslimit (hotplug_tuners_ins st))))
      as Hnn.
    split_all; try assumption; [lia|].
    intros Hcap. unfold downmaxcoreslimit in Hfl.
    destruct (Z.eqb_spec (maxcoreslimit (hotplug_tuners_ins st))
                (Z.of_nat NR_CPUS)) as [Heq|Hne]; [lia|].
    rewrite to_u32_small in Hfl; [lia|].
    unfold NR_CPUS in Hcap. cbn in Hcap. lia.
  - intros st' p' c. apply cpu_offline_work_fn_called.
  - intros He Hlen Hon.
    pose proof (tick_records_cpu0_online p st He Hlen Hon) as Hrec.
    split; [exact Hrec|].
    intros p' Hin.
    apply cpu_offline_work_fn_called in Hin as (_ & _ & Hz).
    rewrite Hrec in Hz. discriminate Hz.
  - intros He Hlen Hoff.
    pose proof (tick_records_cpu0_offline p st He Hlen Hoff) as Hrec.
    split; [exact Hrec|].
    intros p'. rewrite cpu_offline_work_fn_called, Hrec.
    unfold NR_CPUS. split; [tauto|].
    intros H. split_all; [lia | exact H | reflexivity].
Qed.

Lemma C7_offline_only_above_floor_witness :
  online (per_cpu
            (od_hotplug_cpuinfo
               (fst (hotplug_work_fn Samples.p_over_cap Samples.s_over_cap)))
            0) = 1
  /\ forall p' : platform,
       ~ In 0%nat
           (snd
              (cpu_offline_work_fn
                 (fst (hotplug_work_fn Samples.p_over_cap Samples.s_over_cap))
                 p')).
Proof.
  apply (C7_offline_only_above_floor Samples.p_over_cap Samples.s_over_cap);
    [simpl; lia | reflexivity | reflexivity].
Defined.

(** The executor's lack of a guard, on a sample: the records say core 0 is
    offline (a tick saw it so), core 0 has since come online, and the
    executor takes it down along with core 2. *)
Lemma offline_executor_takes_core_0_down :
  let p := platform_of
             [(false, 0, 0, 0); (true, 1000, 500, 1000000);
              (true, 1000, 900, 300000); (false, 0, 0, 0)] 1 100 in
  let st := running_state 10 1 4 0 100
              [fresh_cpuinfo false; fresh_cpuinfo true; fresh_cpuinfo true;
               fresh_cpuinfo false] in
  let p' := platform_of
              [(true, 0, 0, 0); (true, 1000, 500, 1000000);
               (true, 1000, 900, 300000); (false, 0, 0, 0)] 1 100 in
  snd (hotplug_work_fn p st) = [MarkOffline 2]
  /\ snd (cpu_offline_work_fn (fst (hotplug_work_fn p st)) p')
     = [0%nat; 2%nat].
Proof.
  split; vm_compute; reflexivity.
Qed.

(** ** Disabling *)

Lemma offline_secondary_cpu_facts (cpus : list nat) :
  forall p : platform,
    cpu_online (fold_left offline_secondary_cpu cpus p) 0 = cpu_online p 0
    /\ forall c : nat,
         cpu_online (fold_left offline_secondary_cpu cpus p) c = true ->
         cpu_online p c = true.
Proof.
  induction cpus as [|cpu cpus IH]; intros p; [split; auto|].
  cbn [fold_left]. destruct (IH (offline_secondary_cpu p cpu)) as [H0 Hc].
  unfold offline_secondary_cpu in *.
  destruct (cpu_online p cpu) eqn:Hon; [|split; assumption].
  destruct (Nat.eqb_spec cpu 0) as [->|Hne]; [split; assumption|].
  split.
  - rewrite H0. unfold cpu_down.
    destruct (num_online_cpus p =? 1)%nat; [reflexivity|].
    destruct cpu as [|cpu']; [contradiction | reflexivity].
  - intros c Hx. apply (cpu_down_online cpu). apply Hc. exact Hx.
Qed.

(** ** The store functions of the tunables *)

(** X1.  [store_cpu_up_rate] and [store_cpu_down_rate] clamp the written
    number into 1..MAX_HOTPLUG_RATE: the stored rate is the number itself
    when it lies in that range, 1 below it and 40 above it; the other rate
    is untouched and the write returns its byte count. *)
Theorem X1_store_rates_clamp (input count : Z) (st : hotplug_state) :
  let up := fst (store_cpu_up_rate (Some input) count st) in
  let down := fst (store_cpu_down_rate (Some input) count st) in
  cpu_up_rate (hotplug_tuners_ins up) = Z.max 1 (Z.min input 40)
  /\ 1 <= cpu_up_rate (hotplug_tuners_ins up) <= MAX_HOTPLUG_RATE
  /\ cpu_down_rate (hotplug_tuners_ins up)
     = cpu_down_rate (hotplug_tuners_ins st)
  /\ snd (store_cpu_up_rate (Some input) count st) = count
  /\ cpu_down_rate (hotplug_tuners_ins down) = Z.max 1 (Z.min input 40)
  /\ 1 <= cpu_down_rate (hotplug_tuners_ins down) <= MAX_HOTPLUG_RATE
  /\ cpu_up_rate (hotplug_tuners_ins down)
     = cpu_up_rate (hotplug_tuners_ins st)
  /\ snd (store_cpu_down_rate (Some input) count st) = count.
Proof.
  unfold store_cpu_up_rate, store_cpu_down_rate, MAX_HOTPLUG_RATE.
  destruct (Z.eqb_spec (Z.max (Z.min input 40) 1)
              (cpu_up_rate (hotplug_tuners_ins st))) as [Hu|Hu];
    destruct (Z.eqb_spec (Z.max (Z.min input 40) 1)
                (cpu_down_rate (hotplug_tuners_ins st))) as [Hd|Hd];
    cbn [fst snd with_tuners set_cpu_up_rate set_cpu_down_rate
           hotplug_tuners_ins cpu_up_rate cpu_down_rate];
    split_all; try reflexivity; lia.
Qed.

(** X2.  [store_maxcoreslimit] clamps the written number into 1..NR_CPUS
    and changes nothing else, in the tunables or in the rest of the
    controller: the state it leaves is the state it found with the cap
    replaced.  With the stored cap the down floor of the tick is the cap
    minus one, or 0 when the cap is NR_CPUS. *)
Theorem X2_store_maxcoreslimit_clamp (input count : Z) (st : hotplug_state) :
  let st' := fst (store_maxcoreslimit (Some input) count st) in
  maxcoreslimit (hotplug_tuners_ins st')
  = Z.max 1 (Z.min input (Z.of_nat NR_CPUS))
  /\ 1 <= maxcoreslimit (hotplug_tuners_ins st') <= Z.of_nat NR_CPUS
  /\ 0 <= downmaxcoreslimit (maxcoreslimit (hotplug_tuners_ins st'))
     < Z.of_nat NR_CPUS - 1
  /\ cpu_up_rate (hotplug_tuners_ins st') = cpu_up_rate (hotplug_tuners_ins st)
  /\ cpu_down_rate (hotplug_tuners_ins st')
     = cpu_down_rate (hotplug_tuners_ins st)
  /\ hotplug_enable (hotplug_tuners_ins st')
     = hotplug_enable (hotplug_tuners_ins st)
  /\ snd (store_maxcoreslimit (Some input) count st) = count
  /\ hotplug_sampling_rate (hotplug_tuners_ins st')
     = hotplug_sampling_rate (hotplug_tuners_ins st)
  /\ accuratecpufreq (hotplug_tuners_ins st')
     = accuratecpufreq (hotplug_tuners_ins st)
  /\ st' =
     {| hotplug_tuners_ins :=
          {| hotplug_sampling_rate := hotplug_sampling_rate (hotplug_tuners_ins st);
             hotplug_enable := hotplug_enable (hotplug_tuners_ins st);
             cpu_up_rate := cpu_up_rate (hotplug_tuners_ins st);
             cpu_down_rate := cpu_down_rate (hotplug_tuners_ins st);
             maxcoreslimit := Z.max 1 (Z.min input (Z.of_nat NR_CPUS));
             accuratecpufreq := accuratecpufreq (hotplug_tuners_ins st) |};
        hotplug_freq := hotplug_freq st;
        hotplug_load := hotplug_load st;
        hotplug_rq := hotplug_rq st;
        od_hotplug_cpuinfo := od_hotplug_cpuinfo st;
        hotplugging_rate := hotplugging_rate st;
        other_hotplugging := other_hotplugging st;
        rq_data := rq_data st;
        alucard_hotplug_work := alucard_hotplug_work st;
        alucard_hotplug_offline_work := alucard_hotplug_offline_work st;
        alucard_hotplug_online_work := alucard_hotplug_online_work st |}.
Proof.
  unfold store_maxcoreslimit, downmaxcoreslimit.
  change (Z.of_nat NR_CPUS) with 4.
  assert (Hclamp : Z.max (if input >? 4 then 4 else input) 1
                   = Z.max 1 (Z.min input 4)).
  { destruct (Z.gtb_spec input 4); lia. }
  rewrite Hclamp.
  destruct (Z.eqb_spec (maxcoreslimit (hotplug_tuners_ins st))
              (Z.max 1 (Z.min input 4))) as [He|He];
    cbn [fst snd with_tuners set_maxcoreslimit hotplug_tuners_ins
           maxcoreslimit cpu_up_rate cpu_down_rate hotplug_enable
           hotplug_sampling_rate accuratecpufreq];
    split_all; try reflexivity; try lia.
  all: try (match goal with
            | |- context [if ?a =? ?b then _ else _] =>
                destruct (Z.eqb_spec a b); lia
            end).
  rewrite <- He. destruct st as [t ? ? ? ? ? ? ? ? ? ?]. destruct t.
  reflexivity.
Qed.

(** X3.  [store_hotplug_sampling_rate] stores the written period raised to
    the floor of 10000 us and changes nothing else in the controller: the
    state it leaves is the state it found with the period replaced, so a
    pending tick stays pending.  The timer of the tick is touched only by a
    write that changes the stored period while a tick is pending: it is
    then re-armed at [jiffies + usecs_to_jiffies(period)] when that is
    before the appointed expiry and left alone otherwise, so that it
    expires no later than one new period from now.  A write of the period
    already stored, or with no tick pending, leaves the timer alone. *)
Theorem X3_sampling_rate_takes_effect (ck : clock) (input count : Z)
  (st : hotplug_state) (expires : Z) :
  input < 2 ^ 31 ->
  let r := store_hotplug_sampling_rate ck (Some input) count (st, expires) in
  let st' := fst (fst r) in
  let expires' := snd (fst r) in
  let deadline :=
    to_u32 (jiffies ck + usecs_to_jiffies ck (Z.max input 10000)) in
  hotplug_sampling_rate (hotplug_tuners_ins st') = Z.max input 10000
  /\ alucard_hotplug_work st' = alucard_hotplug_work st
  /\ od_hotplug_cpuinfo st' = od_hotplug_cpuinfo st
  /\ hotplugging_rate st' = hotplugging_rate st
  /\ snd r = count
  /\ (alucard_hotplug_work st = false -> expires' = expires)
  /\ (alucard_hotplug_work st = true ->
      Z.max input 10000 <> hotplug_sampling_rate (hotplug_tuners_ins st) ->
      time_before deadline expires' = false
      /\ expires' = (if time_before deadline expires then deadline
                     else expires))
  /\ st' =
     {| hotplug_tuners_ins :=
          {| hotplug_sampling_rate := Z.max input 10000;
             hotplug_enable := hotplug_enable (hotplug_tuners_ins st);
             cpu_up_rate := cpu_up_rate (hotplug_tuners_ins st);
             cpu_down_rate := cpu_down_rate (hotplug_tuners_ins st);
             maxcoreslimit := maxcoreslimit (hotplug_tuners_ins st);
             accuratecpufreq := accuratecpufreq (hotplug_tuners_ins st) |};
        hotplug_freq := hotplug_freq st;
        hotplug_load := hotplug_load st;
        hotplug_rq := hotplug_rq st;
        od_hotplug_cpuinfo := od_hotplug_cpuinfo st;
        hotplugging_rate := hotplugging_rate st;
        other_hotplugging := other_hotplugging st;
        rq_data := rq_data st;
        alucard_hotplug_work := alucard_hotplug_work st;
        alucard_hotplug_offline_work := alucard_hotplug_offline_work st;
        alucard_hotplug_online_work := alucard_hotplug_online_work st |}
  /\ expires'
     = (if alucard_hotplug_work st
           && negb (Z.max input 10000
                    =? hotplug_sampling_rate (hotplug_tuners_ins st))
           && time_before deadline expires
        then deadline else expires)
  /\ (Z.max input 10000 = hotplug_sampling_rate (hotplug_tuners_ins st) ->
      st' = st /\ expires' = expires).
Proof.
  intros Hi r st' expires' deadline.
  assert (Hu : to_u32 (Z.max input 10000) = Z.max input 10000).
  { apply to_u32_small. lia. }
  assert (Hs : to_s32 (Z.max input 10000) = Z.max input 10000).
  { unfold to_s32. rewrite Z.mod_small; lia. }
  subst r st' expires' deadline.
  unfold store_hotplug_sampling_rate. cbn [fst snd].
  destruct (Z.eqb_spec (Z.max input 10000)
              (hotplug_sampling_rate (hotplug_tuners_ins st)))
    as [He|He]; cbn [fst snd negb] in *.
  - rewrite andb_false_r. cbn [andb].
    split_all; try reflexivity; try (symmetry; exact He).
    + intros _ Hne. contradiction.
    + rewrite He. destruct st as [t ? ? ? ? ? ? ? ? ? ?]. destruct t.
      reflexivity.
    + intros _. split; reflexivity.
  - unfold update_sampling_rate. cbn [fst snd].
    rewrite Hu, Hs.
    cbn [with_tuners alucard_hotplug_work].
    destruct (alucard_hotplug_work st) eqn:Hp; cbn [negb andb].
    + destruct (time_before
                  (to_u32 (jiffies ck
                           + usecs_to_jiffies ck (Z.max input 10000)))
                  expires) eqn:Htb;
        cbn [fst snd with_tuners hotplug_tuners_ins set_hotplug_sampling_rate
               hotplug_sampling_rate alucard_hotplug_work od_hotplug_cpuinfo
               hotplugging_rate];
        split_all; try reflexivity; try assumption; try discriminate;
        try contradiction; try (rewrite <- Hp; reflexivity).
      * intros _ _. split; [|reflexivity].
        unfold time_before. rewrite Z.sub_diag. reflexivity.
      * intros _ _. split; [exact Htb | reflexivity].
    + cbn [fst snd with_tuners hotplug_tuners_ins set_hotplug_sampling_rate
             hotplug_sampling_rate alucard_hotplug_work od_hotplug_cpuinfo
             hotplugging_rate].
      split_all; try reflexivity; try assumption; try discriminate;
        try contradiction; try (rewrite <- Hp; reflexivity).
Qed.

Lemma X3_sampling_rate_witness :
  let ck := {| jiffies := 1000; usecs_to_jiffies := fun us => us / 10000 |} in
  let st := with_pending true false false Samples.s_over_cap in
  let r := store_hotplug_sampling_rate ck (Some 20000) 6 (st, 1006) in
  let r2 := store_hotplug_sampling_rate ck (Some 20000) 6 (fst r) in
  hotplug_sampling_rate (hotplug_tuners_ins st) = 60000
  /\ fst (fst r)
     = with_tuners
         {| hotplug_sampling_rate := 20000; hotplug_enable := 1;
            cpu_up_rate := 10; cpu_down_rate := 1; maxcoreslimit := 2;
            accuratecpufreq := 0 |} st
  /\ snd (fst r) = 1002
  /\ snd r = 6
  /\ r2 = r.
Proof.
  intros ck st r r2.
  pose proof (X3_sampling_rate_takes_effect ck 20000 6 st 1006 eq_refl)
    as (_ & _ & _ & _ & Hc & _ & _ & Hst & Hex & _).
  pose proof (X3_sampling_rate_takes_effect ck 20000 6 (fst (fst r))
                (snd (fst r)) eq_refl)
    as (_ & _ & _ & _ & Hc2 & _ & _ & _ & _ & Hsame).
  split; [reflexivity|]. split; [exact Hst|]. split; [exact Hex|].
  split; [exact Hc|].
  destruct Hsame as [S1 S2]; [reflexivity|].
  vm_compute. reflexivity.
Defined.

(** ** The tick counter *)

(** X4.  After a tick of an enabled controller whose rates are within
    1..40, the tick counter is below max(up_rate, down_rate), whatever it
    was before: the counter cannot run away when the rates are lowered
    between ticks. *)
Theorem X4_tick_counter_below_max (p : platform) (st : hotplug_state) :
  hotplug_enable (hotplug_tuners_ins st) > 0 ->
  1 <= cpu_up_rate (hotplug_tuners_ins st) <= MAX_HOTPLUG_RATE ->
  1 <= cpu_down_rate (hotplug_tuners_ins st) <= MAX_HOTPLUG_RATE ->
  0 <= hotplugging_rate (fst (hotplug_work_fn p st))
  < Z.max (cpu_up_rate (hotplug_tuners_ins st))
      (cpu_down_rate (hotplug_tuners_ins st)).
Proof.
  unfold MAX_HOTPLUG_RATE. intros He Hu Hd.
  rewrite hotplug_work_fn_rate by exact He. unfold wrap_rate.
  rewrite (to_u32_small (Z.max _ _)) by lia.
  pose proof (to_u32_nonneg (hotplugging_rate st + 1)) as Hn.
  unfold next_rate.
  destruct (Z.geb_spec (to_u32 (hotplugging_rate st + 1))
              (Z.max (cpu_up_rate (hotplug_tuners_ins st))
                 (cpu_down_rate (hotplug_tuners_ins st)))); lia.
Qed.

Lemma X4_tick_counter_witness :
  0 <= hotplugging_rate
         (fst (hotplug_work_fn Samples.p_two_online
                 (running_state 3 5 4 17 0 [])))
  < Z.max (cpu_up_rate (hotplug_tuners_ins (running_state 3 5 4 17 0 [])))
      (cpu_down_rate (hotplug_tuners_ins (running_state 3 5 4 17 0 []))).
Proof.
  apply (X4_tick_counter_below_max Samples.p_two_online
           (running_state 3 5 4 17 0 []));
    unfold MAX_HOTPLUG_RATE; simpl; lia.
Defined.

(** ** Interval load *)

(** X5.  For an idle delta that does not exceed the wall delta, and a busy
    delta small enough that one hundred times it fits 32 bits, the interval
    load is the busy share in percent rounded down, between 0 and 100; it is
    0 when nothing was busy and 100 when nothing was idle. *)
Theorem X5_interval_load_percent (wall_time idle_time : Z) :
  0 <= idle_time <= wall_time ->
  100 * (wall_time - idle_time) < 2 ^ 32 ->
  0 <= interval_load wall_time idle_time <= 100
  /\ (idle_time < wall_time ->
      interval_load wall_time idle_time
      = 100 * (wall_time - idle_time) / wall_time)
  /\ (idle_time = wall_time -> interval_load wall_time idle_time = 0)
  /\ (idle_time = 0 -> 0 < wall_time ->
      interval_load wall_time idle_time = 100).
Proof.
  intros Hr Hb. unfold interval_load.
  destruct (Z.gtb_spec wall_time idle_time) as [Hg|Hg].
  - assert (Hq : 0 <= 100 * (wall_time - idle_time) / wall_time <= 100).
    { split.
      - apply Z.div_pos; lia.
      - apply Z.div_le_upper_bound; lia. }
    rewrite to_u32_small by lia.
    assert (Hs : to_s32 (100 * (wall_time - idle_time) / wall_time)
                 = 100 * (wall_time - idle_time) / wall_time).
    { unfold to_s32. rewrite Z.mod_small; lia. }
    rewrite Hs. split_all; try lia.
    intros -> Hw. rewrite Z.sub_0_r. apply Z.div_mul. lia.
  - split_all; try lia.
Qed.

Lemma X5_interval_load_witness :
  0 <= interval_load 1000 900 <= 100
  /\ (900 < 1000 -> interval_load 1000 900 = 100 * (1000 - 900) / 1000)
  /\ (900 = 1000 -> interval_load 1000 900 = 0)
  /\ (900 = 0 -> 0 < 1000 -> interval_load 1000 900 = 100).
Proof.
  apply (X5_interval_load_percent 1000 900); lia.
Defined.

(** ** The weighted run-queue average *)

Lemma to_u64_to_s64 (z : Z) : to_u64 (to_s64 z) = to_u64 z.
Proof.
  unfold to_u64, to_s64. rewrite Zminus_mod_idemp_l. f_equal. lia.
Qed.

(** X6.  A sample taken while an average is being accumulated (average
    and accumulated time both nonzero, at least a millisecond since the
    last sample, no 32-bit overflow) replaces the average by the
    time-weighted mean [(instant*dt + avg*total) / (total + dt)], adds [dt]
    to the accumulated time, and so never leaves the interval between the
    old average and the new instantaneous value. *)
Theorem X6_sampler_weighted_average (cur running : Z) (rq : runqueue_data) :
  0 < nr_run_avg rq < 2 ^ 32 ->
  0 < total_time rq ->
  0 < last_time rq <= cur ->
  cur < 2 ^ 63 ->
  0 < (cur - last_time rq) / 1000000 ->
  total_time rq + (cur - last_time rq) / 1000000 < 2 ^ 32 ->
  0 <= running * 100 < 2 ^ 32 ->
  nr_run_avg (rq_work_fn cur running rq)
  = (running * 100 * ((cur - last_time rq) / 1000000)
     + nr_run_avg rq * total_time rq)
    / (total_time rq + (cur - last_time rq) / 1000000)
  /\ total_time (rq_work_fn cur running rq)
     = total_time rq + (cur - last_time rq) / 1000000
  /\ last_time (rq_work_fn cur running rq) = cur
  /\ Z.min (running * 100) (nr_run_avg rq)
     <= nr_run_avg (rq_work_fn cur running rq)
     <= Z.max (running * 100) (nr_run_avg rq).
Proof.
  intros Ha Ht Hl Hc Hd Hs Hr.
  set (dt := (cur - last_time rq) / 1000000) in *.
  set (a := nr_run_avg rq) in *. set (T := total_time rq) in *.
  set (i := running * 100) in *.
  assert (Hdt : dt <= cur - last_time rq).
  { subst dt. apply Z.div_le_upper_bound; lia. }
  assert (Hq : Z.min i a <= (i * dt + a * T) / (T + dt) <= Z.max i a).
  { split.
    - apply Z.div_le_lower_bound; [lia|].
      destruct (Z.min_spec i a) as [[Hm ->]|[Hm ->]]; nia.
    - apply Z.div_le_upper_bound; [lia|].
      destruct (Z.max_spec i a) as [[Hm ->]|[Hm ->]]; nia. }
  assert (HN : 0 <= i * dt + a * T < 2 ^ 64).
  { split; [nia|].
    assert (i * dt + a * T <= (2 ^ 32 - 1) * (T + dt)) by nia.
    assert ((2 ^ 32 - 1) * (T + dt) < 2 ^ 32 * 2 ^ 32) by nia.
    change (2 ^ 64) with (2 ^ 32 * 2 ^ 32). lia. }
  unfold rq_work_fn. fold a T.
  destruct (Z.eqb_spec (last_time rq) 0) as [Hz|_]; [lia|].
  destruct (Z.eqb_spec a 0) as [Hz|_]; [lia|].
  fold i. rewrite (to_u32_small i) by exact Hr.
  rewrite (to_s64_small (cur - last_time rq)) by lia.
  assert (Hdd : to_s64 (do_div (cur - last_time rq) (1000 * 1000)) = dt).
  { unfold do_div. rewrite to_u64_small by lia.
    rewrite to_u32_small by lia. change (1000 * 1000) with 1000000.
    fold dt. apply to_s64_small. lia. }
  rewrite Hdd.
  destruct (Z.eqb_spec dt 0) as [Hz|_]; [lia|].
  destruct (Z.eqb_spec T 0) as [Hz|_]; [lia|].
  cbn [negb andb nr_run_avg total_time last_time].
  assert (Hq2 : to_s64 (do_div (to_s64 (i * dt + a * T)) (T + dt))
                = (i * dt + a * T) / (T + dt)).
  { unfold do_div. rewrite to_u64_to_s64, to_u64_small by exact HN.
    rewrite to_u32_small by lia. apply to_s64_small. lia. }
  rewrite Hq2, to_u32_small by lia.
  rewrite to_s64_small by lia.
  split_all; try reflexivity; lia.
Qed.

Lemma X6_sampler_weighted_average_witness :
  nr_run_avg
    (rq_work_fn 30000000 2
       {| nr_run_avg := 400; update_rate := 10; last_time := 20000000;
          total_time := 10; work := true; nr_run_wq := true |})
  = (2 * 100 * ((30000000 - 20000000) / 1000000) + 400 * 10)
    / (10 + (30000000 - 20000000) / 1000000)
  /\ total_time
       (rq_work_fn 30000000 2
          {| nr_run_avg := 400; update_rate := 10; last_time := 20000000;
             total_time := 10; work := true; nr_run_wq := true |})
     = 10 + (30000000 - 20000000) / 1000000
  /\ last_time
       (rq_work_fn 30000000 2
          {| nr_run_avg := 400; update_rate := 10; last_time := 20000000;
             total_time := 10; work := true; nr_run_wq := true |})
     = 30000000
  /\ Z.min (2 * 100) 400
     <= nr_run_avg
          (rq_work_fn 30000000 2
             {| nr_run_avg := 400; update_rate := 10; last_time := 20000000;
                total_time := 10; work := true; nr_run_wq := true |})
     <= Z.max (2 * 100) 400.
Proof.
  apply (X6_sampler_weighted_average 30000000 2
           {| nr_run_avg := 400; update_rate := 10; last_time := 20000000;
              total_time := 10; work := true; nr_run_wq := true |});
    cbn [nr_run_avg total_time last_time]; try lia.
  all: vm_compute; intuition congruence.
Defined.

(** ** Enabling *)

Lemma seed_cpuinfo_records (p : platform) (l : list hotplug_cpuinfo)
  (k : nat) :
  length l = NR_CPUS -> (k < NR_CPUS)%nat ->
  per_cpu (seed_cpuinfo p l) k
  = {| prev_cpu_wall := cur_wall_time p k;
       prev_cpu_idle := cur_idle_time p k;
       online := of_bool (cpu_online p k);
       up_cpu := 1;
       up_by_cpu := -1 |}.
Proof.
  intros Hl Hk.
  destruct l as [|a [|b [|c [|d [|e l]]]]]; try discriminate Hl.
  unfold NR_CPUS in Hk.
  destruct k as [|[|[|[|k]]]]; [| | | |lia]; reflexivity.
Qed.

Lemma length_seed_cpuinfo (p : platform) (l : list hotplug_cpuinfo) :
  length (seed_cpuinfo p l) = length l.
Proof.
  unfold seed_cpuinfo. generalize possible_cpus. intros cpus. revert l.
  induction cpus as [|c cpus IH]; intros l; [reflexivity|].
  cbn [fold_left]. rewrite IH. unfold seed_cpu. apply length_alter.
Qed.

(** X7.  Enabling a disabled controller leaves the platform alone, sets
    the flag, zeroes the tick counter, restarts the sampler from zero and
    schedules the first tick; every record is seeded from the platform
    (online as the hardware says, eligible, brought up by nobody, baselines
    at the current counters), so a tick on the same platform state sees no
    disagreement between records and hardware. *)
Theorem X7_enable_seeds_records (st : hotplug_state) (p : platform) :
  hotplug_enable (hotplug_tuners_ins st) = 0 ->
  length (od_hotplug_cpuinfo st) = NR_CPUS ->
  snd (enable (st, p)) = p
  /\ hotplug_enable (hotplug_tuners_ins (fst (enable (st, p)))) = 1
  /\ hotplugging_rate (fst (enable (st, p))) = 0
  /\ alucard_hotplug_work (fst (enable (st, p))) = true
  /\ rq_data (fst (enable (st, p))) = start_rq_work (rq_data st)
  /\ (forall k : nat,
        (k < NR_CPUS)%nat ->
        per_cpu (od_hotplug_cpuinfo (fst (enable (st, p)))) k
        = {| prev_cpu_wall := cur_wall_time p k;
             prev_cpu_idle := cur_idle_time p k;
             online := of_bool (cpu_online p k);
             up_cpu := 1;
             up_by_cpu := -1 |})
  /\ (forall k : nat,
        (k < NR_CPUS)%nat ->
        drifted p (od_hotplug_cpuinfo (fst (enable (st, p)))) k = false).
Proof.
  intros He Hl. unfold enable, store_hotplug_enable.
  change (of_bool (1 >? 0)) with 1. change (1 >? 0) with true.
  cbn [fst]. rewrite He. change (0 =? 1) with false. cbv iota.
  unfold cpus_hotplugging. cbn [fst snd set_hotplug_enable hotplug_tuners_ins
    hotplug_enable hotplugging_rate alucard_hotplug_work rq_data
    od_hotplug_cpuinfo].
  fold (seed_cpuinfo p (od_hotplug_cpuinfo st)).
  split_all; try reflexivity.
  - intros k Hk. apply seed_cpuinfo_records; assumption.
  - intros k Hk. unfold drifted.
    rewrite seed_cpuinfo_records by assumption.
    cbn [online]. rewrite Z.eqb_refl. reflexivity.
Qed.

Lemma X7_enable_witness :
  snd (enable (Samples.s_disabled, Samples.p_pending)) = Samples.p_pending
  /\ hotplug_enable
       (hotplug_tuners_ins
          (fst (enable (Samples.s_disabled, Samples.p_pending)))) = 1
  /\ hotplugging_rate (fst (enable (Samples.s_disabled, Samples.p_pending)))
     = 0
  /\ alucard_hotplug_work
       (fst (enable (Samples.s_disabled, Samples.p_pending))) = true
  /\ rq_data (fst (enable (Samples.s_disabled, Samples.p_pending)))
     = start_rq_work (rq_data Samples.s_disabled)
  /\ (forall k : nat,
        (k < NR_CPUS)%nat ->
        per_cpu
          (od_hotplug_cpuinfo
             (fst (enable (Samples.s_disabled, Samples.p_pending)))) k
        = {| prev_cpu_wall := cur_wall_time Samples.p_pending k;
             prev_cpu_idle := cur_idle_time Samples.p_pending k;
             online := of_bool (cpu_online Samples.p_pending k);
             up_cpu := 1;
             up_by_cpu := -1 |})
  /\ (forall k : nat,
        (k < NR_CPUS)%nat ->
        drifted Samples.p_pending
          (od_hotplug_cpuinfo
             (fst (enable (Samples.s_disabled, Samples.p_pending)))) k
        = false).
Proof.
  apply (X7_enable_seeds_records Samples.s_disabled Samples.p_pending);
    reflexivity.
Defined.

(** ** The executors *)

Lemma cpu_up_online (cpu c : nat) (p : platform) :
  (cpu < NR_CPUS)%nat ->
  cpu_online (cpu_up cpu p) c = (c =? cpu)%nat || cpu_online p c.
Proof.
  intros H. unfold cpu_up.
  destruct (Nat.ltb_spec cpu NR_CPUS) as [_|Hge]; [|lia].
  cbn. destruct (c =? cpu)%nat; reflexivity.
Qed.

Lemma cpu_online_scan (st : hotplug_state) (cpus : list nat) :
  Forall (fun c => (c < NR_CPUS)%nat) cpus ->
  forall (acc : platform * list nat) (c : nat),
    cpu_online (fst (fold_left (cpu_online_work_step st) cpus acc)) c
    = cpu_online (fst acc) c
      || (existsb (Nat.eqb c) cpus
          && (online (per_cpu (od_hotplug_cpuinfo st) c) =? 1)).
Proof.
  induction 1 as [|cpu cpus Hlt _ IH]; intros acc c.
  - cbn. rewrite orb_false_r. reflexivity.
  - cbn [fold_left existsb]. rewrite IH. unfold cpu_online_work_step.
    change (of_bool true) with 1.
    destruct (Nat.eqb_spec c cpu) as [->|Hne].
    + destruct (cpu_online (fst acc) cpu) eqn:Hon; cbn [negb andb orb fst].
      * rewrite Hon. reflexivity.
      * destruct (online (per_cpu (od_hotplug_cpuinfo st) cpu) =? 1) eqn:Hr;
          cbn [fst].
        -- rewrite cpu_up_online by exact Hlt. rewrite Nat.eqb_refl.
           reflexivity.
        -- rewrite Hon, !andb_false_r. reflexivity.
    + cbn [orb].
      destruct (negb (cpu_online (fst acc) cpu)
                && (online (per_cpu (od_hotplug_cpuinfo st) cpu) =? 1));
        cbn [fst]; [|reflexivity].
      rewrite cpu_up_online by exact Hlt.
      destruct (Nat.eqb_spec c cpu); [contradiction|]. reflexivity.
Qed.

Lemma cpu_online_scan_calls (st : hotplug_state) (cpus : list nat) :
  forall (acc : platform * list nat) (c : nat),
    In c (snd (fold_left (cpu_online_work_step st) cpus acc)) ->
    In c (snd acc)
    \/ (In c cpus /\ online (per_cpu (od_hotplug_cpuinfo st) c) = 1).
Proof.
  induction cpus as [|cpu cpus IH]; intros acc c Hin; [left; exact Hin|].
  cbn [fold_left] in Hin. apply IH in Hin. unfold cpu_online_work_step in Hin.
  change (of_bool true) with 1 in Hin.
  destruct (negb (cpu_online (fst acc) cpu)
            && (online (per_cpu (od_hotplug_cpuinfo st) cpu) =? 1)) eqn:Hc.
  - apply andb_prop in Hc as [_ Hrec]. apply Z.eqb_eq in Hrec.
    cbn [fst snd] in Hin. destruct Hin as [Hin|[Hi Hr]].
    + apply in_app_or in Hin as [Hin|[<-|[]]]; [left; exact Hin|].
      right. split; [left; reflexivity | exact Hrec].
    + right. split; [right; exact Hi | exact Hr].
  - destruct Hin as [Hin|[Hi Hr]]; [left; exact Hin|].
    right. split; [right; exact Hi | exact Hr].
Qed.

(** X8.  The online executor reconciles the hardware with the records in
    one direction only: after it ran, a possible core is online exactly if
    it was online before or its record says online; it calls [cpu_up] only
    on possible cores recorded online, and takes no core offline.  (The
    platform's [cpu_up] is taken to succeed.) *)
Theorem X8_online_executor_reconciles (st : hotplug_state) (p : platform)
  (c : nat) :
  cpu_online (fst (cpu_online_work_fn st p)) c
  = cpu_online p c
    || ((c <? NR_CPUS)%nat
        && (online (per_cpu (od_hotplug_cpuinfo st) c) =? 1))
  /\ (In c (snd (cpu_online_work_fn st p)) ->
      (c < NR_CPUS)%nat /\ online (per_cpu (od_hotplug_cpuinfo st) c) = 1)
  /\ (cpu_online p c = true ->
      cpu_online (fst (cpu_online_work_fn st p)) c = true).
Proof.
  assert (Hall : Forall (fun c => (c < NR_CPUS)%nat) possible_cpus).
  { unfold possible_cpus, NR_CPUS. repeat constructor. }
  assert (Hex : existsb (Nat.eqb c) possible_cpus = (c <? NR_CPUS)%nat).
  { unfold possible_cpus, NR_CPUS.
    destruct c as [|[|[|[|c]]]]; reflexivity. }
  unfold cpu_online_work_fn.
  rewrite (cpu_online_scan st possible_cpus Hall (p, []) c), Hex.
  cbn [fst]. split_all.
  - reflexivity.
  - intros Hin. apply cpu_online_scan_calls in Hin as [[]|[Hi Hr]].
    split; [|exact Hr].
    unfold possible_cpus in Hi. apply in_seq in Hi. lia.
  - intros ->. reflexivity.
Qed.

Lemma cpu_offline_scan_online (st : hotplug_state) (cpus : list nat) :
  forall (acc : platform * list nat) (c : nat),
    cpu_online (fst (fold_left (cpu_offline_work_step st) cpus acc)) c = true
    -> cpu_online (fst acc) c = true.
Proof.
  induction cpus as [|cpu cpus IH]; intros acc c Hon; [exact Hon|].
  cbn [fold_left] in Hon. apply IH in Hon.
  unfold cpu_offline_work_step in Hon.
  destruct (cpu_online (fst acc) cpu
            && (online (per_cpu (od_hotplug_cpuinfo st) cpu) =? of_bool false));
    [|exact Hon].
  cbn [fst] in Hon. apply (cpu_down_online cpu). exact Hon.
Qed.

(** X9.  The offline executor calls [cpu_down] only on cores that are
    online and recorded offline; it brings no core online and leaves every
    recorded online flag and back-reference as it found them (a transition
    that fails is therefore seen as a disagreement by the next tick). *)
Theorem X9_offline_executor_only_marked (st : hotplug_state) (p : platform)
  (c : nat) :
  (In c (snd (cpu_offline_work_fn st p)) ->
   online (per_cpu (od_hotplug_cpuinfo st) c) = 0 /\ cpu_online p c = true)
  /\ (cpu_online (snd (fst (cpu_offline_work_fn st p))) c = true ->
      cpu_online p c = true)
  /\ online (per_cpu (od_hotplug_cpuinfo (fst (fst (cpu_offline_work_fn st p))))
               c)
     = online (per_cpu (od_hotplug_cpuinfo st) c)
  /\ up_by_cpu
       (per_cpu (od_hotplug_cpuinfo (fst (fst (cpu_offline_work_fn st p)))) c)
     = up_by_cpu (per_cpu (od_hotplug_cpuinfo st) c).
Proof.
  split; [apply cpu_offline_work_fn_only_marked|].
  unfold cpu_offline_work_fn.
  destruct (fold_left (cpu_offline_work_step st) possible_cpus (p, []))
    as [p' calls] eqn:Hf.
  cbn [fst snd od_hotplug_cpuinfo]. split_all.
  - intros Hon.
    apply (cpu_offline_scan_online st possible_cpus (p, []) c).
    rewrite Hf. exact Hon.
  - destruct (num_online_cpus p' =? 1)%nat; [|reflexivity].
    apply (proj_per_cpu_alter online). reflexivity.
  - destruct (num_online_cpus p' =? 1)%nat; [|reflexivity].
    apply (proj_per_cpu_alter up_by_cpu). reflexivity.
Qed.

Lemma X9_offline_executor_witness :
  (In 2%nat
     (snd
        (cpu_offline_work_fn
           (fst (hotplug_work_fn Samples.p_over_cap Samples.s_over_cap))
           Samples.p_over_cap)) ->
   online
     (per_cpu
        (od_hotplug_cpuinfo
           (fst (hotplug_work_fn Samples.p_over_cap Samples.s_over_cap))) 2)
   = 0
   /\ cpu_online Samples.p_over_cap 2 = true)
  /\ In 2%nat
       (snd
          (cpu_offline_work_fn
             (fst (hotplug_work_fn Samples.p_over_cap Samples.s_over_cap))
             Samples.p_over_cap)).
Proof.
  split.
  - apply (X9_offline_executor_only_marked
             (fst (hotplug_work_fn Samples.p_over_cap Samples.s_over_cap))
             Samples.p_over_cap 2).
  - vm_compute. left. reflexivity.
Defined.

(** ** Decisions of a tick *)

(** X10.  In a tick that sees no disagreement between records and
    hardware, a recorded up-trigger is served exactly when some offline core
    has a higher index than the trigger core: then a core is marked online
    with the trigger as its brought_up_by, and otherwise the trigger is
    spent without any core being brought up. *)
Theorem X10_trigger_served_iff_offline_core_above (p : platform)
  (st : hotplug_state) (t : nat) :
  In (UpTrigger t) (snd (hotplug_work_fn p st)) ->
  (forall d : nat,
     (d < NR_CPUS)%nat -> drifted p (od_hotplug_cpuinfo st) d = false) ->
  (exists c : nat, (t < c < NR_CPUS)%nat /\ cpu_online p c = false)
  <-> (exists c : nat,
         In (MarkOnline c (Z.of_nat t)) (snd (hotplug_work_fn p st))).
Proof.
  intros Hin Hnd.
  pose proof (hotplug_work_fn_trace p st) as Htr.
  destruct (hotplug_enable (hotplug_tuners_ins st) >? 0);
    rewrite Htr in *; [|destruct Hin]. clear Htr.
  destruct (drift_progress_holds p st NR_CPUS) as (_ & Hother & _ & _).
  rewrite (existsb_seq_all_false _ _ Hnd) in Hother.
  destruct (up_progress_holds p st NR_CPUS)
    as [(_ & Ht & _)|[(_ & t0 & _ & _ & _ & Ht & Ho & Hbtw)
                     |(_ & t0 & c0 & Hlt & _ & Hoff & _ & Ht & Ho & _)]].
  - pose proof (in_filter_nil _ _ _ Ht Hin) as Hx. discriminate Hx.
  - pose proof (in_filter_singleton _ _ _ _ Ht Hin eq_refl) as Heq.
    injection Heq as ->. split.
    + intros (c & Hc & Hoff). rewrite (Hbtw Hother c Hc) in Hoff.
      discriminate Hoff.
    + intros (c & Hc). pose proof (in_filter_nil _ _ _ Ho Hc) as Hx.
      discriminate Hx.
  - pose proof (in_filter_singleton _ _ _ _ Ht Hin eq_refl) as Heq.
    injection Heq as ->. split.
    + intros _. exists c0. apply (filter_singleton_in _ _ _ Ho).
    + intros _. exists c0. split; [lia | exact Hoff].
Qed.

Lemma X10_trigger_served_witness :
  (exists c : nat, (2 < c < NR_CPUS)%nat /\ cpu_online Samples.p_gap c = false)
  <-> (exists c : nat,
         In (MarkOnline c (Z.of_nat 2))
           (snd (hotplug_work_fn Samples.p_gap Samples.s_gap))).
Proof.
  apply (X10_trigger_served_iff_offline_core_above Samples.p_gap
           Samples.s_gap 2).
  - vm_compute. left. reflexivity.
  - intros d Hd. unfold NR_CPUS in Hd.
    destruct d as [|[|[|[|d]]]]; [| | | |lia]; reflexivity.
Defined.

(** ** What a decision of a tick rests on *)

Lemma cur_load_freq_defined (p : platform) (st : hotplug_state)
  (wall_time idle_time online_now : Z) (cpu : nat) (cl cf : Z) :
  cur_load_freq p st wall_time idle_time online_now cpu = (cl, cf) ->
  cl <> -1 ->
  cf = to_u32 (freq_source p st cpu).
Proof.
  unfold cur_load_freq, freq_source.
  destruct ((wall_time >=? idle_time) && truthy online_now);
    intros H Hne; injection H as <- <-; [reflexivity | contradiction].
Qed.

Lemma tick_cpu_event_origin (p : platform) (st : hotplug_state)
  (cu cd : bool) (rq : Z) (f : tick_frame) (cpu : nat) (e : event) :
  In e (f_trace (tick_cpu p st cu cd rq f cpu)) ->
  In e (f_trace f)
  \/ (e = UpTrigger cpu /\ cu = true /\ cpu_online p cpu = true
      /\ Z.of_nat cpu < to_u32 (maxcoreslimit (hotplug_tuners_ins st) - 1)
      /\ rq > up_rq (read_thresholds st cpu))
  \/ (e = MarkOffline cpu /\ cd = true
      /\ to_u32 (freq_source p st cpu) <= down_freq (read_thresholds st cpu)
      /\ rq <= down_rq (read_thresholds st cpu))
  \/ (exists by_cpu : Z, e = MarkOnline cpu by_cpu).
Proof.
  unfold tick_cpu, tick_cpu_with.
  set (f1 := with_cpuinfo _ f).
  destruct (detect_drift_facts p cpu f1) as (Dt & _).
  change (f_trace f1) with (f_trace f) in Dt.
  set (f2 := detect_drift p cpu f1) in *.
  destruct (f_other_hotplugging f2).
  { rewrite Dt. intros H. left. exact H. }
  destruct (cur_load_freq p st _ _ _ cpu) as [cl cf] eqn:Hclf.
  unfold mark_up.
  match goal with |- context [if ?c then _ else _] => destruct c end;
    cbn [f_trace]; intros Hin.
  1: apply in_app_or in Hin as [Hin|[<-|[]]];
       [|right; right; right; eexists; reflexivity].
  all: unfold eval_down in Hin; revert Hin;
    match goal with |- context [if ?c then _ else _] => destruct c eqn:Hd end;
    cbn [f_trace]; intros Hin.
  all: try (apply in_app_or in Hin as [Hin|[<-|[]]];
            [|right; right; left;
              apply andb_prop in Hd as [Hd Hq];
              apply andb_prop in Hd as [Hd Hcl];
              apply andb_prop in Hd as [Hd _];
              apply andb_prop in Hd as [Hd _];
              apply andb_prop in Hd as [Hcd _];
              rewrite down_qualifies_of_flag in Hq;
              apply andb_prop in Hq as [Hq1 Hq2];
              rewrite <- (cur_load_freq_defined _ _ _ _ _ _ _ _ Hclf) by lia;
              split_all; [reflexivity | exact Hcd | lia | lia]]).
  all: unfold eval_up in Hin; revert Hin;
    match goal with |- context [if ?c then _ else _] => destruct c eqn:Hu end;
    cbn [f_trace]; rewrite Dt; intros Hin.
  all: try (apply in_app_or in Hin as [Hin|[<-|[]]];
            [|right; left;
              apply andb_prop in Hu as [Hu Hq];
              apply andb_prop in Hu as [Hu Hon];
              apply andb_prop in Hu as [Hu _];
              apply andb_prop in Hu as [Hu _];
              apply andb_prop in Hu as [Hcu Hlt];
              rewrite of_bool_truthy in Hon;
              unfold up_qualifies in Hq;
              apply andb_prop in Hq as [_ Hq];
              split_all; [reflexivity | exact Hcu | exact Hon | lia | lia]]).
  all: left; exact Hin.
Qed.

Lemma frame_after_event_origin (p : platform) (st : hotplug_state) (n : nat)
  (e : event) :
  In e (f_trace (frame_after p st n)) ->
  (exists t : nat,
      e = UpTrigger t /\ tick_check_up st = true /\ cpu_online p t = true
      /\ Z.of_nat t < to_u32 (maxcoreslimit (hotplug_tuners_ins st) - 1)
      /\ nr_run_avg (rq_data st) > up_rq (read_thresholds st t))
  \/ (exists c : nat,
         e = MarkOffline c /\ tick_check_down st = true
         /\ to_u32 (freq_source p st c) <= down_freq (read_thresholds st c)
         /\ nr_run_avg (rq_data st) <= down_rq (read_thresholds st c))
  \/ (exists (c : nat) (by_cpu : Z), e = MarkOnline c by_cpu).
Proof.
  induction n as [|n IH].
  - intros [].
  - rewrite frame_after_S. intros Hin.
    apply tick_cpu_event_origin in Hin as [Hin|[H|[H|[b H]]]].
    + apply IH. exact Hin.
    + left. exists n. exact H.
    + right. left. exists n. exact H.
    + right. right. exists n, b. exact H.
Qed.

(** X11.  Every decision of a tick rests on its rate gate and on the
    thresholds of the core's own row: an up-trigger is recorded only on a
    tick whose up gate is open, for an online core below the cap, with the
    run-queue average above the row's UP threshold; a core is marked
    offline only on a tick whose down gate is open, with its frequency at
    or below and the run-queue average at or below the row's DOWN
    thresholds; a core is marked online only on a tick whose up gate is
    open. *)
Theorem X11_decisions_rest_on_gates_and_thresholds (p : platform)
  (st : hotplug_state) :
  (forall t : nat,
     In (UpTrigger t) (snd (hotplug_work_fn p st)) ->
     tick_check_up st = true /\ cpu_online p t = true
     /\ Z.of_nat t < to_u32 (maxcoreslimit (hotplug_tuners_ins st) - 1)
     /\ nr_run_avg (rq_data st) > up_rq (read_thresholds st t))
  /\ (forall c : nat,
        In (MarkOffline c) (snd (hotplug_work_fn p st)) ->
        tick_check_down st = true
        /\ to_u32 (freq_source p st c) <= down_freq (read_thresholds st c)
        /\ nr_run_avg (rq_data st) <= down_rq (read_thresholds st c))
  /\ (forall (c : nat) (by_cpu : Z),
        In (MarkOnline c by_cpu) (snd (hotplug_work_fn p st)) ->
        tick_check_up st = true).
Proof.
  assert (Hup : forall t : nat,
            In (UpTrigger t) (f_trace (frame_after p st NR_CPUS)) ->
            tick_check_up st = true /\ cpu_online p t = true
            /\ Z.of_nat t
               < to_u32 (maxcoreslimit (hotplug_tuners_ins st) - 1)
            /\ nr_run_avg (rq_data st) > up_rq (read_thresholds st t)).
  { intros t Hin.
    apply frame_after_event_origin in Hin
      as [(t' & He & H)|[(c & He & _)|(c & b & He)]];
      try discriminate He.
    injection He as <-. exact H. }
  split_all.
  - intros t Hin. apply Hup. apply hotplug_work_fn_trace_in. exact Hin.
  - intros c Hin. apply hotplug_work_fn_trace_in in Hin.
    apply frame_after_event_origin in Hin
      as [(t' & He & _)|[(c' & He & H)|(c' & b & He)]];
      try discriminate He.
    injection He as <-. exact H.
  - intros c b Hin. apply hotplug_work_fn_trace_in in Hin.
    destruct (up_progress_holds p st NR_CPUS)
      as [(_ & _ & Ho)|[(_ & t & _ & _ & _ & _ & Ho & _)
                       |(_ & t & c0 & _ & _ & _ & _ & Ht & _)]].
    + pose proof (in_filter_nil _ _ _ Ho Hin) as Hx. discriminate Hx.
    + pose proof (in_filter_nil _ _ _ Ho Hin) as Hx. discriminate Hx.
    + apply (Hup t). apply (filter_singleton_in _ _ _ Ht).
Qed.

(** X12.  A tick of the enabled controller that sees no disagreement
    between records and hardware changes the recorded online flag of no
    core other than the ones it marks offline or online. *)
Theorem X12_unmarked_cores_keep_their_flag (p : platform)
  (st : hotplug_state) (k : nat) :
  hotplug_enable (hotplug_tuners_ins st) > 0 ->
  (forall d : nat,
     (d < NR_CPUS)%nat -> drifted p (od_hotplug_cpuinfo st) d = false) ->
  ~ In (MarkOffline k) (snd (hotplug_work_fn p st)) ->
  (forall by_cpu : Z, ~ In (MarkOnline k by_cpu) (snd (hotplug_work_fn p st)))
  ->
  online (per_cpu (od_hotplug_cpuinfo (fst (hotplug_work_fn p st))) k)
  = online (per_cpu (od_hotplug_cpuinfo st) k).
Proof.
  intros He Hnd Hoff Hon.
  pose proof (hotplug_work_fn_trace p st) as Htr.
  destruct (Z.gtb_spec (hotplug_enable (hotplug_tuners_ins st)) 0); [|lia].
  rewrite Htr in Hoff, Hon. clear Htr.
  destruct (drift_progress_holds p st NR_CPUS) as (_ & Hother & _ & Hrec).
  rewrite (existsb_seq_all_false _ _ Hnd) in Hother.
  rewrite hotplug_work_fn_records by exact He. cbv zeta. rewrite Hother.
  assert (Hk : online (per_cpu (f_cpuinfo (frame_after p st NR_CPUS)) k)
               = online (per_cpu (od_hotplug_cpuinfo st) k)).
  { apply Hrec. intros e Hin Hnt Hc.
    destruct e as [c|c|c b]; cbn in Hc; subst c.
    - discriminate Hnt.
    - apply Hoff. exact Hin.
    - apply (Hon b). exact Hin. }
  destruct (num_online_cpus p =? 1)%nat; [|exact Hk].
  rewrite (proj_per_cpu_alter online) by reflexivity. exact Hk.
Qed.

Lemma X12_unmarked_cores_witness :
  online
    (per_cpu
       (od_hotplug_cpuinfo (fst (hotplug_work_fn Samples.p_gap Samples.s_gap)))
       1)
  = online (per_cpu (od_hotplug_cpuinfo Samples.s_gap) 1).
Proof.
  apply (X12_unmarked_cores_keep_their_flag Samples.p_gap Samples.s_gap 1).
  - simpl. lia.
  - intros d Hd. unfold NR_CPUS in Hd.
    destruct d as [|[|[|[|d]]]]; [| | | |lia]; reflexivity.
  - vm_compute. intros [H|[H|[]]]; discriminate H.
  - intros b. vm_compute. intros [H|[H|[]]]; discriminate H.
Defined.

(** ** The threshold tables *)

Lemma to_s32_to_u32 (z : Z) : to_s32 (to_u32 z) = to_s32 z.
Proof. unfold to_s32, to_u32. rewrite Zplus_mod_idemp_l. reflexivity. Qed.

Lemma to_s32_small (z : Z) : - 2 ^ 31 <= z < 2 ^ 31 -> to_s32 z = z.
Proof. intros H. unfold to_s32. rewrite Z.mod_small; lia. Qed.

Lemma to_s32_range (z : Z) : - 2 ^ 31 <= to_s32 z < 2 ^ 31.
Proof.
  unfold to_s32. pose proof (Z.mod_pos_bound (z + 2 ^ 31) (2 ^ 32)). lia.
Qed.

Lemma atomic_read2_set2_eq (t : table) (i j : nat) (v : Z) :
  table_shape t -> (i < NR_CPUS)%nat -> (j < 2)%nat ->
  atomic_read2 (atomic_set2 t i j v) i j = v.
Proof.
  intros [Hl Hrows] Hi Hj. unfold atomic_read2, atomic_set2, table in *.
  rewrite list_lookup_alter_eq.
  destruct (lookup_lt_is_Some_2 t i) as [row Hrow]; [lia|].
  rewrite Hrow. cbn.
  rewrite list_lookup_insert_eq; [reflexivity|].
  rewrite Forall_forall in Hrows.
  rewrite (Hrows row); [exact Hj|].
  apply (list_elem_of_lookup_2 _ _ _ Hrow).
Qed.

Lemma atomic_read2_set2_ne (t : table) (i j i' j' : nat) (v : Z) :
  i <> i' \/ j <> j' ->
  atomic_read2 (atomic_set2 t i j v) i' j' = atomic_read2 t i' j'.
Proof.
  intros Hne. unfold atomic_read2, atomic_set2, table in *.
  destruct (decide (i = i')) as [->|Hi].
  - rewrite list_lookup_alter_eq.
    destruct (t !! i') as [row|]; [|reflexivity]. cbn.
    rewrite list_lookup_insert_ne; [reflexivity|]. destruct Hne; congruence.
  - rewrite list_lookup_alter_ne by exact Hi. reflexivity.
Qed.

Lemma table_shape_set2 (t : table) (i j : nat) (v : Z) :
  table_shape t -> table_shape (atomic_set2 t i j v).
Proof.
  intros [Hl Hrows]. unfold table_shape, atomic_set2, table in *. split.
  - rewrite length_alter. exact Hl.
  - rewrite Forall_forall in *. intros row Hin.
    apply list_elem_of_lookup in Hin as [k Hk].
    destruct (decide (i = k)) as [->|Hne].
    + rewrite list_lookup_alter_eq in Hk.
      destruct (t !! k) as [row0|] eqn:Hr; [|discriminate Hk].
      injection Hk as <-. rewrite length_insert. apply Hrows.
      apply (list_elem_of_lookup_2 _ _ _ Hr).
    + rewrite list_lookup_alter_ne in Hk by exact Hne.
      apply Hrows. apply (list_elem_of_lookup_2 _ _ _ Hk).
Qed.

Lemma table_of_with_table (tb tb' : tunable_table) (t : table)
  (st : hotplug_state) :
  table_of tb' (with_table tb t st)
  = if decide (tb = tb') then t else table_of tb' st.
Proof. destruct tb, tb'; reflexivity. Qed.

Lemma hotplug_param_attr_range (n u : nat) :
  In (n, u) hotplug_param_attrs ->
  (1 <= n <= NR_CPUS)%nat /\ (u < 2)%nat.
Proof.
  unfold hotplug_param_attrs, NR_CPUS. cbn.
  intros [H|[H|[H|[H|[H|[H|[]]]]]]]; injection H as <- <-; lia.
Qed.

(** X13.  Writing a number to one of the threshold attributes and reading
    the attribute back gives the number (as the [int] it is stored as);
    the write changes no other threshold attribute and no tunable.  (The
    table cell must hold an [int], as every cell written through an
    attribute or left at its initial value does.) *)
Theorem X13_threshold_store_then_show (tb : tunable_table) (n u : nat)
  (v count : Z) (st : hotplug_state) :
  table_shape (table_of tb st) ->
  In (n, u) hotplug_param_attrs ->
  - 2 ^ 31 <= show_hotplug_param tb n u st < 2 ^ 31 ->
  show_hotplug_param tb n u
    (fst (store_hotplug_param tb n u (Some v) count st))
  = to_s32 v
  /\ (forall (tb' : tunable_table) (n' u' : nat),
        In (n', u') hotplug_param_attrs ->
        tb' <> tb \/ n' <> n \/ u' <> u ->
        show_hotplug_param tb' n' u'
          (fst (store_hotplug_param tb n u (Some v) count st))
        = show_hotplug_param tb' n' u' st)
  /\ hotplug_tuners_ins (fst (store_hotplug_param tb n u (Some v) count st))
     = hotplug_tuners_ins st
  /\ snd (store_hotplug_param tb n u (Some v) count st) = count.
Proof.
  intros Hshape Hattr Hcur.
  destruct (hotplug_param_attr_range n u Hattr) as [Hn Hu].
  unfold store_hotplug_param, show_hotplug_param in *.
  destruct (Z.eqb_spec (to_u32 v)
              (to_u32 (atomic_read2 (table_of tb st) (n - 1) u)))
    as [He|He]; cbn [fst snd].
  - split_all; try reflexivity.
    rewrite <- (to_s32_to_u32 v), He, to_s32_to_u32.
    symmetry. apply to_s32_small. exact Hcur.
  - split_all; try reflexivity.
    + rewrite table_of_with_table.
      destruct (decide (tb = tb)); [|contradiction].
      apply atomic_read2_set2_eq; [exact Hshape | lia | exact Hu].
    + intros tb' n' u' Hattr' Hne.
      destruct (hotplug_param_attr_range n' u' Hattr') as [Hn' _].
      rewrite table_of_with_table.
      destruct (decide (tb = tb')) as [<-|Ht]; [|reflexivity].
      apply atomic_read2_set2_ne.
      destruct Hne as [Hx|[Hx|Hx]]; [contradiction | left; lia | right; lia].
Qed.

Lemma X13_threshold_store_witness :
  show_hotplug_param Hotplug_rq 3 1
    (fst (store_hotplug_param Hotplug_rq 3 1 (Some 350) 4 boot_state))
  = to_s32 350
  /\ (forall (tb' : tunable_table) (n' u' : nat),
        In (n', u') hotplug_param_attrs ->
        tb' <> Hotplug_rq \/ n' <> 3%nat \/ u' <> 1%nat ->
        show_hotplug_param tb' n' u'
          (fst (store_hotplug_param Hotplug_rq 3 1 (Some 350) 4 boot_state))
        = show_hotplug_param tb' n' u' boot_state)
  /\ hotplug_tuners_ins
       (fst (store_hotplug_param Hotplug_rq 3 1 (Some 350) 4 boot_state))
     = hotplug_tuners_ins boot_state
  /\ snd (store_hotplug_param Hotplug_rq 3 1 (Some 350) 4 boot_state) = 4.
Proof.
  apply (X13_threshold_store_then_show Hotplug_rq 3 1 350 4 boot_state).
  - split; [reflexivity|]. repeat constructor.
  - cbn. tauto.
  - vm_compute. split; congruence.
Defined.

(** ** Module initialisation *)

(** X14.  A module initialisation that fails (the attribute group cannot
    be created, or the sampler cannot be allocated) returns the error and
    schedules nothing.  One that succeeds with the enable flag clear, as
    the module is built, schedules the first tick but not the sampler; that
    tick changes nothing and is not rescheduled, so the controller stays
    inert until it is enabled. *)
Theorem X14_init_is_inert_until_enabled (p : platform) (st : hotplug_state) :
  hotplug_enable (hotplug_tuners_ins st) <= 0 ->
  (forall (ret : Z) (alloc_ok : bool),
     ret <> 0 -> alucard_hotplug_init ret alloc_ok p st = (st, ret))
  /\ alucard_hotplug_init 0 false p st = (st, - ENOMEM)
  /\ snd (alucard_hotplug_init 0 true p st) = 0
  /\ alucard_hotplug_work (fst (alucard_hotplug_init 0 true p st)) = true
  /\ work (rq_data (fst (alucard_hotplug_init 0 true p st))) = false
  /\ (forall p' : platform,
        run_hotplug_work p' (fst (alucard_hotplug_init 0 true p st))
        = (clear_hotplug_work (fst (alucard_hotplug_init 0 true p st)), [])
        /\ alucard_hotplug_work
             (fst (run_hotplug_work p'
                     (fst (alucard_hotplug_init 0 true p st)))) = false).
Proof.
  intros He. split_all.
  - intros ret ok Hret. unfold alucard_hotplug_init.
    destruct (Z.eqb_spec ret 0); [contradiction | reflexivity].
  - reflexivity.
  - reflexivity.
  - reflexivity.
  - unfold alucard_hotplug_init. cbn.
    destruct (Z.gtb_spec (hotplug_enable (hotplug_tuners_ins st)) 0);
      [lia | reflexivity].
  - intros p'. unfold run_hotplug_work.
    change (alucard_hotplug_work (fst (alucard_hotplug_init 0 true p st)))
      with true. cbv iota.
    rewrite hotplug_work_fn_disabled; [split; reflexivity|].
    cbn. exact He.
Qed.

Lemma X14_init_witness :
  (forall (ret : Z) (alloc_ok : bool),
     ret <> 0 ->
     alucard_hotplug_init ret alloc_ok Samples.p_pending boot_state
     = (boot_state, ret))
  /\ alucard_hotplug_init 0 false Samples.p_pending boot_state
     = (boot_state, - ENOMEM)
  /\ snd (alucard_hotplug_init 0 true Samples.p_pending boot_state) = 0
  /\ alucard_hotplug_work
       (fst (alucard_hotplug_init 0 true Samples.p_pending boot_state))
     = true
  /\ work
       (rq_data
          (fst (alucard_hotplug_init 0 true Samples.p_pending boot_state)))
     = false
  /\ (forall p' : platform,
        run_hotplug_work p'
          (fst (alucard_hotplug_init 0 true Samples.p_pending boot_state))
        = (clear_hotplug_work
             (fst (alucard_hotplug_init 0 true Samples.p_pending boot_state)),
           [])
        /\ alucard_hotplug_work
             (fst
                (run_hotplug_work p'
                   (fst
                      (alucard_hotplug_init 0 true Samples.p_pending
                         boot_state)))) = false).
Proof.
  apply (X14_init_is_inert_until_enabled Samples.p_pending boot_state).
  simpl. lia.
Defined.

(** ** Disabling takes the secondary cores down *)

Lemma num_online_cpus_two (p : platform) (c : nat) :
  cpu_online p 0 = true -> cpu_online p c = true ->
  c <> 0%nat -> (c < NR_CPUS)%nat ->
  (num_online_cpus p =? 1)%nat = false.
Proof.
  intros H0 Hc Hne Hlt. unfold NR_CPUS in Hlt.
  apply Nat.eqb_neq.
  unfold num_online_cpus, online_cpus, possible_cpus, NR_CPUS.
  cbn [seq]. rewrite !filter_cons, filter_nil.
  destruct c as [|[|[|[|c]]]]; try lia;
    repeat case_decide; cbn [length]; congruence || lia.
Qed.

Lemma offline_secondary_cpu_all (cpus : list nat) :
  forall p : platform,
    cpu_online p 0 = true ->
    forall c : nat,
      In c cpus -> c <> 0%nat -> (c < NR_CPUS)%nat ->
      cpu_online (fold_left offline_secondary_cpu cpus p) c = false.
Proof.
  induction cpus as [|cpu cpus IH]; intros p H0 c Hin Hne Hlt;
    [destruct Hin|].
  cbn [fold_left].
  assert (H0' : cpu_online (offline_secondary_cpu p cpu) 0 = true).
  { destruct (offline_secondary_cpu_facts [cpu] p) as [Hx _].
    cbn [fold_left] in Hx. rewrite Hx. exact H0. }
  destruct Hin as [->|Hin]; [|apply IH; assumption].
  destruct (cpu_online (fold_left offline_secondary_cpu cpus
                          (offline_secondary_cpu p c)) c) eqn:Hr;
    [|reflexivity].
  destruct (offline_secondary_cpu_facts cpus (offline_secondary_cpu p c))
    as [_ Hmono].
  apply Hmono in Hr. unfold offline_secondary_cpu in Hr.
  destruct (cpu_online p c) eqn:Hon; [|congruence].
  destruct (Nat.eqb_spec c 0) as [|_]; [contradiction|].
  unfold cpu_down in Hr.
  rewrite (num_online_cpus_two p c H0 Hon Hne Hlt) in Hr.
  cbn in Hr. rewrite Nat.eqb_refl in Hr. discriminate Hr.
Qed.

(** X15.  Disabling a running controller on a system whose core 0 is
    online leaves core 0 as the only possible core online.  (The platform's
    [cpu_down] is taken to fail only for the last online core.) *)
Theorem X15_disable_leaves_only_core_0 (st : hotplug_state) (p : platform) :
  hotplug_enable (hotplug_tuners_ins st) <> 0 ->
  cpu_online p 0 = true ->
  cpu_online (snd (disable (st, p))) 0 = true
  /\ (forall c : nat,
        c <> 0%nat -> (c < NR_CPUS)%nat ->
        cpu_online (snd (disable (st, p))) c = false)
  /\ num_online_cpus (snd (disable (st, p))) = 1%nat.
Proof.
  intros He H0. unfold disable, store_hotplug_enable.
  change (of_bool (0 >? 0)) with 0. change (0 >? 0) with false.
  destruct (Z.eqb_spec (hotplug_enable (hotplug_tuners_ins (fst (st, p)))) 0)
    as [Heq|_]; [contradiction|].
  unfold cpus_hotplugging. cbn [fst snd].
  destruct (offline_secondary_cpu_facts possible_cpus p) as [Hz _].
  assert (Hall : forall c : nat,
            c <> 0%nat -> (c < NR_CPUS)%nat ->
            cpu_online (fold_left offline_secondary_cpu possible_cpus p) c
            = false).
  { intros c Hne Hlt. apply offline_secondary_cpu_all; try assumption.
    unfold possible_cpus. apply in_seq. lia. }
  set (p' := fold_left offline_secondary_cpu possible_cpus p) in *.
  rewrite H0 in Hz.
  split_all.
  - exact Hz.
  - exact Hall.
  - unfold num_online_cpus, online_cpus, possible_cpus, NR_CPUS.
    cbn [seq]. rewrite !filter_cons, filter_nil.
    rewrite Hz, !Hall by (unfold NR_CPUS; lia).
    repeat case_decide; try congruence. reflexivity.
Qed.

Lemma X15_disable_witness :
  cpu_online (snd (disable (Samples.s_over_cap, Samples.p_over_cap))) 0 = true
  /\ (forall c : nat,
        c <> 0%nat -> (c < NR_CPUS)%nat ->
        cpu_online (snd (disable (Samples.s_over_cap, Samples.p_over_cap))) c
        = false)
  /\ num_online_cpus (snd (disable (Samples.s_over_cap, Samples.p_over_cap)))
     = 1%nat.
Proof.
  apply (X15_disable_leaves_only_core_0 Samples.s_over_cap
           Samples.p_over_cap).
  - simpl. lia.
  - reflexivity.
Defined.

(** ** Disabling a running controller *)

Lemma num_online_cpus_one (p : platform) (c k : nat) :
  num_online_cpus p = 1%nat ->
  cpu_online p c = true -> cpu_online p k = true ->
  (c < NR_CPUS)%nat -> (k < NR_CPUS)%nat ->
  c = k.
Proof.
  unfold NR_CPUS. intros H1 Hc Hk Hlc Hlk. revert H1.
  unfold num_online_cpus, online_cpus, possible_cpus, NR_CPUS.
  cbn [seq]. rewrite !filter_cons, filter_nil.
  destruct c as [|[|[|[|c]]]]; try lia;
    destruct k as [|[|[|[|k]]]]; try lia; try reflexivity;
    repeat case_decide; cbn [length]; congruence || lia.
Qed.

(** After the loop of [cpus_hotplugging(false)] has passed the cores
    [done], one of them other than core 0 that is still online is the only
    core online: [cpu_down] was refused for it. *)
Lemma offline_secondary_cpu_last (cpus : list nat) :
  forall (p : platform) (done : list nat),
    (forall k : nat, In k cpus -> (k < NR_CPUS)%nat) ->
    (forall c : nat,
       In c done -> c <> 0%nat -> cpu_online p c = true ->
       num_online_cpus p = 1%nat) ->
    forall c : nat,
      In c (done ++ cpus) -> c <> 0%nat -> (c < NR_CPUS)%nat ->
      cpu_online (fold_left offline_secondary_cpu cpus p) c = true ->
      num_online_cpus (fold_left offline_secondary_cpu cpus p) = 1%nat.
Proof.
  induction cpus as [|cpu cpus IH]; intros p done Hposs Hinv c Hin Hne Hlt Hon.
  - rewrite app_nil_r in Hin. cbn [fold_left] in *.
    apply (Hinv c); assumption.
  - cbn [fold_left] in *.
    apply (IH (offline_secondary_cpu p cpu) (done ++ [cpu])) with (c := c);
      try assumption.
    + intros k Hk. apply Hposs. right. exact Hk.
    + clear c Hin Hne Hlt Hon. intros c Hin Hne Hon.
      unfold offline_secondary_cpu in *.
      destruct (cpu_online p cpu) eqn:Ecpu.
      * destruct (Nat.eqb_spec cpu 0) as [->|Hcpu].
        { apply in_app_or in Hin as [Hin|[<-|[]]]; [|contradiction].
          apply (Hinv c); assumption. }
        unfold cpu_down in *.
        destruct (num_online_cpus p =? 1)%nat eqn:E1.
        { apply Nat.eqb_eq in E1. exact E1. }
        exfalso. cbn [cpu_online with_cpu_online] in Hon.
        destruct (Nat.eqb_spec c cpu) as [->|Hc]; [discriminate Hon|].
        apply in_app_or in Hin as [Hin|[<-|[]]]; [|contradiction].
        apply Nat.eqb_neq in E1. apply E1. apply (Hinv c); assumption.
      * apply in_app_or in Hin as [Hin|[<-|[]]]; [|congruence].
        apply (Hinv c); assumption.
    + rewrite <- app_assoc. exact Hin.
Qed.

(** C8, as the code has it.  Disabling a running controller clears the
    enable flag, cancels the run-queue sampler's work and calls [cpu_down]
    on the online cores other than core 0: afterwards such a core is
    online only if the platform refused to take it down as the last online
    core, so with core 0 online every other core is offline.  It brings no
    core online and leaves core 0, the per-core records and the tick
    counter alone.  It does not cancel the tick or the executors: their
    work items are pending after [disable] exactly if they were before.  A
    tick that fires afterwards finds the flag clear, changes nothing and is
    not rescheduled: run from the work queue, it leaves its work item not
    pending. *)
Theorem C8_disable_leaves_work_pending (st : hotplug_state) (p : platform) :
  hotplug_enable (hotplug_tuners_ins st) <> 0 ->
  hotplug_enable (hotplug_tuners_ins (fst (disable (st, p)))) = 0
  /\ alucard_hotplug_work (fst (disable (st, p))) = alucard_hotplug_work st
  /\ alucard_hotplug_offline_work (fst (disable (st, p)))
     = alucard_hotplug_offline_work st
  /\ alucard_hotplug_online_work (fst (disable (st, p)))
     = alucard_hotplug_online_work st
  /\ od_hotplug_cpuinfo (fst (disable (st, p))) = od_hotplug_cpuinfo st
  /\ hotplugging_rate (fst (disable (st, p))) = hotplugging_rate st
  /\ (nr_run_wq (rq_data st) = true ->
      work (rq_data (fst (disable (st, p)))) = false)
  /\ cpu_online (snd (disable (st, p))) 0 = cpu_online p 0
  /\ (forall c : nat,
        cpu_online (snd (disable (st, p))) c = true -> cpu_online p c = true)
  /\ (forall c : nat,
        c <> 0%nat -> (c < NR_CPUS)%nat ->
        cpu_online (snd (disable (st, p))) c = true ->
        num_online_cpus (snd (disable (st, p))) = 1%nat)
  /\ (cpu_online p 0 = true ->
      forall c : nat,
        c <> 0%nat -> (c < NR_CPUS)%nat ->
        cpu_online (snd (disable (st, p))) c = false)
  /\ (forall p' : platform,
        hotplug_work_fn p' (fst (disable (st, p)))
        = (fst (disable (st, p)), []))
  /\ (forall p' : platform,
        run_hotplug_work p' (fst (disable (st, p)))
        = (if alucard_hotplug_work st
           then clear_hotplug_work (fst (disable (st, p)))
           else fst (disable (st, p)), [])).
Proof.
  intros He. unfold disable, store_hotplug_enable.
  change (of_bool (0 >? 0)) with 0. change (0 >? 0) with false.
  destruct (Z.eqb_spec (hotplug_enable (hotplug_tuners_ins (fst (st, p)))) 0)
    as [Heq|_]; [contradiction|].
  unfold cpus_hotplugging. cbn [fst snd].
  destruct (offline_secondary_cpu_facts possible_cpus p) as [H0 Hc].
  split_all; try reflexivity; try assumption.
  - intros Hwq. cbn. unfold stop_rq_work. rewrite Hwq. reflexivity.
  - intros c Hne Hlt Hon.
    apply (offline_secondary_cpu_last possible_cpus p []) with (c := c);
      try assumption.
    + intros k Hk. unfold possible_cpus in Hk. apply in_seq in Hk. lia.
    + intros k [].
    + cbn [app]. unfold possible_cpus. apply in_seq. lia.
  - intros Hz c Hne Hlt. apply offline_secondary_cpu_all; try assumption.
    unfold possible_cpus. apply in_seq. lia.
  - intros p'. unfold run_hotplug_work.
    cbn [alucard_hotplug_work set_hotplug_enable].
    destruct (alucard_hotplug_work st); reflexivity.
Qed.

Lemma C8_disable_witness :
  let st := with_pending true false true Samples.s_over_cap in
  let p := Samples.p_over_cap in
  hotplug_enable (hotplug_tuners_ins (fst (disable (st, p)))) = 0
  /\ alucard_hotplug_work (fst (disable (st, p))) = true
  /\ alucard_hotplug_offline_work (fst (disable (st, p))) = false
  /\ alucard_hotplug_online_work (fst (disable (st, p))) = true
  /\ od_hotplug_cpuinfo (fst (disable (st, p))) = od_hotplug_cpuinfo st
  /\ hotplugging_rate (fst (disable (st, p))) = hotplugging_rate st
  /\ (nr_run_wq (rq_data st) = true ->
      work (rq_data (fst (disable (st, p)))) = false)
  /\ cpu_online (snd (disable (st, p))) 0 = true
  /\ (forall c : nat,
        cpu_online (snd (disable (st, p))) c = true -> cpu_online p c = true)
  /\ (forall c : nat,
        c <> 0%nat -> (c < NR_CPUS)%nat ->
        cpu_online (snd (disable (st, p))) c = true ->
        num_online_cpus (snd (disable (st, p))) = 1%nat)
  /\ (cpu_online p 0 = true ->
      forall c : nat,
        c <> 0%nat -> (c < NR_CPUS)%nat ->
        cpu_online (snd (disable (st, p))) c = false)
  /\ (forall p' : platform,
        hotplug_work_fn p' (fst (disable (st, p)))
        = (fst (disable (st, p)), []))
  /\ (forall p' : platform,
        run_hotplug_work p' (fst (disable (st, p)))
        = (clear_hotplug_work (fst (disable (st, p))), [])).
Proof.
  apply (C8_disable_leaves_work_pending
           (with_pending true false true Samples.s_over_cap)
           Samples.p_over_cap).
  simpl. lia.
Defined.

(** Disabling on a sample with core 0 offline and cores 1 and 2 online:
    core 1 is taken down and the platform refuses to take core 2, then the
    last online core, down. *)
Lemma disable_with_core_0_offline :
  let p := platform_of
             [(false, 0, 0, 0); (true, 1000, 500, 1000000);
              (true, 1000, 900, 300000); (false, 0, 0, 0)] 1 100 in
  let st := running_state 10 20 4 0 0
              [fresh_cpuinfo false; fresh_cpuinfo true; fresh_cpuinfo true;
               fresh_cpuinfo false] in
  map (cpu_online (snd (disable (st, p)))) possible_cpus
  = [false; false; true; false].
Proof. vm_compute. reflexivity. Qed.

(** ** Well-formedness is invariant *)

Lemma wf_state_ext (st st' : hotplug_state) :
  hotplug_tuners_ins st' = hotplug_tuners_ins st ->
  length (od_hotplug_cpuinfo st') = length (od_hotplug_cpuinfo st) ->
  hotplug_freq st' = hotplug_freq st ->
  hotplug_load st' = hotplug_load st ->
  hotplug_rq st' = hotplug_rq st ->
  wf_state st -> wf_state st'.
Proof.
  unfold wf_state. intros -> -> -> -> ->. auto.
Qed.

Lemma hotplug_work_fn_tables (p : platform) (st : hotplug_state) :
  hotplug_freq (fst (hotplug_work_fn p st)) = hotplug_freq st
  /\ hotplug_load (fst (hotplug_work_fn p st)) = hotplug_load st
  /\ hotplug_rq (fst (hotplug_work_fn p st)) = hotplug_rq st.
Proof.
  unfold hotplug_work_fn.
  destruct (hotplug_enable (hotplug_tuners_ins st) >? 0); cbn [fst];
    split_all; reflexivity.
Qed.

Lemma hotplug_work_fn_length (p : platform) (st : hotplug_state) :
  length (od_hotplug_cpuinfo (fst (hotplug_work_fn p st)))
  = length (od_hotplug_cpuinfo st).
Proof.
  destruct (Z.gtb_spec (hotplug_enable (hotplug_tuners_ins st)) 0) as [He|He].
  - rewrite hotplug_work_fn_records by lia. cbv zeta.
    destruct (drift_progress_holds p st NR_CPUS) as (Hl & _).
    destruct (num_online_cpus p =? 1)%nat; rewrite ?length_alter;
      destruct (f_other_hotplugging (frame_after p st NR_CPUS));
      rewrite ?length_resync; exact Hl.
  - rewrite hotplug_work_fn_disabled by lia. reflexivity.
Qed.

Lemma wf_state_tuners (t : hotplug_tuners) (st : hotplug_state) :
  valid_tuners t -> wf_state st -> wf_state (with_tuners t st).
Proof.
  unfold wf_state. intros Ht (_ & H). split; [exact Ht | exact H].
Qed.

Lemma store_hotplug_enable_wf (input : option Z)
  (w : hotplug_state * platform) :
  wf_state (fst w) -> wf_state (fst (store_hotplug_enable input w)).
Proof.
  intros Hw. unfold store_hotplug_enable.
  destruct input as [v|]; [|exact Hw].
  destruct (hotplug_enable (hotplug_tuners_ins (fst w)) =? of_bool (v >? 0));
    [exact Hw|].
  destruct w as [st p]. cbn [fst] in Hw.
  destruct Hw as ((Hs & _ & Hu & Hd & Hm & Ha) & Hl & Hf & Hlo & Hr).
  unfold cpus_hotplugging.
  destruct (v >? 0);
    [change (of_bool true >? 0) with true
    |change (of_bool false >? 0) with false];
    cbn [fst of_bool]; unfold wf_state, valid_tuners;
    cbn [set_hotplug_enable hotplug_tuners_ins hotplug_sampling_rate
           hotplug_enable cpu_up_rate cpu_down_rate maxcoreslimit
           accuratecpufreq od_hotplug_cpuinfo hotplug_freq hotplug_load
           hotplug_rq];
    split_all; try assumption; try lia; auto.
  rewrite <- Hl. apply (length_seed_cpuinfo p (od_hotplug_cpuinfo st)).
Qed.

Lemma exec_wf (c : command) (w : hotplug_state * platform) :
  wf_state (fst w) -> wf_state (fst (exec c w)).
Proof.
  intros Hw. pose proof Hw as ((Hs & He & Hu & Hd & Hm & Ha) & Hl & Hf & Hlo
                               & Hr).
  unfold MAX_HOTPLUG_RATE in *.
  destruct c as [ck expires input|input|input|input|input|input|tb attr input
                | | | | |p']; cbn [exec fst snd].
  - (* sampling period *)
    unfold store_hotplug_sampling_rate, scanned.
    destruct input as [v|]; cbn [option_map fst]; [|exact Hw].
    pose proof (to_s32_range v) as Hv.
    destruct (Z.max (to_s32 v) 10000
              =? hotplug_sampling_rate (hotplug_tuners_ins (fst w)));
      cbn [fst]; [exact Hw|].
    unfold update_sampling_rate. cbn [fst snd].
    rewrite to_s32_to_u32, to_s32_small by lia.
    assert (Hgoal :
      wf_state
        (with_tuners
           (set_hotplug_sampling_rate (Z.max (to_s32 v) 10000)
              (hotplug_tuners_ins (fst w))) (fst w))).
    { apply wf_state_tuners; [|exact Hw].
      unfold valid_tuners, MAX_HOTPLUG_RATE.
      cbn [set_hotplug_sampling_rate hotplug_sampling_rate hotplug_enable
             cpu_up_rate cpu_down_rate maxcoreslimit accuratecpufreq].
      split_all; try assumption; lia. }
    repeat match goal with
           | |- context [if ?b then _ else _] => destruct b
           end; exact Hgoal.
  - apply store_hotplug_enable_wf. exact Hw.
  - unfold store_cpu_up_rate, scanned, MAX_HOTPLUG_RATE.
    destruct input as [v|]; cbn [option_map fst]; [|exact Hw].
    match goal with
    | |- context [if ?b then _ else _] => destruct b
    end; cbn [fst]; [exact Hw|].
    apply wf_state_tuners; [|exact Hw].
    unfold valid_tuners, MAX_HOTPLUG_RATE.
    cbn [set_cpu_up_rate hotplug_sampling_rate hotplug_enable
           cpu_up_rate cpu_down_rate maxcoreslimit accuratecpufreq].
    split_all; try assumption; lia.
  - unfold store_cpu_down_rate, scanned, MAX_HOTPLUG_RATE.
    destruct input as [v|]; cbn [option_map fst]; [|exact Hw].
    match goal with
    | |- context [if ?b then _ else _] => destruct b
    end; cbn [fst]; [exact Hw|].
    apply wf_state_tuners; [|exact Hw].
    unfold valid_tuners, MAX_HOTPLUG_RATE.
    cbn [set_cpu_down_rate hotplug_sampling_rate hotplug_enable
           cpu_up_rate cpu_down_rate maxcoreslimit accuratecpufreq].
    split_all; try assumption; lia.
  - unfold store_maxcoreslimit, scanned.
    destruct input as [v|]; cbn [option_map fst]; [|exact Hw].
    match goal with
    | |- context [if ?a =? ?b then _ else _] => destruct (a =? b)
    end; cbn [fst]; [exact Hw|].
    apply wf_state_tuners; [|exact Hw].
    unfold valid_tuners, MAX_HOTPLUG_RATE.
    cbn [set_maxcoreslimit hotplug_sampling_rate hotplug_enable
           cpu_up_rate cpu_down_rate maxcoreslimit accuratecpufreq].
    split_all; try assumption; try lia.
    destruct (Z.gtb_spec (to_s32 v) (Z.of_nat NR_CPUS)); lia.
  - unfold store_accuratecpufreq, scanned.
    destruct input as [v|]; cbn [option_map fst]; [|exact Hw].
    match goal with
    | |- context [if ?a =? ?b then _ else _] => destruct (a =? b)
    end; cbn [fst]; [exact Hw|].
    apply wf_state_tuners; [|exact Hw].
    unfold valid_tuners, MAX_HOTPLUG_RATE.
    cbn [set_accuratecpufreq hotplug_sampling_rate hotplug_enable
           cpu_up_rate cpu_down_rate maxcoreslimit accuratecpufreq].
    split_all; try assumption; try lia.
    destruct (to_s32 v >? 0); [right | left]; reflexivity.
  - match goal with
    | |- context [if ?b then _ else _] => destruct b
    end; [|exact Hw].
    unfold store_hotplug_param, scanned.
    destruct input as [v|]; cbn [option_map fst]; [|exact Hw].
    match goal with
    | |- context [if ?a =? ?b then _ else _] => destruct (a =? b)
    end; cbn [fst]; [exact Hw|].
    pose proof (proj1 Hw) as Hvt. unfold wf_state.
    destruct tb;
      cbn [with_table table_of hotplug_tuners_ins od_hotplug_cpuinfo
             hotplug_freq hotplug_load hotplug_rq];
      split_all; try assumption;
      apply table_shape_set2; assumption.
  - unfold run_hotplug_work.
    destruct (alucard_hotplug_work (fst w)); [|exact Hw].
    destruct (hotplug_work_fn_tables (snd w) (clear_hotplug_work (fst w)))
      as (T1 & T2 & T3).
    apply (wf_state_ext (clear_hotplug_work (fst w))); try assumption.
    + apply hotplug_work_fn_tuners.
    + apply hotplug_work_fn_length.
  - unfold run_online_work.
    destruct (alucard_hotplug_online_work (fst w)); exact Hw.
  - unfold run_offline_work.
    destruct (alucard_hotplug_offline_work (fst w)); [|exact Hw].
    unfold cpu_offline_work_fn.
    match goal with
    | |- context [fold_left ?f ?l ?a] => destruct (fold_left f l a) as [p1 cs]
    end.
    cbn [fst snd].
    apply (wf_state_ext (fst w)); try reflexivity; [|exact Hw].
    cbn [od_hotplug_cpuinfo with_pending].
    destruct (num_online_cpus p1 =? 1)%nat; rewrite ?length_alter;
      reflexivity.
  - unfold run_rq_work. destruct (work (rq_data (fst w))); exact Hw.
  - exact Hw.
Qed.

Lemma loaded_wf (p : platform) : wf_state (fst (loaded p)).
Proof.
  unfold loaded, wf_state, valid_tuners, table_shape, MAX_HOTPLUG_RATE.
  change (Z.of_nat NR_CPUS) with 4.
  split_all.
  all: try apply (length_seed_cpuinfo p (repeat zero_cpuinfo NR_CPUS)).
  all: try reflexivity; try (left; reflexivity); try (repeat constructor).
  all: vm_compute; intuition congruence.
Qed.

(** X16.  Whatever is written to the attributes, whichever work items
    run and however the platform changes after the module was loaded, the
    controller's configuration stays well formed: the sampling period is at
    least 10000 us, both rates are within 1..40 (so the tick's modulo never
    divides by zero), the cap is within 1..NR_CPUS, the two flags are 0 or
    1, and the per-cpu records and the three tables keep their sizes. *)
Theorem X16_configuration_stays_well_formed (p : platform)
  (cs : list command) :
  wf_state (fst (run cs (loaded p))).
Proof.
  unfold run.
  assert (H : forall (cs : list command) (w : hotplug_state * platform),
             wf_state (fst w) ->
             wf_state (fst (fold_left (fun w c => exec c w) cs w))).
  { clear. induction cs as [|c cs IH]; intros w Hw; [exact Hw|].
    cbn [fold_left]. apply IH. apply exec_wf. exact Hw. }
  apply H. apply loaded_wf.
Qed.

(** ** The two threshold cells without an attribute *)

Lemma eval_up_ext (st : hotplug_state) (th th' : thresholds) (cu : bool)
  (rq on cl cf : Z) (cpu : nat) (f : tick_frame) :
  ((Z.of_nat cpu <? to_u32 (maxcoreslimit (hotplug_tuners_ins st) - 1)) = true
   -> up_load th = up_load th' /\ up_freq th = up_freq th'
      /\ up_rq th = up_rq th') ->
  eval_up st th cu rq on cl cf cpu f = eval_up st th' cu rq on cl cf cpu f.
Proof.
  intros H. unfold eval_up, up_qualifies.
  destruct (Z.of_nat cpu <? to_u32 (maxcoreslimit (hotplug_tuners_ins st) - 1)).
  - destruct (H eq_refl) as (-> & -> & ->). reflexivity.
  - rewrite andb_false_r. reflexivity.
Qed.

Lemma eval_down_ext (st : hotplug_state) (th th' : thresholds) (cd : bool)
  (rq on cl cf : Z) (cpu : nat) (f : tick_frame) :
  ((Z.of_nat cpu
    >? to_u32 (downmaxcoreslimit (maxcoreslimit (hotplug_tuners_ins st))))
   = true ->
   down_load th = down_load th' /\ down_freq th = down_freq th'
   /\ down_rq th = down_rq th') ->
  eval_down st th cd rq on cl cf cpu f
  = eval_down st th' cd rq on cl cf cpu f.
Proof.
  intros H. unfold eval_down, down_qualifies.
  destruct (Z.of_nat cpu
            >? to_u32
                 (downmaxcoreslimit (maxcoreslimit (hotplug_tuners_ins st)))).
  - destruct (H eq_refl) as (-> & -> & ->). reflexivity.
  - rewrite andb_false_r. reflexivity.
Qed.

Lemma tick_cpu_ext (p : platform) (st st' : hotplug_state) (cu cd : bool)
  (rq : Z) (f : tick_frame) (cpu : nat) :
  hotplug_tuners_ins st = hotplug_tuners_ins st' ->
  ((Z.of_nat cpu <? to_u32 (maxcoreslimit (hotplug_tuners_ins st) - 1)) = true
   -> up_load (read_thresholds st cpu) = up_load (read_thresholds st' cpu)
      /\ up_freq (read_thresholds st cpu) = up_freq (read_thresholds st' cpu)
      /\ up_rq (read_thresholds st cpu) = up_rq (read_thresholds st' cpu)) ->
  ((Z.of_nat cpu
    >? to_u32 (downmaxcoreslimit (maxcoreslimit (hotplug_tuners_ins st))))
   = true ->
   down_load (read_thresholds st cpu) = down_load (read_thresholds st' cpu)
   /\ down_freq (read_thresholds st cpu)
      = down_freq (read_thresholds st' cpu)
   /\ down_rq (read_thresholds st cpu) = down_rq (read_thresholds st' cpu)) ->
  tick_cpu p st cu cd rq f cpu = tick_cpu p st' cu cd rq f cpu.
Proof.
  intros Ht Hup Hdown. unfold tick_cpu, tick_cpu_with.
  destruct (f_other_hotplugging (detect_drift p cpu _)); [reflexivity|].
  assert (Hclf : forall w i o,
            cur_load_freq p st w i o cpu = cur_load_freq p st' w i o cpu).
  { intros. unfold cur_load_freq. rewrite Ht. reflexivity. }
  rewrite Hclf.
  destruct (cur_load_freq p st' _ _ _ cpu) as [cl cf].
  rewrite (eval_up_ext st _ (read_thresholds st' cpu)) by exact Hup.
  rewrite (eval_down_ext st _ (read_thresholds st' cpu)) by exact Hdown.
  unfold eval_up, eval_down. rewrite Ht. reflexivity.
Qed.

Lemma tick_cpu_cells (p : platform) (st st' : hotplug_state) (cu cd : bool)
  (rq : Z) (f : tick_frame) (cpu : nat) :
  1 <= maxcoreslimit (hotplug_tuners_ins st) <= Z.of_nat NR_CPUS ->
  hotplug_tuners_ins st = hotplug_tuners_ins st' ->
  (forall (tb : tunable_table) (i j : nat),
     (i, j) <> (0%nat, DOWN_INDEX) -> (i, j) <> (3%nat, UP_INDEX) ->
     atomic_read2 (table_of tb st) i j = atomic_read2 (table_of tb st') i j) ->
  (cpu < NR_CPUS)%nat ->
  tick_cpu p st cu cd rq f cpu = tick_cpu p st' cu cd rq f cpu.
Proof.
  intros Hcap Ht Hcells Hlt.
  change (Z.of_nat NR_CPUS) with 4 in Hcap. unfold NR_CPUS in Hlt.
  pose proof (Hcells Hotplug_load) as Hl.
  pose proof (Hcells Hotplug_freq) as Hf.
  pose proof (Hcells Hotplug_rq) as Hr.
  cbn [table_of] in Hl, Hf, Hr.
  apply tick_cpu_ext; [exact Ht | |].
  - intros Hgate. apply Z.ltb_lt in Hgate.
    rewrite to_u32_small in Hgate by lia.
    assert (Hne : forall j, (cpu, j) <> (3%nat, UP_INDEX)).
    { intros j Hx. injection Hx as Hx _. lia. }
    assert (Hne0 : (cpu, UP_INDEX) <> (0%nat, DOWN_INDEX)).
    { intros Hx. injection Hx as _ Hx. discriminate Hx. }
    unfold read_thresholds. cbn [up_load up_freq up_rq].
    rewrite (Hl cpu UP_INDEX Hne0 (Hne _)), (Hf cpu UP_INDEX Hne0 (Hne _)),
      (Hr cpu UP_INDEX Hne0 (Hne _)).
    split_all; reflexivity.
  - intros Hgate.
    pose proof (to_u32_nonneg
                  (downmaxcoreslimit (maxcoreslimit (hotplug_tuners_ins st))))
      as Hnn.
    apply Z.gtb_lt in Hgate.
    assert (Hne : forall j, (cpu, j) <> (0%nat, DOWN_INDEX)).
    { intros j Hx. injection Hx as Hx _. lia. }
    assert (Hne3 : (cpu, DOWN_INDEX) <> (3%nat, UP_INDEX)).
    { intros Hx. injection Hx as _ Hx. discriminate Hx. }
    unfold read_thresholds. cbn [down_load down_freq down_rq].
    rewrite (Hl cpu DOWN_INDEX (Hne _) Hne3), (Hf cpu DOWN_INDEX (Hne _) Hne3),
      (Hr cpu DOWN_INDEX (Hne _) Hne3).
    split_all; reflexivity.
Qed.

Lemma tick_loop_cells (p : platform) (st st' : hotplug_state) (cu cd : bool)
  (rq : Z) (cpus : list nat) :
  1 <= maxcoreslimit (hotplug_tuners_ins st) <= Z.of_nat NR_CPUS ->
  hotplug_tuners_ins st = hotplug_tuners_ins st' ->
  (forall (tb : tunable_table) (i j : nat),
     (i, j) <> (0%nat, DOWN_INDEX) -> (i, j) <> (3%nat, UP_INDEX) ->
     atomic_read2 (table_of tb st) i j = atomic_read2 (table_of tb st') i j) ->
  Forall (fun c => (c < NR_CPUS)%nat) cpus ->
  forall f : tick_frame,
    tick_loop p st cu cd rq cpus f = tick_loop p st' cu cd rq cpus f.
Proof.
  intros Hcap Ht Hcells Hall. unfold tick_loop.
  induction Hall as [|c cs Hc _ IH]; intros f; [reflexivity|].
  cbn [fold_left].
  rewrite (tick_cpu_cells p st st' cu cd rq f c Hcap Ht Hcells Hc).
  apply IH.
Qed.

Lemma hotplug_work_fn_flags (p : platform) (st : hotplug_state) :
  hotplug_enable (hotplug_tuners_ins st) > 0 ->
  alucard_hotplug_offline_work (fst (hotplug_work_fn p st))
  = f_offline_work (frame_after p st NR_CPUS)
  /\ alucard_hotplug_online_work (fst (hotplug_work_fn p st))
     = f_online_work (frame_after p st NR_CPUS).
Proof.
  intros He. unfold hotplug_work_fn. rewrite tick_frame_of_after.
  destruct (Z.gtb_spec (hotplug_enable (hotplug_tuners_ins st)) 0); [|lia].
  split; reflexivity.
Qed.

(** X17.  The cells [0][DOWN] and [NR_CPUS-1][UP] of the three tables,
    the only ones for which the file defines no attribute, have no
    influence on a tick: with a cap within 1..NR_CPUS, two controllers
    that differ only in those cells decide the same and end the tick with
    the same records, counter and work items. *)
Theorem X17_cells_without_attribute_are_unused (p : platform)
  (st st' : hotplug_state) :
  1 <= maxcoreslimit (hotplug_tuners_ins st) <= Z.of_nat NR_CPUS ->
  hotplug_tuners_ins st = hotplug_tuners_ins st' ->
  od_hotplug_cpuinfo st = od_hotplug_cpuinfo st' ->
  hotplugging_rate st = hotplugging_rate st' ->
  rq_data st = rq_data st' ->
  alucard_hotplug_offline_work st = alucard_hotplug_offline_work st' ->
  alucard_hotplug_online_work st = alucard_hotplug_online_work st' ->
  (forall (tb : tunable_table) (i j : nat),
     (i, j) <> (0%nat, DOWN_INDEX) -> (i, j) <> (3%nat, UP_INDEX) ->
     atomic_read2 (table_of tb st) i j = atomic_read2 (table_of tb st') i j) ->
  snd (hotplug_work_fn p st) = snd (hotplug_work_fn p st')
  /\ od_hotplug_cpuinfo (fst (hotplug_work_fn p st))
     = od_hotplug_cpuinfo (fst (hotplug_work_fn p st'))
  /\ hotplugging_rate (fst (hotplug_work_fn p st))
     = hotplugging_rate (fst (hotplug_work_fn p st'))
  /\ alucard_hotplug_offline_work (fst (hotplug_work_fn p st))
     = alucard_hotplug_offline_work (fst (hotplug_work_fn p st'))
  /\ alucard_hotplug_online_work (fst (hotplug_work_fn p st))
     = alucard_hotplug_online_work (fst (hotplug_work_fn p st')).
Proof.
  intros Hcap Ht Hrec Hrate Hrq Hoff Hon Hcells.
  assert (Hcu : tick_check_up st = tick_check_up st').
  { unfold tick_check_up, next_rate. rewrite Ht, Hrate. reflexivity. }
  assert (Hcd : tick_check_down st = tick_check_down st').
  { unfold tick_check_down, next_rate. rewrite Ht, Hrate. reflexivity. }
  assert (Hwr : wrap_rate st = wrap_rate st').
  { unfold wrap_rate, next_rate. rewrite Ht, Hrate. reflexivity. }
  assert (Hif : initial_frame st = initial_frame st').
  { unfold initial_frame. rewrite Hrec, Hoff, Hon. reflexivity. }
  assert (Hall : Forall (fun c => (c < NR_CPUS)%nat) (seq 0 NR_CPUS)).
  { unfold NR_CPUS. cbn [seq]. repeat constructor. }
  assert (Hloop : frame_after p st NR_CPUS = frame_after p st' NR_CPUS).
  { unfold frame_after. rewrite Hcu, Hcd, Hrq, Hif.
    apply tick_loop_cells; assumption. }
  destruct (Z.gtb_spec (hotplug_enable (hotplug_tuners_ins st)) 0) as [Hg|Hg].
  - assert (He : hotplug_enable (hotplug_tuners_ins st) > 0) by lia.
    assert (He' : hotplug_enable (hotplug_tuners_ins st') > 0)
      by (rewrite <- Ht; lia).
    destruct (hotplug_work_fn_flags p st He) as [F1 F2].
    destruct (hotplug_work_fn_flags p st' He') as [F1' F2'].
    rewrite F1, F2, F1', F2'.
    rewrite !hotplug_work_fn_trace, !hotplug_work_fn_records,
      !hotplug_work_fn_rate by assumption.
    rewrite <- Ht, Hloop, Hwr.
    split_all; reflexivity.
  - rewrite (hotplug_work_fn_disabled p st) by lia.
    rewrite (hotplug_work_fn_disabled p st') by (rewrite <- Ht; lia).
    cbn [fst snd]. split_all; assumption || reflexivity.
Qed.

Lemma X17_cells_witness :
  snd (hotplug_work_fn Samples.p_gap Samples.s_gap)
  = snd (hotplug_work_fn Samples.p_gap
           (with_table Hotplug_rq [[77; 200]; [200; 200]; [200; 300]; [300; 55]]
              Samples.s_gap))
  /\ od_hotplug_cpuinfo (fst (hotplug_work_fn Samples.p_gap Samples.s_gap))
     = od_hotplug_cpuinfo
         (fst (hotplug_work_fn Samples.p_gap
                 (with_table Hotplug_rq
                    [[77; 200]; [200; 200]; [200; 300]; [300; 55]]
                    Samples.s_gap)))
  /\ hotplugging_rate (fst (hotplug_work_fn Samples.p_gap Samples.s_gap))
     = hotplugging_rate
         (fst (hotplug_work_fn Samples.p_gap
                 (with_table Hotplug_rq
                    [[77; 200]; [200; 200]; [200; 300]; [300; 55]]
                    Samples.s_gap)))
  /\ alucard_hotplug_offline_work
       (fst (hotplug_work_fn Samples.p_gap Samples.s_gap))
     = alucard_hotplug_offline_work
         (fst (hotplug_work_fn Samples.p_gap
                 (with_table Hotplug_rq
                    [[77; 200]; [200; 200]; [200; 300]; [300; 55]]
                    Samples.s_gap)))
  /\ alucard_hotplug_online_work
       (fst (hotplug_work_fn Samples.p_gap Samples.s_gap))
     = alucard_hotplug_online_work
         (fst (hotplug_work_fn Samples.p_gap
                 (with_table Hotplug_rq
                    [[77; 200]; [200; 200]; [200; 300]; [300; 55]]
                    Samples.s_gap))).
Proof.
  apply (X17_cells_without_attribute_are_unused Samples.p_gap Samples.s_gap
           (with_table Hotplug_rq
              [[77; 200]; [200; 200]; [200; 300]; [300; 55]] Samples.s_gap));
    try reflexivity.
  - vm_compute. split; congruence.
  - intros tb i j H0 H3. unfold DOWN_INDEX, UP_INDEX in *.
    destruct tb; try reflexivity.
    destruct i as [|[|[|[|i]]]]; destruct j as [|[|j]];
      try reflexivity; congruence.
Defined.

(** ** A mark that is not carried out before the next tick *)

Lemma marked_online_record (p : platform) (st : hotplug_state) (c : nat)
  (by_cpu : Z) :
  hotplug_enable (hotplug_tuners_ins st) > 0 ->
  length (od_hotplug_cpuinfo st) = NR_CPUS ->
  (forall d : nat,
     (d < NR_CPUS)%nat -> drifted p (od_hotplug_cpuinfo st) d = false) ->
  In (MarkOnline c by_cpu) (snd (hotplug_work_fn p st)) ->
  (c < NR_CPUS)%nat /\ cpu_online p c = false
  /\ online (per_cpu (od_hotplug_cpuinfo (fst (hotplug_work_fn p st))) c) = 1.
Proof.
  intros He Hlen Hnd Hin. apply hotplug_work_fn_trace_in in Hin.
  destruct (up_progress_holds p st NR_CPUS)
    as [(_ & _ & Ho)|[(_ & t & _ & _ & _ & _ & Ho & _)
                     |(_ & t & c0 & Hlt & _ & Hoff & _ & _ & Ho & Hrec)]].
  - pose proof (in_filter_nil _ _ _ Ho Hin) as Hx. discriminate Hx.
  - pose proof (in_filter_nil _ _ _ Ho Hin) as Hx. discriminate Hx.
  - pose proof (in_filter_singleton _ _ _ _ Ho Hin eq_refl) as Heq.
    injection Heq as -> _.
    destruct (drift_progress_holds p st NR_CPUS) as (Hl & Hother & _ & _).
    rewrite (existsb_seq_all_false _ _ Hnd) in Hother.
    split_all; [lia | exact Hoff |].
    rewrite hotplug_work_fn_records by exact He. cbv zeta. rewrite Hother.
    destruct Hrec as [Hr _]; [lia|].
    destruct (num_online_cpus p =? 1)%nat; [|exact Hr].
    rewrite (proj_per_cpu_alter online) by reflexivity. exact Hr.
Qed.

Lemma drift_tick_records (p : platform) (st : hotplug_state) (d k : nat) :
  hotplug_enable (hotplug_tuners_ins st) > 0 ->
  length (od_hotplug_cpuinfo st) = NR_CPUS ->
  (d < NR_CPUS)%nat ->
  drifted p (od_hotplug_cpuinfo st) d = true ->
  (k < NR_CPUS)%nat ->
  online (per_cpu (od_hotplug_cpuinfo (fst (hotplug_work_fn p st))) k)
  = of_bool (cpu_online p k).
Proof.
  intros He Hlen Hd Hdr Hk.
  destruct (drift_progress_holds p st NR_CPUS) as (Hl & Hother & _ & _).
  rewrite (existsb_seq_true _ _ d Hd Hdr) in Hother.
  rewrite hotplug_work_fn_records by exact He. cbv zeta. rewrite Hother.
  destruct (resync_records p (f_cpuinfo (frame_after p st NR_CPUS)) k)
    as (R1 & _); [congruence | exact Hk |].
  destruct (num_online_cpus p =? 1)%nat; [|exact R1].
  rewrite (proj_per_cpu_alter online) by reflexivity. exact R1.
Qed.

(** X18.  A core that a tick marked online is brought up only if the
    online executor runs before the next tick.  If the next tick comes
    first, with the hardware unchanged, it finds the marked core's record
    in disagreement with the hardware, resynchronises every record to the
    hardware and so withdraws the mark: the online executor, when it then
    runs, does not bring the core up. *)
Theorem X18_unserved_mark_is_withdrawn (p : platform) (st : hotplug_state)
  (c : nat) (by_cpu : Z) :
  hotplug_enable (hotplug_tuners_ins st) > 0 ->
  length (od_hotplug_cpuinfo st) = NR_CPUS ->
  (forall d : nat,
     (d < NR_CPUS)%nat -> drifted p (od_hotplug_cpuinfo st) d = false) ->
  In (MarkOnline c by_cpu) (snd (hotplug_work_fn p st)) ->
  drifted p (od_hotplug_cpuinfo (fst (hotplug_work_fn p st))) c = true
  /\ (forall k : nat,
        (k < NR_CPUS)%nat ->
        online
          (per_cpu
             (od_hotplug_cpuinfo
                (fst (hotplug_work_fn p (fst (hotplug_work_fn p st))))) k)
        = of_bool (cpu_online p k))
  /\ ~ In c
        (snd
           (cpu_online_work_fn
              (fst (hotplug_work_fn p (fst (hotplug_work_fn p st)))) p)).
Proof.
  intros He Hlen Hnd Hin.
  destruct (marked_online_record p st c by_cpu He Hlen Hnd Hin)
    as (Hc & Hoff & Hrec).
  assert (Hdr : drifted p (od_hotplug_cpuinfo (fst (hotplug_work_fn p st))) c
                = true).
  { unfold drifted. rewrite Hrec, Hoff. reflexivity. }
  assert (He1 : hotplug_enable
                  (hotplug_tuners_ins (fst (hotplug_work_fn p st))) > 0).
  { rewrite hotplug_work_fn_tuners. exact He. }
  assert (Hlen1 : length (od_hotplug_cpuinfo (fst (hotplug_work_fn p st)))
                  = NR_CPUS).
  { rewrite hotplug_work_fn_length. exact Hlen. }
  split_all.
  - exact Hdr.
  - intros k Hk.
    apply (drift_tick_records p _ c k He1 Hlen1 Hc Hdr Hk).
  - intros Hcall. unfold cpu_online_work_fn in Hcall.
    apply cpu_online_scan_calls in Hcall as [[]|[_ Hr]].
    rewrite (drift_tick_records p _ c c He1 Hlen1 Hc Hdr Hc), Hoff in Hr.
    discriminate Hr.
Qed.

Lemma X18_unserved_mark_witness :
  drifted Samples.p_gap
    (od_hotplug_cpuinfo (fst (hotplug_work_fn Samples.p_gap Samples.s_gap))) 3
  = true
  /\ (forall k : nat,
        (k < NR_CPUS)%nat ->
        online
          (per_cpu
             (od_hotplug_cpuinfo
                (fst
                   (hotplug_work_fn Samples.p_gap
                      (fst (hotplug_work_fn Samples.p_gap Samples.s_gap)))))
             k)
        = of_bool (cpu_online Samples.p_gap k))
  /\ ~ In 3%nat
        (snd
           (cpu_online_work_fn
              (fst
                 (hotplug_work_fn Samples.p_gap
                    (fst (hotplug_work_fn Samples.p_gap Samples.s_gap))))
              Samples.p_gap)).
Proof.
  apply (X18_unserved_mark_is_withdrawn Samples.p_gap Samples.s_gap 3 2).
  - simpl. lia.
  - reflexivity.
  - intros d Hd. unfold NR_CPUS in Hd.
    destruct d as [|[|[|[|d]]]]; [| | | |lia]; reflexivity.
  - vm_compute. right. left. reflexivity.
Defined.

(** ** Twenty ticks at rates 10 and 20 *)

Lemma rq_works_frame (qs : list platform) :
  forall st : hotplug_state,
    hotplug_tuners_ins (rq_works qs st) = hotplug_tuners_ins st
    /\ hotplugging_rate (rq_works qs st) = hotplugging_rate st.
Proof.
  induction qs as [|q qs IH]; intros st; [split; reflexivity|].
  unfold rq_works in *. cbn [fold_left].
  destruct (IH (fst (run_rq_work (st, q)))) as [-> ->].
  unfold run_rq_work. cbn [fst snd].
  destruct (work (rq_data st)); split; reflexivity.
Qed.

Lemma run_period_rate (st : hotplug_state) (x : period) :
  hotplug_enable (hotplug_tuners_ins st) > 0 ->
  cpu_up_rate (hotplug_tuners_ins st) = 10 ->
  cpu_down_rate (hotplug_tuners_ins st) = 20 ->
  0 <= hotplugging_rate st < 20 ->
  hotplug_tuners_ins (fst (run_period st x)) = hotplug_tuners_ins st
  /\ hotplugging_rate (fst (run_period st x))
     = (if hotplugging_rate st =? 19 then 0 else hotplugging_rate st + 1).
Proof.
  intros He Hu Hd Hr. unfold run_period, tick_entry.
  destruct (rq_works_frame (fst x) st) as [Ht Hrate].
  rewrite hotplug_work_fn_tuners, hotplug_work_fn_rate by (rewrite Ht; exact He).
  split; [exact Ht|].
  unfold wrap_rate, next_rate. rewrite Ht, Hrate, Hu, Hd.
  rewrite (to_u32_small (hotplugging_rate st + 1)) by lia.
  change (to_u32 (Z.max 10 20)) with 20.
  destruct (Z.geb_spec (hotplugging_rate st + 1) 20);
    destruct (Z.eqb_spec (hotplugging_rate st) 19); lia.
Qed.

Lemma ticks_state_rate (xs : list period) :
  forall st : hotplug_state,
    hotplug_enable (hotplug_tuners_ins st) > 0 ->
    cpu_up_rate (hotplug_tuners_ins st) = 10 ->
    cpu_down_rate (hotplug_tuners_ins st) = 20 ->
    0 <= hotplugging_rate st ->
    hotplugging_rate st + Z.of_nat (length xs) < 20 ->
    hotplug_tuners_ins (ticks_state xs st) = hotplug_tuners_ins st
    /\ hotplugging_rate (ticks_state xs st)
       = hotplugging_rate st + Z.of_nat (length xs).
Proof.
  induction xs as [|x xs IH]; intros st He Hu Hd H0 Hlen.
  - split; [reflexivity|]. cbn. lia.
  - cbn [length] in Hlen. unfold ticks_state in *. cbn [fold_left length].
    destruct (run_period_rate st x He Hu Hd) as [Ht Hr]; [lia|].
    destruct (Z.eqb_spec (hotplugging_rate st) 19) as [E|_]; [lia|].
    destruct (IH (fst (run_period st x))) as [It Ir];
      rewrite ?Ht, ?Hr; try assumption; try lia.
    rewrite It, Ir, Ht, Hr. split; [reflexivity | lia].
Qed.

Lemma ticks_state_snoc (xs : list period) (x : period)
  (st : hotplug_state) :
  ticks_state (xs ++ [x]) st = fst (run_period (ticks_state xs st) x).
Proof. unfold ticks_state. rewrite fold_left_app. reflexivity. Qed.

Lemma run_ticks_gates (xs : list period) :
  forall st : hotplug_state,
    hotplug_enable (hotplug_tuners_ins st) > 0 ->
    run_ticks xs st =
    gates_from (length xs) (cpu_up_rate (hotplug_tuners_ins st))
      (cpu_down_rate (hotplug_tuners_ins st)) (hotplugging_rate st).
Proof.
  induction xs as [|x xs IH]; intros st He; [reflexivity|].
  cbn [run_ticks length gates_from].
  destruct (rq_works_frame (fst x) st) as [Ht Hrate].
  assert (He' : hotplug_enable (hotplug_tuners_ins (tick_entry x st)) > 0).
  { unfold tick_entry. rewrite Ht. exact He. }
  unfold run_period.
  rewrite IH by (rewrite hotplug_work_fn_tuners; exact He').
  rewrite hotplug_work_fn_tuners, hotplug_work_fn_rate by exact He'.
  unfold tick_gates.
  destruct (Z.gtb_spec (hotplug_enable (hotplug_tuners_ins (tick_entry x st)))
              0); [|lia].
  unfold tick_check_up, tick_check_down, wrap_rate, next_rate, tick_entry.
  rewrite Ht, Hrate. reflexivity.
Qed.

Lemma ticks_trace_lookup (xs : list period) :
  forall (st : hotplug_state) (i : nat) (x : period),
    xs !! i = Some x ->
    ticks_trace xs st !! i
    = Some (snd (run_period (ticks_state (take i xs) st) x)).
Proof.
  induction xs as [|y xs IH]; intros st i x Hx; [discriminate Hx|].
  destruct i as [|i].
  - injection Hx as ->. reflexivity.
  - cbn [ticks_trace take]. cbn in Hx.
    change ((snd (run_period st y) :: ticks_trace xs (fst (run_period st y)))
              !! S i)
      with (ticks_trace xs (fst (run_period st y)) !! i).
    rewrite (IH _ i x Hx). reflexivity.
Qed.

Lemma gate_values (k : nat) :
  (1 <= k <= 20)%nat ->
  (to_u32 (Z.of_nat k - 1 + 1) mod to_u32 10 =? 0)
  = ((k =? 10)%nat || (k =? 20)%nat)
  /\ (to_u32 (Z.of_nat k - 1 + 1) mod to_u32 20 =? 0) = (k =? 20)%nat.
Proof.
  intros Hk.
  do 21 (destruct k as [|k]; [try lia; split; vm_compute; reflexivity|]).
  lia.
Qed.

Lemma tick_frame_of_gates (p : platform) (st : hotplug_state) (cu cd : bool) :
  tick_check_up st = cu -> tick_check_down st = cd ->
  tick_frame_of p st
  = tick_loop p st cu cd (fst (get_nr_run_avg (rq_data st))) possible_cpus
      (initial_frame st).
Proof. intros <- <-. unfold tick_frame_of. reflexivity. Qed.

Lemma trace_needs_gates (p : platform) (st : hotplug_state) (e : event) :
  In e (snd (hotplug_work_fn p st)) ->
  (is_mark_offline e = false -> tick_check_up st = true)
  /\ (is_mark_offline e = true -> tick_check_down st = true).
Proof.
  intros Hin. apply hotplug_work_fn_trace_in in Hin.
  assert (Hup : forall t : nat,
            In (UpTrigger t) (f_trace (frame_after p st NR_CPUS)) ->
            tick_check_up st = true).
  { intros t Ht.
    apply frame_after_event_origin in Ht
      as [(t' & He & H & _)|[(c & He & _)|(c & b & He)]];
      try discriminate He.
    exact H. }
  destruct e as [t|c|c b]; cbn [is_mark_offline]; split; intros Hm.
  - apply (Hup t). exact Hin.
  - discriminate Hm.
  - discriminate Hm.
  - apply frame_after_event_origin in Hin
      as [(t' & He & _)|[(c' & He & H & _)|(c' & b & He)]];
      try discriminate He.
    exact H.
  - destruct (up_progress_holds p st NR_CPUS)
      as [(_ & _ & Ho)|[(_ & t & _ & _ & _ & _ & Ho & _)
                       |(_ & t & c0 & _ & _ & _ & _ & Ht & _)]].
    + pose proof (in_filter_nil _ _ _ Ho Hin) as Hx. discriminate Hx.
    + pose proof (in_filter_nil _ _ _ Ho Hin) as Hx. discriminate Hx.
    + apply (Hup t). apply (filter_singleton_in _ _ _ Ht).
  - discriminate Hm.
Qed.

(** C9.  With up_rate 10 and down_rate 20, over 20 consecutive ticks of an
    enabled controller whose counter starts at 0, whatever the platform
    shows at each tick and whatever the run-queue sampler does between
    them: the handler of tick k (1-indexed) finds the counter at k - 1 and
    runs its per-core loop with the up evaluation enabled exactly if k is
    10 or 20 and the down evaluation enabled exactly if k is 20; it records
    an up-trigger or marks a core online only on ticks 10 and 20 and marks
    a core offline only on tick 20; it leaves the counter at k, and at 0
    after tick 20. *)
Theorem C9_rate_gates_10_20 (xs : list period) (st : hotplug_state) :
  length xs = 20%nat ->
  hotplug_enable (hotplug_tuners_ins st) > 0 ->
  cpu_up_rate (hotplug_tuners_ins st) = 10 ->
  cpu_down_rate (hotplug_tuners_ins st) = 20 ->
  hotplugging_rate st = 0 ->
  open_ticks (map fst (run_ticks xs st)) = [10; 20]%nat
  /\ open_ticks (map snd (run_ticks xs st)) = [20]%nat
  /\ hotplugging_rate (ticks_state xs st) = 0
  /\ forall (k : nat) (x : period),
       (1 <= k)%nat ->
       xs !! (k - 1)%nat = Some x ->
       let sk := tick_entry x (ticks_state (take (k - 1) xs) st) in
       let up := (k =? 10)%nat || (k =? 20)%nat in
       let down := (k =? 20)%nat in
       let loop :=
         tick_loop (snd x) sk up down (fst (get_nr_run_avg (rq_data sk)))
           possible_cpus (initial_frame sk) in
       hotplugging_rate sk = Z.of_nat k - 1
       /\ tick_frame_of (snd x) sk = loop
       /\ snd (hotplug_work_fn (snd x) sk) = f_trace loop
       /\ ticks_trace xs st !! (k - 1)%nat = Some (f_trace loop)
       /\ hotplugging_rate (fst (hotplug_work_fn (snd x) sk))
          = (if (k =? 20)%nat then 0 else Z.of_nat k)
       /\ (forall t : nat,
             In (UpTrigger t) (snd (hotplug_work_fn (snd x) sk)) ->
             k = 10%nat \/ k = 20%nat)
       /\ (forall (c : nat) (by_cpu : Z),
             In (MarkOnline c by_cpu) (snd (hotplug_work_fn (snd x) sk)) ->
             k = 10%nat \/ k = 20%nat)
       /\ (forall c : nat,
             In (MarkOffline c) (snd (hotplug_work_fn (snd x) sk)) ->
             k = 20%nat).
Proof.
  intros Hl He Hu Hd Hr.
  assert (Hgates :
    open_ticks (map fst (run_ticks xs st)) = [10; 20]%nat
    /\ open_ticks (map snd (run_ticks xs st)) = [20]%nat).
  { rewrite run_ticks_gates by exact He.
    rewrite Hl, Hu, Hd, Hr. split; vm_compute; reflexivity. }
  assert (Hk : forall (k : nat) (x : period),
            (1 <= k)%nat -> xs !! (k - 1)%nat = Some x ->
            (k <= 20)%nat
            /\ hotplug_tuners_ins
                 (tick_entry x (ticks_state (take (k - 1) xs) st))
               = hotplug_tuners_ins st
            /\ hotplugging_rate
                 (tick_entry x (ticks_state (take (k - 1) xs) st))
               = Z.of_nat k - 1).
  { intros k x H1 Hx.
    assert (Hlt : (k - 1 < 20)%nat).
    { rewrite <- Hl. apply (lookup_lt_Some xs (k - 1) x Hx). }
    destruct (ticks_state_rate (take (k - 1) xs) st He Hu Hd) as [Tt Tr];
      rewrite ?Hr, ?length_take, ?Hl; try lia.
    destruct (rq_works_frame (fst x) (ticks_state (take (k - 1) xs) st))
      as [Rt Rr].
    unfold tick_entry. rewrite Rt, Rr, Tt, Tr, Hr, length_take, Hl.
    split_all; [lia | reflexivity | lia]. }
  destruct Hgates as [G1 G2]. split_all; [exact G1 | exact G2 | |].
  - destruct (lookup_lt_is_Some_2 xs 19) as [x Hx]; [lia|].
    destruct (Hk 20%nat x) as (_ & Kt & Kr); [lia | exact Hx |].
    rewrite <- (take_drop 19 xs) at 1.
    rewrite (drop_S xs x 19 Hx), drop_ge by lia.
    rewrite ticks_state_snoc.
    destruct (rq_works_frame (fst x) (ticks_state (take 19 xs) st))
      as [Rt Rr].
    unfold tick_entry in Kt, Kr. cbn [Nat.sub] in Kt, Kr.
    destruct (run_period_rate (ticks_state (take 19 xs) st) x) as [_ Pr];
      rewrite <- ?Rt, <- ?Rr, ?Kt, ?Kr; try assumption; try lia.
    rewrite Pr, <- Rr, Kr. reflexivity.
  - intros k x H1 Hx sk up down loop.
    destruct (Hk k x H1 Hx) as (Hle & Kt & Kr). fold sk in Kt, Kr.
    assert (Hen : hotplug_enable (hotplug_tuners_ins sk) > 0).
    { rewrite Kt. exact He. }
    destruct (gate_values k) as [Gu Gd]; [lia|].
    assert (Hcu : tick_check_up sk = up).
    { unfold tick_check_up, next_rate. rewrite Kt, Kr, Hu. exact Gu. }
    assert (Hcd : tick_check_down sk = down).
    { unfold tick_check_down, next_rate. rewrite Kt, Kr, Hd. exact Gd. }
    assert (Hloop : tick_frame_of (snd x) sk = loop).
    { apply tick_frame_of_gates; assumption. }
    assert (Htr : snd (hotplug_work_fn (snd x) sk) = f_trace loop).
    { rewrite hotplug_work_fn_trace, <- tick_frame_of_after, Hloop.
      destruct (Z.gtb_spec (hotplug_enable (hotplug_tuners_ins sk)) 0);
        [reflexivity | lia]. }
    assert (Hor : up = true -> k = 10%nat \/ k = 20%nat).
    { subst up. intros H. apply orb_prop in H as [H|H];
        apply Nat.eqb_eq in H; auto. }
    split_all.
    + exact Kr.
    + exact Hloop.
    + exact Htr.
    + rewrite (ticks_trace_lookup xs st (k - 1) x Hx).
      unfold run_period. fold sk. rewrite Htr. reflexivity.
    + rewrite hotplug_work_fn_rate by exact Hen.
      unfold wrap_rate, next_rate. rewrite Kt, Kr, Hu, Hd.
      replace (Z.of_nat k - 1 + 1) with (Z.of_nat k) by lia.
      rewrite to_u32_small by lia.
      change (to_u32 (Z.max 10 20)) with 20.
      destruct (Z.geb_spec (Z.of_nat k) 20);
        destruct (Nat.eqb_spec k 20); try reflexivity; lia.
    + intros t Hin. apply Hor. rewrite <- Hcu.
      apply (trace_needs_gates (snd x) sk (UpTrigger t) Hin). reflexivity.
    + intros c b Hin. apply Hor. rewrite <- Hcu.
      apply (trace_needs_gates (snd x) sk (MarkOnline c b) Hin). reflexivity.
    + intros c Hin. apply Nat.eqb_eq. fold down. rewrite <- Hcd.
      apply (trace_needs_gates (snd x) sk (MarkOffline c) Hin). reflexivity.
Qed.

Lemma C9_rate_gates_witness :
  open_ticks (map fst (run_ticks Periods.periods Periods.enabled))
  = [10; 20]%nat
  /\ open_ticks (map snd (run_ticks Periods.periods Periods.enabled))
     = [20]%nat
  /\ hotplugging_rate (ticks_state Periods.periods Periods.enabled) = 0
  /\ ticks_trace Periods.periods Periods.enabled
     = [[]; []; []; []; []; []; []; []; []; [UpTrigger 0; MarkOnline 2 0];
        []; []; []; []; []; []; []; []; []; [MarkOffline 1]].
Proof.
  destruct (C9_rate_gates_10_20 Periods.periods Periods.enabled)
    as (H1 & H2 & H3 & _);
    [reflexivity | vm_compute; reflexivity | reflexivity | reflexivity
    | reflexivity |].
  split; [exact H1|]. split; [exact H2|]. split; [exact H3|].
  vm_compute. reflexivity.
Defined.
